(** * ws_base: request/response correlation over a named-event channel

    A shallow embedding of [src/ws_base/ws_base.py]: the envelope model
    ([Req], [Rsp], [SerializableException]), the client correlator
    ([ClientBase]), the server dispatcher and admission gate ([ServerBase])
    and the self-signed certificate lifecycle ([generate_new_cert],
    [generate_selfsigned_cert], [get_dns_names_from_cert]).

    Python values are an inductive type, raised exceptions are the [Raise]
    branch of [outcome], and methods that mutate [self] are functions in a
    state-and-exception monad over the object's record. *)

From Stdlib Require Import ZArith List.
From stdpp Require Import base option gmap strings list pretty.

(** ** Python values *)

(** The class of a data object. [cls_serializable] says that the class
    derives from [SerializableDataClass] or [SerializableBaseModel];
    [cls_dataclass] that [dataclasses.is_dataclass] holds for its instances. *)
Record pyclass := PyClass {
  cls_name : string;
  cls_serializable : bool;
  cls_dataclass : bool
}.

(** The values an envelope can carry. A [str] is a Rocq [string], one
    [ascii] per character. A [float] is carried as its IEEE-754 bit pattern:
    the code never computes with it. A [dict] keeps its insertion order and
    has [str] keys, as the JSON-shaped payloads of the channel do. *)
#[warnings="-register-all"]
Inductive pyval :=
| VNone
| VBool (b : bool)
| VInt (n : Z)
| VFloat (bits : Z)
| VStr (s : string)
| VList (l : list pyval)
| VDict (kvs : list (string * pyval))
| VObj (c : pyclass) (fields : list (string * pyval)).

Abbreviation pydict := (list (string * pyval)).

(** [d.get(k)] / [d[k]] on an insertion-ordered dictionary. *)
Fixpoint dict_get (k : string) (d : pydict) : option pyval :=
  match d with
  | [] => None
  | (k', v) :: d' => if String.eqb k k' then Some v else dict_get k d'
  end.

(** The value of a keyword argument with default [None]. *)
Definition kwarg_default (k : string) (d : pydict) : pyval :=
  match dict_get k d with Some v => v | None => VNone end.

(** Values without objects: [None], scalars, and sequences and mappings of
    such values. *)
Fixpoint plain (v : pyval) : bool :=
  match v with
  | VList l => forallb plain l
  | VDict kvs => forallb (fun kv => plain (snd kv)) kvs
  | VObj _ _ => false
  | _ => true
  end.

(** Induction on values, with the induction hypothesis for the items of
    lists, dictionaries and objects. *)
Section pyval_induction.
Variable P : pyval -> Prop.
Hypothesis P_none : P VNone.
Hypothesis P_bool : forall b, P (VBool b).
Hypothesis P_int : forall n, P (VInt n).
Hypothesis P_float : forall bits, P (VFloat bits).
Hypothesis P_str : forall s, P (VStr s).
Hypothesis P_list : forall l, Forall P l -> P (VList l).
Hypothesis P_dict : forall kvs, Forall (fun kv => P (snd kv)) kvs -> P (VDict kvs).
Hypothesis P_obj : forall c fields, Forall (fun kv => P (snd kv)) fields -> P (VObj c fields).

Fixpoint pyval_nested_ind (v : pyval) : P v :=
  let fix on_list (l : list pyval) : Forall P l :=
    match l with
    | [] => Forall_nil_2 P
    | x :: l' => Forall_cons_2 P x l' (pyval_nested_ind x) (on_list l')
    end in
  let fix on_items (kvs : pydict) : Forall (fun kv => P (snd kv)) kvs :=
    match kvs with
    | [] => Forall_nil_2 _
    | kv :: kvs' =>
        Forall_cons_2 (fun kv => P (snd kv)) kv kvs'
          (pyval_nested_ind (snd kv)) (on_items kvs')
    end in
  match v with
  | VNone => P_none
  | VBool b => P_bool b
  | VInt n => P_int n
  | VFloat bits => P_float bits
  | VStr s => P_str s
  | VList l => P_list l (on_list l)
  | VDict kvs => P_dict kvs (on_items kvs)
  | VObj c fields => P_obj c fields (on_items fields)
  end.
End pyval_induction.

(** ** Exceptions and outcomes *)

(** An exception class: its [__name__]; whether it derives from
    [Exception] (a class deriving from [BaseException] only, such as
    [SystemExit], is not caught by [except Exception]); and whether it can be
    called with one positional argument and nothing else (a class whose
    [__init__] requires another argument, such as a keyword-only one, cannot:
    the call raises [TypeError]). *)
Record excclass := ExcClass {
  exc_name : string;
  exc_is_Exception : bool;
  exc_accepts_message : bool
}.

(** An exception instance: class, constructor arguments, and the [tb] and
    [event] attributes the client attaches ([None]: attribute not set). *)
Record pyexc := PyExc {
  exc_class : excclass;
  exc_args : list pyval;
  exc_tb : option pyval;
  exc_event : option pyval
}.

(** An exception raised by the interpreter or a library; the text of its
    message is not modelled. *)
Definition builtin_exc (name : string) : pyexc :=
  PyExc (ExcClass name true true) [] None None.

Definition TypeError : pyexc := builtin_exc "TypeError".
Definition ValueError : pyexc := builtin_exc "ValueError".
Definition AttributeError : pyexc := builtin_exc "AttributeError".

(** [WsBaseError] and its subclasses. [ResponseError.__init__] has the
    keyword-only parameter [tb] without a default, so the class cannot be
    called with a message alone. *)
Definition ResponseError_class : excclass := ExcClass "ResponseError" true false.
Definition ResponseTimeoutError_class : excclass :=
  ExcClass "ResponseTimeoutError" true true.

(** [ResponseError(args..., tb=tb)] *)
Definition ResponseError (args : list pyval) (tb : pyval) : pyexc :=
  PyExc ResponseError_class args (Some tb) None.

(** [ResponseTimeoutError(args...)] *)
Definition ResponseTimeoutError (args : list pyval) : pyexc :=
  PyExc ResponseTimeoutError_class args None None.

(** The result of evaluating a Python expression: a value, or a raised
    exception. *)
Inductive outcome (A : Type) :=
| Ok (a : A)
| Raise (e : pyexc).
Arguments Ok {A} a.
Arguments Raise {A} e.

Definition raised {A} (o : outcome A) : bool :=
  match o with Ok _ => false | Raise _ => true end.

Definition obind {A B} (o : outcome A) (k : A -> outcome B) : outcome B :=
  match o with Ok a => k a | Raise e => Raise e end.

(** ** Interpreter and library services

    What the code calls but does not define: [str()] (also behind f-string
    fields), [str(e)] and [traceback.format_exc()] for a caught exception,
    pydantic's [model_dump_json], [urllib.parse.urlparse], and what an
    instance of a class of the user does when the request wrapper sets its
    [event] and calls its [to_dict]. They are parameters of the
    development. *)
Class PyRuntime := {
  (** [str(v)] *)
  builtin_str : pyval -> string;
  (** [str] of a [str] is the string itself *)
  builtin_str_VStr : forall s, builtin_str (VStr s) = s;
  (** [str(e)] for an exception instance *)
  exc_str : pyexc -> string;
  (** [traceback.format_exc()] while [e] is being handled *)
  format_exc : pyexc -> string;
  (** [obj.to_json()] of a serializable object *)
  to_json : pyclass -> pydict -> string;
  (** [urlparse(url).hostname] *)
  urlparse_hostname : string -> outcome (option string);
  (** [urlparse(url).port]; raises [ValueError] on a port that is not a
      number in range *)
  urlparse_port : string -> outcome (option Z);
  (** [obj.event = value] on an instance of a class of the user: [None]
      when the assignment succeeds, the exception it raises otherwise (a
      frozen dataclass, a class with slots, a pydantic model) *)
  setattr_event : pyclass -> option pyexc;
  (** [obj.to_dict()] on an instance with the given fields whose [event]
      has been set to the given string; [AttributeError] when the class has
      no such method *)
  obj_to_dict : pyclass -> pydict -> string -> outcome pyval
}.

(** ** Envelope model *)

(** class [Status] *)
Module Status.
Definition SUCCESS : string := "success".
Definition ERROR : string := "error".
End Status.

(** [str + str]; any other left operand has no [+] with a [str]. *)
Definition str_concat (v : pyval) (suffix : string) : outcome string :=
  match v with
  | VStr s => Ok (s +:+ suffix)
  | _ => Raise TypeError
  end.

(** def get_req_event(event): return event + '_req' *)
Definition get_req_event (event : pyval) : outcome string :=
  str_concat event "_req".

(** def get_rsp_event(event): return event + '_rsp' *)
Definition get_rsp_event (event : pyval) : outcome string :=
  str_concat event "_rsp".

(** [dataclasses.asdict] below the top level: a dataclass instance becomes
    the dict of its fields, lists and dicts are rebuilt, anything else is
    deep-copied. *)
Fixpoint asdict_inner (v : pyval) : pyval :=
  match v with
  | VList l => VList (map asdict_inner l)
  | VDict kvs => VDict (map (fun kv => (fst kv, asdict_inner (snd kv))) kvs)
  | VObj c fields =>
      if cls_dataclass c
      then VDict (map (fun kv => (fst kv, asdict_inner (snd kv))) fields)
      else v
  | _ => v
  end.

(** [isinstance(v, SerializableDataClass) or isinstance(v, SerializableBaseModel)] *)
Definition is_serializable (v : pyval) : bool :=
  match v with
  | VObj c _ => cls_serializable c
  | _ => false
  end.

(** [self.data.to_json()] in the serializable branch of [to_dict]. *)
Definition data_to_json {RT : PyRuntime} (v : pyval) : pyval :=
  match v with
  | VObj c fields => VStr (to_json c fields)
  | _ => v
  end.

(** The keyword call of a dataclass constructor on the items of [d]: every
    key must name a field. *)
Definition kwargs_known (fields : list string) (d : pydict) : bool :=
  forallb (fun kv => bool_decide (fst kv ∈ fields)) d.

(** @dataclass class SerializableException: name, message, tb *)
Record SerializableException := mkSerializableException {
  se_name : pyval;
  se_message : pyval;
  se_tb : pyval
}.

(** SerializableException.from_dict: the keyword call of the constructor on
    [d]; all three fields are required. *)
Definition SerializableException_from_dict (d : pyval) : outcome SerializableException :=
  match d with
  | VDict kvs =>
      if kwargs_known ["name"; "message"; "tb"] kvs then
        match dict_get "name" kvs, dict_get "message" kvs, dict_get "tb" kvs with
        | Some n, Some m, Some t => Ok (mkSerializableException n m t)
        | _, _, _ => Raise TypeError
        end
      else Raise TypeError
  | _ => Raise TypeError
  end.

(** SerializableException.to_dict: asdict(self) *)
Definition SerializableException_to_dict (e : SerializableException) : pyval :=
  VDict [("name", asdict_inner (se_name e));
         ("message", asdict_inner (se_message e));
         ("tb", asdict_inner (se_tb e))].

(** @dataclass class Req: event, data = None *)
Record Req := mkReq {
  req_event : pyval;
  req_data : pyval
}.

(** Req.from_dict: the keyword call of the constructor on [d]; [event] is
    required, [data] defaults to None. *)
Definition Req_from_dict (d : pyval) : outcome Req :=
  match d with
  | VDict kvs =>
      if kwargs_known ["event"; "data"] kvs then
        match dict_get "event" kvs with
        | Some e => Ok (mkReq e (kwarg_default "data" kvs))
        | None => Raise TypeError
        end
      else Raise TypeError
  | _ => Raise TypeError
  end.

(** Req.to_dict *)
Definition Req_to_dict {RT : PyRuntime} (r : Req) : pyval :=
  if is_serializable (req_data r)
  then VDict [("event", VStr (builtin_str (req_event r)));
              ("data", data_to_json (req_data r))]
  else VDict [("event", asdict_inner (req_event r));
              ("data", asdict_inner (req_data r))].

(** @dataclass class Rsp: status, event = None, data = None *)
Record Rsp := mkRsp {
  rsp_status : pyval;
  rsp_event : pyval;
  rsp_data : pyval
}.

(** Rsp.from_dict: the keyword call of the constructor on [d]; [status] is
    required, [event] and [data] default to None. *)
Definition Rsp_from_dict (d : pyval) : outcome Rsp :=
  match d with
  | VDict kvs =>
      if kwargs_known ["status"; "event"; "data"] kvs then
        match dict_get "status" kvs with
        | Some s => Ok (mkRsp s (kwarg_default "event" kvs) (kwarg_default "data" kvs))
        | None => Raise TypeError
        end
      else Raise TypeError
  | _ => Raise TypeError
  end.

(** Rsp.to_dict *)
Definition Rsp_to_dict {RT : PyRuntime} (r : Rsp) : pyval :=
  if is_serializable (rsp_data r)
  then VDict [("status", rsp_status r);
              ("event", VStr (builtin_str (rsp_event r)));
              ("data", data_to_json (rsp_data r))]
  else VDict [("status", asdict_inner (rsp_status r));
              ("event", asdict_inner (rsp_event r));
              ("data", asdict_inner (rsp_data r))].

(** ** State and exceptions

    A method is a function from the object's state to an outcome and the
    state it leaves behind; an exception keeps the mutations made before it
    was raised. *)
Definition M (S A : Type) : Type := S -> outcome A * S.

Definition ret {S A} (a : A) : M S A := fun s => (Ok a, s).

Definition raise {S A} (e : pyexc) : M S A := fun s => (Raise e, s).

Definition lift {S A} (o : outcome A) : M S A := fun s => (o, s).

Definition bind {S A B} (m : M S A) (k : A -> M S B) : M S B :=
  fun s =>
    match m s with
    | (Ok a, s') => k a s'
    | (Raise e, s') => (Raise e, s')
    end.

Definition gets {S A} (f : S -> A) : M S A := fun s => (Ok (f s), s).

Definition modify {S} (f : S -> S) : M S unit := fun s => (Ok tt, f s).

(** [try: body finally: fin]: [fin] runs on both exits of [body]; an
    exception raised by [fin] replaces the pending result. *)
Definition try_finally {S A} (body : M S A) (fin : M S unit) : M S A :=
  fun s =>
    let '(r, s') := body s in
    match fin s' with
    | (Ok _, s'') => (r, s'')
    | (Raise e, s'') => (Raise e, s'')
    end.

(** [try: body except C as e: handler(e)], where [catches e] says that [e]
    is an instance of [C]. *)
Definition try_except {S A} (body : M S A) (catches : pyexc -> bool)
    (handler : pyexc -> M S A) : M S A :=
  fun s =>
    match body s with
    | (Ok a, s') => (Ok a, s')
    | (Raise e, s') => if catches e then handler e s' else (Raise e, s')
    end.

Notation "x <- m ;; k" := (bind m (fun x => k))
  (at level 100, m at next level, right associativity).
Notation "m ;; k" := (bind m (fun _ => k))
  (at level 100, right associativity).

(** ** Client: [ClientBase] *)

(** The [socketio.Client] handle as the code uses it: the connection flag,
    the event names with a registered handler ([sio.on]), and the events
    handed to [sio.emit]. *)
Record sio_client := SioClient {
  sio_connected : bool;
  sio_handlers : gset string;
  sio_sent : list (string * pyval)
}.

(** The attributes of a [ClientBase] instance. [c_rsp = None] is Python's
    [None] in [self.rsp]; [c_rsp_event] is the flag of the
    [threading.Event]. *)
Record ClientBase := mkClient {
  c_server_url : string;
  c_exception_map : gmap string excclass;
  c_auth_data : pyval;
  c_ssl_verify : bool;
  c_rsp : option Rsp;
  c_rsp_event : bool;
  c_sio : option sio_client
}.

Definition set_rsp (r : option Rsp) (c : ClientBase) : ClientBase :=
  mkClient (c_server_url c) (c_exception_map c) (c_auth_data c) (c_ssl_verify c)
           r (c_rsp_event c) (c_sio c).

Definition set_rsp_event (b : bool) (c : ClientBase) : ClientBase :=
  mkClient (c_server_url c) (c_exception_map c) (c_auth_data c) (c_ssl_verify c)
           (c_rsp c) b (c_sio c).

Definition set_sio (t : option sio_client) (c : ClientBase) : ClientBase :=
  mkClient (c_server_url c) (c_exception_map c) (c_auth_data c) (c_ssl_verify c)
           (c_rsp c) (c_rsp_event c) t.

(** [ClientBase.__init__] without autoconnect. *)
Definition ClientBase_init (server_url : string) (exception_map : gmap string excclass)
    (auth_data : pyval) (ssl_verify : bool) : ClientBase :=
  mkClient server_url exception_map auth_data ssl_verify None false None.

(** property connected: self.sio is not None and self.sio.connected *)
Definition connected (c : ClientBase) : bool :=
  match c_sio c with
  | Some t => sio_connected t
  | None => false
  end.

(** def disconnect(self):
      if self.connected: self.sio.disconnect(); self.sio = None *)
Definition disconnect : M ClientBase unit :=
  fun c => if connected c then (Ok tt, set_sio None c) else (Ok tt, c).

(** [self.sio.emit(event, data)] on the client: without a handle the
    attribute access fails; on a handle that is not connected socketio
    raises, which [handle_socketio_error] turns into [ConnectionError]. *)
Definition client_emit (event : string) (data : pyval) : M ClientBase unit :=
  fun c =>
    match c_sio c with
    | None => (Raise AttributeError, c)
    | Some t =>
        if sio_connected t
        then (Ok tt, set_sio (Some (SioClient true (sio_handlers t)
                                      (sio_sent t ++ [(event, data)]))) c)
        else (Raise (builtin_exc "ConnectionError"), c)
    end.

(** def make_request(self, req):
      self.sio.emit(get_req_event(req.event), req.to_dict()) *)
Definition make_request {RT : PyRuntime} (req : Req) : M ClientBase unit :=
  fun c =>
    match c_sio c with
    | None => (Raise AttributeError, c)
    | Some _ =>
        (ev <- lift (get_req_event (req_event req)) ;;
         client_emit ev (Req_to_dict req)) c
    end.

(** [value[:-4]]: a [str] or a [list] without its last four items (empty
    when there are at most four); other values cannot be sliced. *)
Definition slice_to_minus4 (v : pyval) : outcome pyval :=
  match v with
  | VStr s => Ok (VStr (String.substring 0 (String.length s - 4) s))
  | VList l => Ok (VList (take (length l - 4) l))
  | _ => Raise TypeError
  end.

(** {key: (value[:-4] if key == 'event' else value) for key, value in data.items()} *)
Fixpoint strip_event_items (items : pydict) : outcome pydict :=
  match items with
  | [] => Ok []
  | (key, value) :: rest =>
      obind (if String.eqb key "event" then slice_to_minus4 value else Ok value)
        (fun value' =>
           obind (strip_event_items rest) (fun rest' => Ok ((key, value') :: rest')))
  end.

(** The [wrapper] that [handle_response] registers:
      rsp_data = { ... }; self.rsp = Rsp.from_dict(rsp_data); self.rsp_event.set() *)
Definition handle_response_wrapper (data : pyval) : M ClientBase unit :=
  match data with
  | VDict items =>
      rsp_data <- lift (strip_event_items items) ;;
      r <- lift (Rsp_from_dict (VDict rsp_data)) ;;
      modify (set_rsp (Some r)) ;;
      modify (set_rsp_event true)
  | _ => raise AttributeError
  end.

(** The decorator of [handle_response] applied to a function named
    [func_name]: self.sio.on(func.__name__ + '_rsp')(wrapper) *)
Definition handle_response (func_name : string) : M ClientBase unit :=
  fun c =>
    match c_sio c with
    | None => (Raise AttributeError, c)
    | Some t =>
        (Ok tt, set_sio (Some (SioClient (sio_connected t)
                                 ({[ func_name +:+ "_rsp" ]} ∪ sio_handlers t)
                                 (sio_sent t))) c)
    end.

(** The channel delivering an event to the client: socketio calls the
    handler registered for the event name, if there is one. *)
Definition client_deliver (event : string) (data : pyval) : M ClientBase unit :=
  fun c =>
    match c_sio c with
    | Some t =>
        if bool_decide (event ∈ sio_handlers t)
        then handle_response_wrapper data c
        else (Ok tt, c)
    | None => (Ok tt, c)
    end.

(** [v != s] for a [str] constant [s]: only the same [str] is equal to it. *)
Definition py_ne_str (v : pyval) (s : string) : bool :=
  match v with
  | VStr s' => negb (String.eqb s' s)
  | _ => true
  end.

(** [self._exception_map.get(name)] on a map keyed by class names: a [str]
    is looked up, an unhashable key raises, any other key is absent. *)
Definition exception_map_get (m : gmap string excclass) (name : pyval)
    : outcome (option excclass) :=
  match name with
  | VStr n => Ok (m !! n)
  | VList _ | VDict _ => Raise TypeError
  | VObj c _ => if cls_dataclass c || cls_serializable c then Raise TypeError else Ok None
  | _ => Ok None
  end.

(** The f-string of the fallback branch of [verify_response]. *)
Definition response_error_message {RT : PyRuntime} (e : SerializableException) (event : pyval)
    : string :=
  "Error: " +:+ builtin_str (se_name e) +:+ ", message: " +:+ builtin_str (se_message e)
    +:+ ", event: " +:+ builtin_str event.

(** def verify_response(self, rsp) -> None. The result is the value the
    call evaluates to: [None] when nothing is raised. The mapped class is
    called with the message alone; a class that cannot be called so makes
    the call itself raise [TypeError]. *)
Definition verify_response {RT : PyRuntime} (exception_map : gmap string excclass) (rsp : Rsp)
    : outcome pyval :=
  if py_ne_str (rsp_status rsp) Status.SUCCESS then
    obind (SerializableException_from_dict (rsp_data rsp)) (fun exception =>
    obind (exception_map_get exception_map (se_name exception)) (fun exception_class =>
      match exception_class with
      | Some cls =>
          if exc_accepts_message cls
          then Raise (PyExc cls [se_message exception] (Some (se_tb exception))
                            (Some (rsp_event rsp)))
          else Raise TypeError
      | None =>
          Raise (ResponseError
                   [VStr (response_error_message exception (rsp_event rsp))]
                   (se_tb exception))
      end))
  else Ok VNone.

(** def _get_response(self, timeout). [self.rsp_event.wait(timeout)] returns
    when the flag is set or the timeout has passed and changes nothing
    itself: a response that arrives is a [client_deliver] step before the
    flag is read. The result is [self.rsp]. *)
Definition _get_response : M ClientBase (option Rsp) :=
  is_set <- gets c_rsp_event ;;
  (if negb is_set
   then try_finally disconnect
          (raise (ResponseTimeoutError [VStr "Response timeout"]))
   else ret tt) ;;
  modify (set_rsp_event false) ;;
  gets c_rsp.

(** def _get_and_verify_response(self, timeout):
      rsp = self._get_response(timeout); self.verify_response(rsp); return rsp *)
Definition _get_and_verify_response {RT : PyRuntime} : M ClientBase Rsp :=
  fun c =>
    (stored <- _get_response ;;
     match stored with
     | Some rsp =>
         lift (verify_response (c_exception_map c) rsp) ;;
         ret rsp
     | None => raise AttributeError
     end) c.

(** ** Certificates and the file system *)

(** An RSA private key: size, public exponent, and the secret drawn by the
    generator. *)
Record rsa_private_key := RSAPrivateKey {
  key_size : Z;
  key_public_exponent : Z;
  key_secret : N
}.

(** [key.public_key()] *)
Record rsa_public_key := RSAPublicKey {
  pub_size : Z;
  pub_exponent : Z;
  pub_of_secret : N
}.

Definition public_key (k : rsa_private_key) : rsa_public_key :=
  RSAPublicKey (key_size k) (key_public_exponent k) (key_secret k).

Inductive name_oid := COMMON_NAME | ORGANIZATION_NAME | COUNTRY_NAME.

(** [x509.Name]: a list of [x509.NameAttribute(oid, value)]. *)
Abbreviation x509_name := (list (name_oid * string)).

Inductive general_name :=
| DNSName (value : string)
| IPAddress (value : string)
| RFC822Name (value : string).

Inductive extension_value :=
| BasicConstraints (ca : bool) (path_length : option Z)
| SubjectAlternativeName (names : list general_name)
| KeyUsage (bits : N).

Record extension := Extension {
  ext_value : extension_value;
  ext_critical : bool
}.

Inductive hash_algorithm := SHA1 | SHA256 | SHA512.

(** What [x509.CertificateBuilder] holds when [sign] is called. Times are
    seconds since the epoch (UTC). *)
Record certificate := Certificate {
  cert_subject : x509_name;
  cert_issuer : x509_name;
  cert_public_key : rsa_public_key;
  cert_serial_number : Z;
  cert_not_valid_before : Z;
  cert_not_valid_after : Z;
  cert_extensions : list extension;
  cert_signed_by : rsa_private_key;
  cert_signature_hash : hash_algorithm
}.

(** The bytes of a file: the PEM encoding of a certificate, the PEM
    encoding of a private key ([TraditionalOpenSSL], [NoEncryption]), or
    anything else. Decoding a PEM encoding gives back what was encoded. *)
Inductive file_data :=
| CertificatePEM (c : certificate)
| PrivateKeyPEM (k : rsa_private_key)
| OtherBytes (s : string).

(** What a call of the generator draws from its environment:
    [rsa.generate_private_key], [x509.random_serial_number()] and
    [datetime.now(UTC)]. *)
Record cert_env := CertEnv {
  env_key_secret : N;
  env_serial_number : Z;
  env_now : Z
}.

(** [timedelta(days=d)] in seconds. *)
Definition timedelta_days (d : Z) : Z := (d * 86400)%Z.

(** [x509.NameAttribute(NameOID.COMMON_NAME, value)]: the library accepts a
    common name of 1 to 64 characters and raises [ValueError] for any
    other. *)
Definition NameAttribute_COMMON_NAME (value : string) : outcome (name_oid * string) :=
  if Nat.leb 1 (String.length value) && Nat.leb (String.length value) 64
  then Ok (COMMON_NAME, value)
  else Raise ValueError.

(** [value.isascii()] *)
Definition isascii (value : string) : bool :=
  forallb (fun a => Nat.ltb (Ascii.nat_of_ascii a) 128) (String.list_ascii_of_string value).

(** [x509.DNSName(value)]: the library raises [ValueError] for a value
    that is not ASCII. *)
Definition x509_DNSName (value : string) : outcome general_name :=
  if isascii value then Ok (DNSName value) else Raise ValueError.

(** A list comprehension whose item expression can raise. *)
Fixpoint map_outcome {A B} (f : A -> outcome B) (l : list A) : outcome (list B) :=
  match l with
  | [] => Ok []
  | x :: rest =>
      obind (f x) (fun y => obind (map_outcome f rest) (fun ys => Ok (y :: ys)))
  end.

(** The second half of [generate_selfsigned_cert], from [san = ...] on:
    the certificate built and signed for a name and alternative names that
    the library has accepted, and the two PEM encodings. The serial number
    and the time are what [x509.random_serial_number()] and
    [datetime.now(UTC)] gave, which the builder accepts. *)
Definition signed_pems (env : cert_env) (name : x509_name)
    (alt_names : list general_name) (key : rsa_private_key) : file_data * file_data :=
  let san := SubjectAlternativeName alt_names in
  let basic_constraints := BasicConstraints true (Some 0%Z) in
  let now := env_now env in
  let cert :=
    Certificate name name (public_key key) (env_serial_number env)
      now (now + timedelta_days (365 * 10))%Z
      [Extension basic_constraints false; Extension san false]
      key SHA256 in
  (CertificatePEM cert, PrivateKeyPEM key).

(** def generate_selfsigned_cert(hostname, ip_addresses=None, key=None) *)
Definition generate_selfsigned_cert (env : cert_env) (hostname : string)
    (ip_addresses : option (list string)) (key : option rsa_private_key)
    : outcome (file_data * file_data) :=
  let key :=
    match key with
    | None => RSAPrivateKey 4096%Z 65537%Z (env_key_secret env)
    | Some k => k
    end in
  obind (NameAttribute_COMMON_NAME hostname) (fun attribute =>
  let name := [attribute] in
  obind (x509_DNSName hostname) (fun dns_name =>
  let alt_names := [dns_name] in
  obind
    (match ip_addresses with
     | Some (ip :: ips) =>
         obind (map_outcome x509_DNSName (ip :: ips)) (fun more => Ok (alt_names ++ more))
     | _ => Ok alt_names
     end)
    (fun alt_names => Ok (signed_pems env name alt_names key)))).

(** [cert.extensions.get_extension_for_class(x509.SubjectAlternativeName)] *)
Fixpoint get_san_extension (exts : list extension) : outcome (list general_name) :=
  match exts with
  | [] => Raise (builtin_exc "ExtensionNotFound")
  | Extension (SubjectAlternativeName names) _ :: _ => Ok names
  | _ :: rest => get_san_extension rest
  end.

(** [ext.value.get_values_for_type(x509.DNSName)] *)
Fixpoint get_values_for_DNSName (names : list general_name) : list string :=
  match names with
  | [] => []
  | DNSName v :: rest => v :: get_values_for_DNSName rest
  | _ :: rest => get_values_for_DNSName rest
  end.

(** [x509.load_pem_x509_certificate(data)] *)
Definition load_pem_x509_certificate (data : file_data) : outcome certificate :=
  match data with
  | CertificatePEM c => Ok c
  | _ => Raise ValueError
  end.

(** def get_dns_names_from_cert(pem_cert_data) *)
Definition get_dns_names_from_cert (pem_cert_data : file_data) : outcome (list string) :=
  obind (load_pem_x509_certificate pem_cert_data) (fun cert =>
  obind (get_san_extension (cert_extensions cert)) (fun names =>
  Ok (get_values_for_DNSName names))).

(** A [pathlib.Path]: its components; [[]] is the directory that relative
    paths start from. *)
Abbreviation path := (list string).

(** [p.parent] *)
Definition parent (p : path) : path := removelast p.

(** The prefixes of a path, shortest first, the path itself last. *)
Fixpoint prefixes (p : path) : list path :=
  match p with
  | [] => []
  | x :: q => [x] :: map (cons x) (prefixes q)
  end.

(** The file system: the directories and the regular files. *)
Record filesystem := FileSystem {
  fs_dirs : gset path;
  fs_files : gmap path file_data
}.

Definition is_dir (fs : filesystem) (p : path) : bool :=
  match p with
  | [] => true
  | _ => bool_decide (p ∈ fs_dirs fs)
  end.

Definition is_file (fs : filesystem) (p : path) : bool :=
  bool_decide (is_Some (fs_files fs !! p)).

(** [p.exists()] *)
Definition path_exists (fs : filesystem) (p : path) : bool :=
  is_dir fs p || is_file fs p.

(** [p.mkdir(parents=True, exist_ok=True)]: nothing to do when [p] is a
    directory; otherwise it creates the missing directories down to [p], and
    fails when [p] or one of its ancestors is a regular file. *)
Definition mkdir_parents (p : path) : M filesystem unit :=
  fun fs =>
    if is_dir fs p then
      (Ok tt, fs)
    else if is_file fs p then
      (Raise (builtin_exc "FileExistsError"), fs)
    else if existsb (is_file fs) (prefixes (parent p)) then
      (Raise (builtin_exc "NotADirectoryError"), fs)
    else
      (Ok tt, FileSystem (list_to_set (prefixes p) ∪ fs_dirs fs) (fs_files fs)).

(** [p.write_bytes(data)]: the directory of [p] must exist. *)
Definition write_bytes (p : path) (data : file_data) : M filesystem unit :=
  fun fs =>
    if is_dir fs p then
      (Raise (builtin_exc "IsADirectoryError"), fs)
    else if existsb (is_file fs) (prefixes (parent p)) then
      (Raise (builtin_exc "NotADirectoryError"), fs)
    else if negb (is_dir fs (parent p)) then
      (Raise (builtin_exc "FileNotFoundError"), fs)
    else
      (Ok tt, FileSystem (fs_dirs fs) (<[p := data]> (fs_files fs))).

(** [p.read_bytes()] *)
Definition read_bytes (p : path) : M filesystem file_data :=
  fun fs =>
    match fs_files fs !! p with
    | Some data => (Ok data, fs)
    | None =>
        if is_dir fs p
        then (Raise (builtin_exc "IsADirectoryError"), fs)
        else (Raise (builtin_exc "FileNotFoundError"), fs)
    end.

(** An attribute access on a [Path] argument that may be [None]. *)
Definition path_of {S} (p : option path) : M S path :=
  match p with
  | Some q => ret q
  | None => raise AttributeError
  end.

(** def generate_new_cert(certfile_path, keyfile_path, hostname) *)
Definition generate_new_cert (env : cert_env) (certfile_path keyfile_path : option path)
    (hostname : string) : M filesystem unit :=
  pems <- lift (generate_selfsigned_cert env hostname None None) ;;
  cert <- path_of certfile_path ;;
  mkdir_parents (parent cert) ;;
  write_bytes cert (fst pems) ;;
  key <- path_of keyfile_path ;;
  write_bytes key (snd pems).

(** ** Server: [ServerBase] *)

(** What a request handler hands back: a [Rsp] object, a [Req] object, or
    some other value ([None], a number, a string, a list, a dictionary, or
    as [VObj] an instance of a class of the user). *)
Inductive handler_result :=
| RetRsp (r : Rsp)
| RetReq (r : Req)
| RetVal (v : pyval).

(** A request handler [func(sid, event, data)] as written by the user of
    the library: it returns or raises, and does not touch the channel. *)
Definition handler : Type := string -> pyval -> pyval -> outcome handler_result.

(** One call of [sio.emit(event, data=data, to=sid)]. *)
Record emission := Emission {
  em_event : string;
  em_data : pyval;
  em_to : string
}.

(** The [socketio.Server] object as the code uses it: the handlers
    registered with [sio.on], the admitted sessions, and the calls of
    [sio.emit] in order. *)
Record sio_server := SioServer {
  srv_handlers : gmap string handler;
  srv_sessions : gset string;
  srv_emitted : list emission
}.

(** The attributes of a [ServerBase] instance. *)
Record ServerBase := mkServer {
  s_hostname : string;
  s_port : Z;
  s_certfile_path : option path;
  s_keyfile_path : option path;
  s_auth_key : option string;
  s_sio : option sio_server
}.

Definition set_server_sio (t : option sio_server) (s : ServerBase) : ServerBase :=
  mkServer (s_hostname s) (s_port s) (s_certfile_path s) (s_keyfile_path s)
           (s_auth_key s) t.

(** The emissions made so far. *)
Definition emitted (s : ServerBase) : list emission :=
  match s_sio s with
  | Some t => srv_emitted t
  | None => []
  end.

(** The sessions the channel has admitted. *)
Definition sessions (s : ServerBase) : gset string :=
  match s_sio s with
  | Some t => srv_sessions t
  | None => ∅
  end.

(** Truth value of an [Optional[str]]. *)
Definition truthy_str (s : option string) : bool :=
  match s with
  | Some s => negb (String.eqb s EmptyString)
  | None => false
  end.

(** Truth value of an [Optional[int]]. *)
Definition truthy_int (n : option Z) : bool :=
  match n with
  | Some n => negb (n =? 0)%Z
  | None => false
  end.

(** [ServerBase.__init__], the part that resolves [self.hostname] and
    [self.port] (up to the check that both are set). *)
Definition init_endpoint {RT : PyRuntime} (hostname : option string) (port : option Z)
    (url : option string) : outcome (string * Z) :=
  let not_url :=
    if truthy_str url then Raise ValueError else Ok (hostname, port) in
  obind
    (match url with
     | Some u =>
         if truthy_str url then
           if truthy_str hostname || truthy_int port then Raise ValueError
           else
             obind (urlparse_hostname u) (fun h =>
             obind (urlparse_port u) (fun p => Ok (h, p)))
         else not_url
     | None => not_url
     end)
    (fun hp =>
       if negb (truthy_str (fst hp)) || negb (truthy_int (snd hp))
       then Raise ValueError
       else
         match hp with
         | (Some h, Some p) => Ok (h, p)
         | _ => Raise ValueError
         end).

(** [ServerBase.__init__], the block under [if generate_cert:]. *)
Definition init_certificate (env : cert_env) (certfile_path keyfile_path : option path)
    (hostname : string) : M filesystem unit :=
  cert <- path_of certfile_path ;;
  cert_exists <- gets (fun fs => path_exists fs cert) ;;
  missing <-
    (if negb cert_exists then ret true
     else
       key <- path_of keyfile_path ;;
       key_exists <- gets (fun fs => path_exists fs key) ;;
       ret (negb key_exists)) ;;
  if (missing : bool) then
    generate_new_cert env certfile_path keyfile_path hostname
  else
    data <- read_bytes cert ;;
    dns_names <- lift (get_dns_names_from_cert data) ;;
    if negb (bool_decide (hostname ∈ dns_names))
    then generate_new_cert env certfile_path keyfile_path hostname
    else ret tt.

(** def __init__(self, hostname, port, url, certfile_path, keyfile_path,
                 generate_cert, auth_key) *)
Definition ServerBase_init {RT : PyRuntime} (env : cert_env)
    (hostname : option string) (port : option Z) (url : option string)
    (certfile_path keyfile_path : option path) (generate_cert : bool)
    (auth_key : option string) : M filesystem ServerBase :=
  hp <- lift (init_endpoint hostname port url) ;;
  (if generate_cert
   then init_certificate env certfile_path keyfile_path (fst hp)
   else ret tt) ;;
  ret (mkServer (fst hp) (snd hp) certfile_path keyfile_path auth_key None).

(** [self.sio.emit(event, data=data, to=sid)] on the server. *)
Definition server_emit (event : string) (data : pyval) (sid : string) : M ServerBase unit :=
  fun s =>
    match s_sio s with
    | None => (Raise AttributeError, s)
    | Some t =>
        (Ok tt, set_server_sio
                  (Some (SioServer (srv_handlers t) (srv_sessions t)
                           (srv_emitted t ++ [Emission event data sid]))) s)
    end.

(** The [except Exception as e] branch of the request wrapper: the error
    response built from [e]. *)
Definition error_response {RT : PyRuntime} (e : pyexc) : Rsp :=
  mkRsp (VStr Status.ERROR) VNone
    (SerializableException_to_dict
       (mkSerializableException (VStr (exc_name (exc_class e)))
                                (VStr (exc_str e))
                                (VStr (format_exc e)))).

(** [rsp.event = get_rsp_event(req.event)] on what the handler returned.
    The wrapper does not check the class: a [Rsp] and a [Req] take the
    attribute, an instance of another class decides itself, and [None],
    numbers, strings, lists and dictionaries have no attribute to set. *)
Definition set_event {RT : PyRuntime} (rsp : handler_result) : outcome unit :=
  match rsp with
  | RetRsp _ | RetReq _ => Ok tt
  | RetVal (VObj c _) =>
      match setattr_event c with
      | Some e => Raise e
      | None => Ok tt
      end
  | RetVal _ => Raise AttributeError
  end.

(** [rsp.to_dict()] once [rsp.event] is [event]. *)
Definition result_to_dict {RT : PyRuntime} (rsp : handler_result) (event : string)
    : outcome pyval :=
  match rsp with
  | RetRsp r => Ok (Rsp_to_dict (mkRsp (rsp_status r) (VStr event) (rsp_data r)))
  | RetReq r => Ok (Req_to_dict (mkReq (VStr event) (req_data r)))
  | RetVal (VObj c fields) => obj_to_dict c fields event
  | RetVal _ => Raise AttributeError
  end.

(** The last two lines of the wrapper:
      rsp.event = get_rsp_event(req.event)
      self.sio.emit(rsp.event, data=rsp.to_dict(), to=sid)
    In the second, [self.sio.emit] is looked up before the arguments are
    evaluated. *)
Definition emit_response {RT : PyRuntime} (rsp : handler_result) (req_event : pyval)
    (sid : string) : M ServerBase unit :=
  event <- lift (get_rsp_event req_event) ;;
  lift (set_event rsp) ;;
  sio <- gets s_sio ;;
  (match sio with
   | Some _ => ret tt
   | None => raise AttributeError
   end) ;;
  payload <- lift (result_to_dict rsp event) ;;
  server_emit event payload sid.

(** The [wrapper(sid, data)] that [handle_request] registers for [func]. *)
Definition handle_request_wrapper {RT : PyRuntime} (func : handler) (sid : string)
    (data : pyval) : M ServerBase unit :=
  req <- lift (Req_from_dict data) ;;
  rsp <- try_except (lift (func sid (req_event req) (req_data req)))
           (fun e => exc_is_Exception (exc_class e))
           (fun e => ret (RetRsp (error_response e))) ;;
  emit_response rsp (req_event req) sid.

(** The decorator of [handle_request] applied to [func] named [func_name]:
    self.sio.on(func.__name__ + '_req')(wrapper) *)
Definition handle_request (func_name : string) (func : handler) : M ServerBase unit :=
  fun s =>
    match s_sio s with
    | None => (Raise AttributeError, s)
    | Some t =>
        (Ok tt, set_server_sio
                  (Some (SioServer (<[func_name +:+ "_req" := func]> (srv_handlers t))
                           (srv_sessions t) (srv_emitted t))) s)
    end.

(** [v != k] for an [Optional[str]] [k]: [None] is equal to [None] only, a
    [str] to the same [str] only. *)
Definition py_ne_optstr (v : pyval) (k : option string) : bool :=
  match k, v with
  | None, VNone => false
  | Some k', VStr s => negb (String.eqb s k')
  | _, _ => true
  end.

Definition ConnectionRefusedError : pyexc :=
  PyExc (ExcClass "ConnectionRefusedError" true true) [VStr "Authentication failed"]
    None None.

(** The [connect(sid, environ, auth)] handler registered by
    [connection_callbacks]. *)
Definition connect_handler (sid : string) (environ auth : pyval) : M ServerBase unit :=
  fun s =>
    if py_ne_optstr auth (s_auth_key s)
    then (Raise ConnectionRefusedError, s)
    else (Ok tt, s).

(** The channel handling a connection request: socketio calls the [connect]
    handler and admits the session unless the handler raises. *)
Definition server_accept (sid : string) (environ auth : pyval) : M ServerBase unit :=
  fun s =>
    match connect_handler sid environ auth s with
    | (Ok _, s') =>
        match s_sio s' with
        | Some t =>
            (Ok tt, set_server_sio
                      (Some (SioServer (srv_handlers t) ({[ sid ]} ∪ srv_sessions t)
                               (srv_emitted t))) s')
        | None => (Ok tt, s')
        end
    | (Raise e, s') => (Raise e, s')
    end.

(** The channel delivering an event of session [sid] to the server: socketio
    calls the registered wrapper for an admitted session, and drops the event
    otherwise. *)
Definition server_deliver {RT : PyRuntime} (sid event : string) (data : pyval)
    : M ServerBase unit :=
  fun s =>
    match s_sio s with
    | Some t =>
        if bool_decide (sid ∈ srv_sessions t) then
          match srv_handlers t !! event with
          | Some func => handle_request_wrapper func sid data s
          | None => (Ok tt, s)
          end
        else (Ok tt, s)
    | None => (Ok tt, s)
    end.

(** ** Notions used in the statements *)

(** The dictionary that the comprehension of the response wrapper builds
    when the event is the string [ev]. *)
Definition with_stripped_event (ev : string) (items : pydict) : pydict :=
  map (fun kv =>
         if String.eqb (fst kv) "event"
         then (fst kv, VStr (String.substring 0 (String.length ev - 4) ev))
         else kv) items.

(** The state after one more [sio.emit]. *)
Definition after_emit (s : ServerBase) (t : sio_server) (e : emission) : ServerBase :=
  set_server_sio
    (Some (SioServer (srv_handlers t) (srv_sessions t) (srv_emitted t ++ [e]))) s.

(** What [to_dict] makes of the data of an envelope: the JSON text of a
    serializable object, the [asdict] form of anything else. *)
Definition wire_data {RT : PyRuntime} (v : pyval) : pyval :=
  if is_serializable v then data_to_json v else asdict_inner v.

(** The configured auth key as a value. *)
Definition auth_key_value (k : option string) : pyval :=
  match k with
  | Some s => VStr s
  | None => VNone
  end.

(** A well-formed file system: the directory of a directory and of a
    regular file is a directory, and a regular file is not a directory. *)
Definition fs_wf (fs : filesystem) : Prop :=
  (forall p, is_dir fs p = true -> is_dir fs (parent p) = true)
  /\ (forall p, is_file fs p = true -> is_dir fs (parent p) = true /\ is_dir fs p = false).

(** The layouts in which a certificate and a key can be written by
    [generate_new_cert]: two different paths, neither a directory, neither
    an ancestor of the other; no ancestor of the certificate is a regular
    file; and the directory of the key exists or is among the directories
    made for the certificate. *)
Record pair_writable (fs : filesystem) (cert key : path) : Prop := {
  pw_distinct : cert <> key;
  pw_cert_not_dir : is_dir fs cert = false;
  pw_key_not_dir : is_dir fs key = false;
  pw_cert_ancestors : existsb (is_file fs) (prefixes (parent cert)) = false;
  pw_cert_not_above_key : cert ∉ prefixes (parent key);
  pw_key_not_above_cert : key ∉ prefixes (parent cert);
  pw_key_directory :
    is_dir fs (parent key) = true \/ parent key ∈ prefixes (parent cert)
}.

(** The hostnames for which the library builds the common name and the
    DNS name: 1 to 64 characters, all ASCII. *)
Definition accepted_hostname (hostname : string) : bool :=
  Nat.leb 1 (String.length hostname) && Nat.leb (String.length hostname) 64
  && isascii hostname.

(** The certificate and key files that [generate_new_cert] writes for such
    a hostname. *)
Definition new_cert_pem (env : cert_env) (hostname : string) : file_data :=
  fst (signed_pems env [(COMMON_NAME, hostname)] [DNSName hostname]
         (RSAPrivateKey 4096%Z 65537%Z (env_key_secret env))).

Definition new_key_pem (env : cert_env) (hostname : string) : file_data :=
  snd (signed_pems env [(COMMON_NAME, hostname)] [DNSName hostname]
         (RSAPrivateKey 4096%Z 65537%Z (env_key_secret env))).

(** What the block leaves behind when it regenerates the pair in [fs]: the
    two paths hold the generated data, every other file is as in [fs], the
    new certificate names the hostname, and a further call changes
    nothing. *)
Definition regenerated (env : cert_env) (fs fs' : filesystem) (cert key : path)
    (hostname : string) : Prop :=
  fs_files fs' !! cert = Some (new_cert_pem env hostname)
  /\ fs_files fs' !! key = Some (new_key_pem env hostname)
  /\ (forall p, p <> cert -> p <> key -> fs_files fs' !! p = fs_files fs !! p)
  /\ (exists dns_names,
        get_dns_names_from_cert (new_cert_pem env hostname) = Ok dns_names
        /\ hostname ∈ dns_names)
  /\ forall env' : cert_env,
       init_certificate env' (Some cert) (Some key) hostname fs' = (Ok tt, fs').

(** ** One exchange over the channel *)

(** The channel calling the client's handlers for a list of emissions; what
    a handler raises stays on the channel's thread. *)
Fixpoint deliver_all (ems : list emission) (c : ClientBase) : ClientBase :=
  match ems with
  | [] => c
  | e :: rest => deliver_all rest (snd (client_deliver (em_event e) (em_data e) c))
  end.

(** The data flow of one request: the client emits the request, the channel
    hands it to the server under session [sid], the emissions the server
    makes for [sid] reach the client's handlers, and the client waits for
    and verifies the response. *)
Definition exchange {RT : PyRuntime} (sid : string) (req : Req) (c : ClientBase)
    (s : ServerBase) : outcome Rsp :=
  match make_request req c with
  | (Raise e, _) => Raise e
  | (Ok _, c1) =>
      match last (match c_sio c1 with Some t => sio_sent t | None => [] end) with
      | None => Raise AttributeError
      | Some (event, payload) =>
          let s1 := snd (server_deliver sid event payload s) in
          let answers :=
            filter (fun e => em_to e = sid) (drop (length (emitted s)) (emitted s1)) in
          fst (_get_and_verify_response (deliver_all answers c1))
      end
  end.

(** ** A sample runtime and sample objects

    An instance of [PyRuntime] for evaluating the definitions on concrete
    inputs. [str()] and the JSON text are the interpreter's on [None],
    [bool], [int] and on [str] without characters to escape, which is all
    the sample inputs use; the URL parser knows the sample URLs; the class
    [Frozen] is a frozen dataclass, and the class [Report] is the only one
    with a [to_dict] method, which gives its fields. *)
Module Sample.

Definition str (v : pyval) : string :=
  match v with
  | VNone => "None"
  | VBool true => "True"
  | VBool false => "False"
  | VInt n => pretty n
  | VStr s => s
  | _ => "<object>"
  end.

Definition dquote : Ascii.ascii := Ascii.ascii_of_nat 34.

Definition json_scalar (v : pyval) : string :=
  match v with
  | VNone => "null"
  | VBool true => "true"
  | VBool false => "false"
  | VInt n => pretty n
  | VStr s => String.String dquote (s +:+ String.String dquote EmptyString)
  | _ => "null"
  end.

Fixpoint json_fields (fields : pydict) : string :=
  match fields with
  | [] => EmptyString
  | [(k, v)] => json_scalar (VStr k) +:+ ":" +:+ json_scalar v
  | (k, v) :: rest =>
      json_scalar (VStr k) +:+ ":" +:+ json_scalar v +:+ "," +:+ json_fields rest
  end.

Definition hostname_of (url : string) : outcome (option string) :=
  if String.eqb url "wss://example.org:8443" then Ok (Some "example.org")
  else if String.eqb url "wss://example.org" then Ok (Some "example.org")
  else Ok None.

Definition port_of (url : string) : outcome (option Z) :=
  if String.eqb url "wss://example.org:8443" then Ok (Some 8443%Z)
  else if String.eqb url "wss://example.org:99999" then Raise ValueError
  else Ok None.

#[export] Instance runtime : PyRuntime := {|
  builtin_str := str;
  builtin_str_VStr := fun s => eq_refl;
  exc_str := fun e =>
    match exc_args e with
    | [a] => str a
    | _ => EmptyString
    end;
  format_exc := fun e =>
    "Traceback (most recent call last): " +:+ exc_name (exc_class e);
  to_json := fun _ fields => "{" +:+ json_fields fields +:+ "}";
  urlparse_hostname := hostname_of;
  urlparse_port := port_of;
  setattr_event := fun c =>
    if String.eqb (cls_name c) "Frozen"
    then Some (builtin_exc "FrozenInstanceError")
    else None;
  obj_to_dict := fun c fields _ =>
    if String.eqb (cls_name c) "Report" then Ok (VDict fields) else Raise AttributeError
|}.

(** A dataclass deriving from [SerializableDataClass]. *)
Definition Point : pyclass := PyClass "Point" true true.

(** A domain error known to the client, and the client's exception map. *)
Definition JobError : excclass := ExcClass "JobError" true true.

Definition exception_map : gmap string excclass := {[ "JobError" := JobError ]}.

(** A connected client with a response handler registered for [ping]. *)
Definition client : ClientBase :=
  mkClient "wss://example.org:8443" exception_map (VStr "secret") true None false
    (Some (SioClient true {[ "ping_rsp" ]} [])).

(** Handlers: one that returns a success response echoing its data, one
    that returns a bare value, one that raises. *)
Definition ping : handler :=
  fun _ _ data => Ok (RetRsp (mkRsp (VStr Status.SUCCESS) VNone data)).

Definition bare : handler :=
  fun _ _ _ => Ok (RetVal (VInt 7)).

Definition failing : handler :=
  fun _ _ _ => Raise (PyExc JobError [VStr "no such job"] None None).

(** A started server with session [sid1] admitted. *)
Definition server : ServerBase :=
  mkServer "example.org" 8443 (Some ["certs"; "server.pem"]) (Some ["certs"; "server.key"])
    (Some "secret")
    (Some (SioServer {[ "ping_req" := ping ]} {[ "sid1" ]} [])).

Definition env : cert_env := CertEnv 17 1001 1700000000.

(** A file system holding only the starting directory. *)
Definition empty_fs : filesystem := FileSystem ∅ ∅.

(** A file system with a certificate and key generated for another
    hostname. *)
Definition stale_fs : filesystem :=
  FileSystem {[ ["certs"] ]}
    (<[ ["certs"; "server.pem"] := new_cert_pem env "old.example.org" ]>
       (<[ ["certs"; "server.key"] := new_key_pem env "old.example.org" ]> ∅)).

End Sample.

(** ** More of the client: connecting *)

Definition set_server_url (url : string) (c : ClientBase) : ClientBase :=
  mkClient url (c_exception_map c) (c_auth_data c) (c_ssl_verify c)
           (c_rsp c) (c_rsp_event c) (c_sio c).

(** def connection_callbacks(self) of the client: three handlers that only
    write to the log, registered with [@self.sio.event]; without a handle
    the decorator fails. They are not response handlers, so they are not
    recorded in [sio_handlers], which holds the channels that
    [handle_response] registers. *)
Definition client_connection_callbacks : M ClientBase unit :=
  fun c =>
    match c_sio c with
    | None => (Raise AttributeError, c)
    | Some _ => (Ok tt, c)
    end.

(** [handle_socketio_error(self.sio.connect)(self.server_url, auth=...)]:
    [reachable] says whether the server answers and admits the client; when
    it does not, socketio raises its connection error, which the decorator
    turns into [ConnectionError]. *)
Definition sio_connect (reachable : bool) : M ClientBase unit :=
  fun c =>
    match c_sio c with
    | None => (Raise AttributeError, c)
    | Some t =>
        if reachable
        then (Ok tt, set_sio (Some (SioClient true (sio_handlers t) (sio_sent t))) c)
        else (Raise (builtin_exc "ConnectionError"), c)
    end.

(** The inner [_connect(self, url=None)] of the module-level [connect], up
    to the call of [self.sio.connect]: a client without a handle gets a new
    one and registers its callbacks; [callbacks] is the [callbacks()] method
    of the subclass. *)
Definition _connect_prepare (callbacks : M ClientBase unit) (url : option string)
    : M ClientBase unit :=
  fun c =>
    ((match c_sio c with
      | None =>
          modify (set_sio (Some (SioClient false ∅ []))) ;;
          client_connection_callbacks ;;
          callbacks
      | Some _ => ret tt
      end) ;;
     (match url with
      | Some u => modify (set_server_url u)
      | None => ret tt
      end)) c.

(** The inner [_connect(self, url=None)] of the module-level [connect]. *)
Definition _connect (callbacks : M ClientBase unit) (reachable : bool)
    (url : option string) : M ClientBase unit :=
  fun c =>
    if negb (connected c)
    then (_connect_prepare callbacks url ;; sio_connect reachable) c
    else (Ok tt, c).


(** A [callbacks()] that decorates one function per name with
    [self.handle_response()]. *)
Fixpoint register_response_handlers (names : list string) : M ClientBase unit :=
  match names with
  | [] => ret tt
  | name :: rest => handle_response name ;; register_response_handlers rest
  end.

(** The channel handling a connection attempt: a server that is not
    started cannot be reached; a started one decides in its [connect]
    handler, which is given the client's auth data as it is. *)
Definition server_reach (sid : string) (auth : pyval) : M ServerBase unit :=
  fun s =>
    match s_sio s with
    | None => (Raise (builtin_exc "ConnectionError"), s)
    | Some _ => server_accept sid VNone auth s
    end.

(** [self.connect()] of a client against a server over the channel: the
    call of [self.sio.connect] succeeds when the server admits the client's
    auth data. A client that is connected makes no attempt, and neither does
    one whose callbacks raise. *)
Definition connect_to (sid : string) (callbacks : M ClientBase unit)
    (c : ClientBase) (s : ServerBase) : outcome unit * ClientBase * ServerBase :=
  if connected c then (Ok tt, c, s)
  else
    match _connect_prepare callbacks None c with
    | (Raise e, c1) => (Raise e, c1, s)
    | (Ok _, c1) =>
        let '(admitted, s') := server_reach sid (c_auth_data c1) s in
        let '(r, c2) := sio_connect (negb (raised admitted)) c1 in
        (r, c2, s')
    end.

(** ** More of the server *)

(** property url: the scheme is [wss] when a certificate path is set (a
    [Path] is always true), [ws] otherwise. *)
Definition ServerBase_url (s : ServerBase) : string :=
  (match s_certfile_path s with Some _ => "wss" | None => "ws" end)
    +:+ "://" +:+ s_hostname s +:+ ":" +:+ pretty (s_port s).

(** ** The exception map *)

(** A member of a module as [inspect.getmembers] lists it: a class deriving
    from [BaseException], another class, or a value that is not a class. *)
Inductive module_member :=
| ExceptionClass (cls : excclass)
| OtherClass
| NotAClass.

(** def build_exception_map(module): the dict comprehension over the
    members; a later item with the same name replaces an earlier one. *)
Fixpoint build_exception_map_from (acc : gmap string excclass)
    (members : list (string * module_member)) : gmap string excclass :=
  match members with
  | [] => acc
  | (name, ExceptionClass cls) :: rest => build_exception_map_from (<[name := cls]> acc) rest
  | _ :: rest => build_exception_map_from acc rest
  end.

Definition build_exception_map (members : list (string * module_member))
    : gmap string excclass :=
  build_exception_map_from ∅ members.

(** ** Further notions used in the statements *)

(** Values in which every object is a dataclass instance. *)
Fixpoint only_dataclasses (v : pyval) : bool :=
  match v with
  | VList l => forallb only_dataclasses l
  | VDict kvs => forallb (fun kv => only_dataclasses (snd kv)) kvs
  | VObj c fields =>
      cls_dataclass c && forallb (fun kv => only_dataclasses (snd kv)) fields
  | _ => true
  end.

(** Further sample objects. *)
Module Scenario.

(** A client that was constructed and never connected. *)
Definition fresh_client : ClientBase :=
  ClientBase_init "wss://example.org:8443" Sample.exception_map (VStr "secret") true.

(** The same client with a wrong token. *)
Definition intruder : ClientBase :=
  ClientBase_init "wss://example.org:8443" Sample.exception_map (VStr "guess") true.

(** A module with a domain error, the library's [ResponseError] imported
    into it, a helper class and a constant. *)
Definition errors_module : list (string * module_member) :=
  [("JobError", ExceptionClass Sample.JobError);
   ("ResponseError", ExceptionClass ResponseError_class);
   ("Helper", OtherClass);
   ("LIMIT", NotAClass)].

(** A plain dataclass that is not serializable. *)
Definition Pair : pyclass := PyClass "Pair" false true.

(** A started server that has admitted no session yet. *)
Definition open_server : ServerBase :=
  set_server_sio (Some (SioServer {[ "ping_req" := Sample.ping ]} ∅ [])) Sample.server.

(** A file system whose certificate and key files do not hold PEM data. *)
Definition garbage_fs : filesystem :=
  FileSystem {[ ["certs"] ]}
    (<[ ["certs"; "server.pem"] := OtherBytes "not a certificate" ]>
       (<[ ["certs"; "server.key"] := OtherBytes "not a key" ]> ∅)).

(** A connected client whose exception map holds the library's own
    [ResponseError], and a handler that raises it. *)
Definition library_client : ClientBase :=
  mkClient "wss://example.org:8443" {[ "ResponseError" := ResponseError_class ]}
    (VStr "secret") true None false (Some (SioClient true {[ "job_rsp" ]} [])).

Definition refusing : handler :=
  fun _ _ _ => Raise (ResponseError [VStr "refused"] (VStr "no trace")).

(** A handler that hands back a request object. *)
Definition forwarding : handler :=
  fun _ event data => Ok (RetReq (mkReq event data)).

(** A hostname of 65 characters. *)
Definition long_hostname : string :=
  "aaaaaaaaaaaaaaaa.bbbbbbbbbbbbbbbb.cccccccccccccccc.dd.example.org".



End Scenario.

(** * Properties *)

(** Settles a decidable statement about concrete data by evaluating its
    decision procedure. *)
Ltac decide_by_computation :=
  apply (bool_decide_unpack _); vm_compute; exact I.

#[local] Arguments String.eqb : simpl never.
#[local] Arguments Req_from_dict : simpl never.
#[local] Arguments Rsp_from_dict : simpl never.
#[local] Arguments String.append : simpl nomatch.

(** [asdict] rebuilds a value without objects as it is. *)
Lemma asdict_inner_plain (v : pyval) : plain v = true -> asdict_inner v = v.
Proof.
  induction v as [| | | | | l IH | kvs IH | c fields IH] using pyval_nested_ind;
    simpl; intros Hp; try reflexivity; try discriminate.
  - f_equal. induction IH as [| x l Hx Hl IHl]; simpl in *; [reflexivity |].
    apply andb_prop in Hp as [Hpx Hpl]. rewrite Hx, IHl by assumption. reflexivity.
  - f_equal. induction IH as [| [k x] l Hx Hl IHl]; simpl in *; [reflexivity |].
    apply andb_prop in Hp as [Hpx Hpl]. rewrite Hx, IHl by assumption. reflexivity.
Qed.

Lemma plain_not_serializable (v : pyval) : plain v = true -> is_serializable v = false.
Proof. destruct v; simpl; intros; try reflexivity; discriminate. Qed.

(** ** Strings *)

Lemma string_length_app (s t : string) :
  String.length (s +:+ t) = String.length s + String.length t.
Proof. induction s as [| a s IH]; simpl; [reflexivity | now rewrite IH]. Qed.

Lemma substring_prefix (s t : string) :
  String.substring 0 (String.length s) (s +:+ t) = s.
Proof.
  induction s as [| a s IH]; simpl.
  - destruct t; reflexivity.
  - now rewrite IH.
Qed.

(** Dropping the last four characters undoes appending a four-character
    suffix. *)
Lemma slice_after_suffix (s suffix : string) :
  String.length suffix = 4 ->
  slice_to_minus4 (VStr (s +:+ suffix)) = Ok (VStr s).
Proof.
  intros Hlen. simpl. rewrite string_length_app, Hlen.
  replace (String.length s + 4 - 4) with (String.length s) by lia.
  now rewrite substring_prefix.
Qed.

(** ** Dictionaries *)

Lemma strip_event_items_no_event (items : pydict) :
  dict_get "event" items = None -> strip_event_items items = Ok items.
Proof.
  induction items as [| [k v] rest IH]; simpl; [reflexivity |].
  rewrite (String.eqb_sym k "event").
  destruct (String.eqb "event" k); [intros [=] |].
  intros Hrest. simpl. now rewrite IH.
Qed.

Lemma with_stripped_event_no_event (ev : string) (items : pydict) :
  dict_get "event" items = None -> with_stripped_event ev items = items.
Proof.
  induction items as [| [k v] rest IH]; simpl; [reflexivity |].
  rewrite (String.eqb_sym k "event").
  destruct (String.eqb "event" k); [intros [=] |].
  intros Hrest. now rewrite IH.
Qed.

Lemma dict_get_not_key (k : string) (items : pydict) :
  k ∉ items.*1 -> dict_get k items = None.
Proof.
  induction items as [| [k' v] rest IH]; simpl; [reflexivity |].
  intros Hk. apply not_elem_of_cons in Hk as [Hne Hrest].
  destruct (String.eqb_spec k k'); [contradiction | auto].
Qed.

(** On a dictionary (keys are unique) whose event is a string, the
    comprehension succeeds and shortens that one entry. *)
Lemma strip_event_items_str (ev : string) (items : pydict) :
  NoDup items.*1 ->
  dict_get "event" items = Some (VStr ev) ->
  strip_event_items items = Ok (with_stripped_event ev items).
Proof.
  induction items as [| [k v] rest IH]; simpl; [discriminate |].
  intros Hnd Hget. apply NoDup_cons in Hnd as [Hk Hnd].
  rewrite (String.eqb_sym k "event").
  destruct (String.eqb_spec "event" k) as [<- | Hne].
  - injection Hget as ->. simpl.
    pose proof (dict_get_not_key _ _ Hk) as Hnone.
    rewrite strip_event_items_no_event, with_stripped_event_no_event by assumption.
    reflexivity.
  - simpl. rewrite IH by assumption. reflexivity.
Qed.

Lemma dict_get_with_stripped_event (ev k : string) (items : pydict) :
  dict_get k (with_stripped_event ev items) =
  if String.eqb k "event"
  then match dict_get k items with
       | Some _ => Some (VStr (String.substring 0 (String.length ev - 4) ev))
       | None => None
       end
  else dict_get k items.
Proof.
  induction items as [| [k' v] rest IH]; simpl.
  - now destruct (String.eqb k "event").
  - destruct (String.eqb_spec k' "event") as [-> | Hne]; simpl.
    + destruct (String.eqb_spec k "event") as [-> | Hk]; [reflexivity |].
      rewrite IH. destruct (String.eqb_spec k "event"); [contradiction | reflexivity].
    + destruct (String.eqb_spec k k') as [-> | Hk].
      * destruct (String.eqb_spec k' "event"); [contradiction | reflexivity].
      * apply IH.
Qed.

Lemma kwargs_known_with_stripped_event (fields : list string) (ev : string) (items : pydict) :
  kwargs_known fields (with_stripped_event ev items) = kwargs_known fields items.
Proof.
  unfold kwargs_known, with_stripped_event.
  induction items as [| [k v] rest IH]; simpl; [reflexivity |].
  rewrite IH. now destruct (String.eqb k "event").
Qed.

Lemma substring_length (n : nat) (s : string) :
  String.length (String.substring 0 n s) = Nat.min n (String.length s).
Proof.
  revert n. induction s as [| a s IH]; intros [| n]; simpl; try reflexivity.
  now rewrite IH.
Qed.

(** ** The response handler of the client *)

(** The wrapper on a payload whose event is a string: the slot takes the
    decoded response with the shortened event, and the flag is set. *)
Lemma handle_response_wrapper_str (c : ClientBase) (payload : pydict) (st : pyval)
    (ev : string) :
  NoDup payload.*1 ->
  kwargs_known ["status"; "event"; "data"] payload = true ->
  dict_get "status" payload = Some st ->
  dict_get "event" payload = Some (VStr ev) ->
  handle_response_wrapper (VDict payload) c =
    (Ok tt,
     set_rsp_event true
       (set_rsp (Some (mkRsp st
                         (VStr (String.substring 0 (String.length ev - 4) ev))
                         (kwarg_default "data" payload))) c)).
Proof.
  intros Hnd Hknown Hst Hev.
  unfold handle_response_wrapper, bind, lift, modify.
  rewrite (strip_event_items_str ev) by assumption.
  unfold Rsp_from_dict, kwarg_default.
  rewrite kwargs_known_with_stripped_event, Hknown.
  rewrite !dict_get_with_stripped_event, Hst, Hev.
  reflexivity.
Qed.

(** C10: a response payload (a dictionary with a status and a string event)
    delivered on an event name with a registered response handler makes the
    client store the decoded Response whose event is the payload's event
    without its last four characters, whatever they are, and set the wake
    flag. Dropping four characters undoes [get_rsp_event], and it undoes the
    appending of a suffix to a non-empty event only when the suffix has four
    characters. *)
Theorem handle_response_strips_last_four
    (c : ClientBase) (t : sio_client) (name : string) (payload : pydict)
    (st : pyval) (ev : string) :
  c_sio c = Some t ->
  name +:+ "_rsp" ∈ sio_handlers t ->
  NoDup payload.*1 ->
  kwargs_known ["status"; "event"; "data"] payload = true ->
  dict_get "status" payload = Some st ->
  dict_get "event" payload = Some (VStr ev) ->
  client_deliver (name +:+ "_rsp") (VDict payload) c =
    (Ok tt,
     set_rsp_event true
       (set_rsp (Some (mkRsp st
                         (VStr (String.substring 0 (String.length ev - 4) ev))
                         (kwarg_default "data" payload))) c))
  /\ (forall e : string,
        obind (get_rsp_event (VStr e)) (fun s => slice_to_minus4 (VStr s)) = Ok (VStr e))
  /\ (forall e suffix : string,
        e <> EmptyString ->
        slice_to_minus4 (VStr (e +:+ suffix)) = Ok (VStr e) <-> String.length suffix = 4).
Proof.
  intros Hsio Hreg Hnd Hknown Hst Hev. split; [| split].
  - unfold client_deliver. rewrite Hsio.
    rewrite bool_decide_eq_true_2 by assumption.
    now apply handle_response_wrapper_str.
  - intros e. unfold get_rsp_event, str_concat, obind.
    now apply slice_after_suffix.
  - intros e suffix Hne. split.
    + simpl. intros [= Heq].
      apply (f_equal String.length) in Heq.
      rewrite substring_length, string_length_app in Heq.
      destruct e as [| a e]; [contradiction |]. simpl in Heq. lia.
    + apply slice_after_suffix.
Qed.

Lemma handle_response_strips_last_four_witness :
  client_deliver "ping_rsp"
    (VDict [("status", VStr "success"); ("event", VStr "ping_rsp"); ("data", VInt 1)])
    Sample.client =
    (Ok tt,
     set_rsp_event true
       (set_rsp (Some (mkRsp (VStr "success") (VStr "ping") (VInt 1))) Sample.client))
  /\ (forall e : string,
        obind (get_rsp_event (VStr e)) (fun s => slice_to_minus4 (VStr s)) = Ok (VStr e))
  /\ (forall e suffix : string,
        e <> EmptyString ->
        slice_to_minus4 (VStr (e +:+ suffix)) = Ok (VStr e) <-> String.length suffix = 4).
Proof.
  apply (handle_response_strips_last_four Sample.client
           (SioClient true {[ "ping_rsp" ]} []) "ping"
           [("status", VStr "success"); ("event", VStr "ping_rsp"); ("data", VInt 1)]
           (VStr "success") "ping_rsp").
  - reflexivity.
  - decide_by_computation.
  - decide_by_computation.
  - vm_compute. reflexivity.
  - reflexivity.
  - reflexivity.
Defined.

(** ** Waiting for the response *)



(** ** Verifying a response *)

Lemma py_ne_str_true (v : pyval) (s : string) : py_ne_str v s = true <-> v <> VStr s.
Proof.
  destruct v; simpl; try (split; [intros _; discriminate | reflexivity]).
  destruct (String.eqb_spec s0 s) as [-> | Hne]; simpl.
  - split; [discriminate | intros Hv; now destruct Hv].
  - split; [intros _ [= Heq]; contradiction | reflexivity].
Qed.

Lemma py_ne_str_same (s : string) : py_ne_str (VStr s) s = false.
Proof. simpl. now rewrite String.eqb_refl. Qed.

Lemma verify_response_success {RT : PyRuntime} (exception_map : gmap string excclass)
    (rsp : Rsp) :
  rsp_status rsp = VStr Status.SUCCESS -> verify_response exception_map rsp = Ok VNone.
Proof. intros Hst. unfold verify_response. now rewrite Hst, py_ne_str_same. Qed.

Lemma get_and_verify_response_success {RT : PyRuntime} (c : ClientBase) (rsp : Rsp) :
  c_rsp_event c = true -> c_rsp c = Some rsp ->
  rsp_status rsp = VStr Status.SUCCESS ->
  _get_and_verify_response c = (Ok rsp, set_rsp_event false c).
Proof.
  intros Hflag Hrsp Hst.
  unfold _get_and_verify_response, _get_response, bind, gets, ret, modify, lift.
  rewrite Hflag. simpl. rewrite Hrsp.
  now rewrite verify_response_success.
Qed.

(** On a success response [verify_response] evaluates to [None], not to the
    data of the response. *)
Lemma verify_response_success_returns_None :
  verify_response (RT := Sample.runtime) Sample.exception_map
    (mkRsp (VStr "success") (VStr "ping") (VInt 5)) = Ok VNone
  /\ VNone <> rsp_data (mkRsp (VStr "success") (VStr "ping") (VInt 5)).
Proof. split; [reflexivity | discriminate]. Qed.

(** C2, as the code has it: on a response whose status is ['success'],
    [verify_response] raises nothing and evaluates to [None]; it is
    [_get_and_verify_response] that hands the response, data included, to
    the caller. On any other status the data is decoded as an error record;
    a record whose name is a key of the exception map makes the mapped class
    be called with the record's message alone: a class that can be called
    so gives the instance that is raised, with the record's trace and the
    response's event attached, and a class that cannot (the library's own
    [ResponseError], whose [tb] is required) makes the call raise
    [TypeError]; a record whose name is a string that is not a key raises
    [ResponseError] with the message
    ['Error: <name>, message: <message>, event: <event>'] and the trace
    attached. *)
Theorem verify_response_cases {RT : PyRuntime} (exception_map : gmap string excclass)
    (rsp : Rsp) :
  (rsp_status rsp = VStr Status.SUCCESS ->
     verify_response exception_map rsp = Ok VNone
     /\ forall c : ClientBase,
          c_rsp_event c = true -> c_rsp c = Some rsp ->
          _get_and_verify_response c = (Ok rsp, set_rsp_event false c))
  /\ (forall (e : SerializableException) (n : string),
        rsp_status rsp <> VStr Status.SUCCESS ->
        SerializableException_from_dict (rsp_data rsp) = Ok e ->
        se_name e = VStr n ->
        (forall cls : excclass,
           exception_map !! n = Some cls ->
           (exc_accepts_message cls = true ->
            verify_response exception_map rsp =
              Raise (PyExc cls [se_message e] (Some (se_tb e)) (Some (rsp_event rsp))))
           /\ (exc_accepts_message cls = false ->
               verify_response exception_map rsp = Raise TypeError))
        /\ (exception_map !! n = None ->
            verify_response exception_map rsp =
              Raise (ResponseError
                       [VStr ("Error: " +:+ n +:+ ", message: "
                                +:+ builtin_str (se_message e) +:+ ", event: "
                                +:+ builtin_str (rsp_event rsp))]
                       (se_tb e)))).
Proof.
  split.
  - intros Hst. split; [now apply verify_response_success |].
    intros c Hflag Hrsp.
    now apply get_and_verify_response_success.
  - intros e n Hst Hdec Hname.
    apply py_ne_str_true in Hst.
    unfold verify_response, response_error_message.
    rewrite Hst, Hdec. simpl. rewrite Hname. simpl.
    split.
    + intros cls Hcls. rewrite Hcls. split; intros ->; reflexivity.
    + intros Hnone. now rewrite Hnone, builtin_str_VStr.
Qed.

Lemma verify_response_cases_witness :
  verify_response (RT := Sample.runtime) Sample.exception_map
    (mkRsp (VStr "error") (VStr "ping")
       (VDict [("name", VStr "JobError"); ("message", VStr "no such job");
               ("tb", VStr "Traceback")])) =
    Raise (PyExc Sample.JobError [VStr "no such job"] (Some (VStr "Traceback"))
             (Some (VStr "ping")))
  /\ verify_response (RT := Sample.runtime) Sample.exception_map
       (mkRsp (VStr "error") (VStr "ping")
          (VDict [("name", VStr "KeyError"); ("message", VStr "job");
                  ("tb", VStr "Traceback")])) =
       Raise (ResponseError [VStr "Error: KeyError, message: job, event: ping"]
                (VStr "Traceback"))
  /\ verify_response (RT := Sample.runtime) {[ "ResponseError" := ResponseError_class ]}
       (mkRsp (VStr "error") (VStr "ping")
          (VDict [("name", VStr "ResponseError"); ("message", VStr "no such job");
                  ("tb", VStr "Traceback")])) = Raise TypeError.
Proof.
  split; [| split].
  - refine (proj1 (proj1 (proj2 (verify_response_cases (RT := Sample.runtime)
                                   Sample.exception_map _)
                            (mkSerializableException (VStr "JobError") (VStr "no such job")
                               (VStr "Traceback")) "JobError" _ _ _) Sample.JobError _) _);
      [discriminate | reflexivity | reflexivity | reflexivity | reflexivity].
  - refine (proj2 (proj2 (verify_response_cases (RT := Sample.runtime)
                            Sample.exception_map _)
                     (mkSerializableException (VStr "KeyError") (VStr "job")
                        (VStr "Traceback")) "KeyError" _ _ _) _);
      [discriminate | reflexivity | reflexivity | reflexivity].
  - refine (proj2 (proj1 (proj2 (verify_response_cases (RT := Sample.runtime)
                                   {[ "ResponseError" := ResponseError_class ]} _)
                            (mkSerializableException (VStr "ResponseError")
                               (VStr "no such job") (VStr "Traceback"))
                            "ResponseError" _ _ _) ResponseError_class _) _);
      [discriminate | reflexivity | reflexivity | reflexivity | reflexivity].
Defined.

(** ** Decoding envelopes *)

Lemma Req_from_dict_error (v : pyval) (e : pyexc) :
  Req_from_dict v = Raise e -> e = TypeError.
Proof.
  unfold Req_from_dict. intros Hr.
  repeat case_match; congruence.
Qed.

Lemma Rsp_from_dict_error (v : pyval) (e : pyexc) :
  Rsp_from_dict v = Raise e -> e = TypeError.
Proof.
  unfold Rsp_from_dict. intros Hr.
  repeat case_match; congruence.
Qed.

Lemma handle_response_wrapper_failure (data : pyval) (c : ClientBase) :
  raised (fst (handle_response_wrapper data c)) = true ->
  snd (handle_response_wrapper data c) = c.
Proof.
  unfold handle_response_wrapper, bind, lift, modify, raise.
  destruct data; simpl; try reflexivity.
  destruct (strip_event_items kvs) as [rsp_data | e]; simpl; [| reflexivity].
  destruct (Rsp_from_dict (VDict rsp_data)) as [r | e]; simpl; [intros [=] | reflexivity].
Qed.

Lemma handle_request_wrapper_bad_request {RT : PyRuntime} (func : handler) (sid : string)
    (data : pyval) (s : ServerBase) :
  raised (Req_from_dict data) = true ->
  handle_request_wrapper func sid data s = (Raise TypeError, s).
Proof.
  unfold handle_request_wrapper, bind, lift.
  destruct (Req_from_dict data) as [r | e] eqn:Hreq; simpl; [intros [=] |].
  intros _. now rewrite (Req_from_dict_error _ _ Hreq).
Qed.

(** A response payload without ['event'] decodes, with event [None]; a
    request whose event is an integer decodes; the failure on a missing
    required field is a [TypeError]. *)
Lemma from_dict_accepts_missing_event_and_any_kind :
  Rsp_from_dict (VDict [("status", VStr "success")]) =
    Ok (mkRsp (VStr "success") VNone VNone)
  /\ Req_from_dict (VDict [("event", VInt 7)]) = Ok (mkReq (VInt 7) VNone)
  /\ Req_from_dict (VDict [("data", VInt 7)]) = Raise TypeError.
Proof. repeat split. Qed.

(** C5, as the code has it: decoding is the keyword call of the dataclass
    constructor on the payload. It fails, always with [TypeError], when the
    required field is missing (['event'] for a request, ['status'] for a
    response); a payload with its required field and no unknown key decodes
    whatever the kinds of its values, a missing ['event'] or ['data'] of a
    response becoming [None]. A failure of the response wrapper leaves the
    client, its pending slot and wake flag included, as it was, and a request
    that does not decode leaves the server as it was, with nothing emitted.
    Encoding always yields a mapping with the fields of the envelope as
    keys. *)
Theorem from_dict_failure_and_defaults :
  (forall d : pydict, dict_get "event" d = None -> Req_from_dict (VDict d) = Raise TypeError)
  /\ (forall d : pydict, dict_get "status" d = None -> Rsp_from_dict (VDict d) = Raise TypeError)
  /\ (forall (v : pyval) (e : pyexc),
        Req_from_dict v = Raise e \/ Rsp_from_dict v = Raise e -> e = TypeError)
  /\ (forall (d : pydict) (ev : pyval),
        kwargs_known ["event"; "data"] d = true -> dict_get "event" d = Some ev ->
        Req_from_dict (VDict d) = Ok (mkReq ev (kwarg_default "data" d)))
  /\ (forall (d : pydict) (st : pyval),
        kwargs_known ["status"; "event"; "data"] d = true -> dict_get "status" d = Some st ->
        Rsp_from_dict (VDict d) =
          Ok (mkRsp st (kwarg_default "event" d) (kwarg_default "data" d)))
  /\ (forall (data : pyval) (c : ClientBase),
        raised (fst (handle_response_wrapper data c)) = true ->
        snd (handle_response_wrapper data c) = c)
  /\ (forall (RT : PyRuntime) (func : handler) (sid : string) (data : pyval) (s : ServerBase),
        raised (Req_from_dict data) = true ->
        handle_request_wrapper func sid data s = (Raise TypeError, s))
  /\ (forall (RT : PyRuntime) (req : Req) (rsp : Rsp),
        (exists d, Req_to_dict req = VDict d /\ d.*1 = ["event"; "data"])
        /\ (exists d, Rsp_to_dict rsp = VDict d /\ d.*1 = ["status"; "event"; "data"])).
Proof.
  repeat apply conj.
  - intros d Hd. unfold Req_from_dict. rewrite Hd. now destruct (kwargs_known _ d).
  - intros d Hd. unfold Rsp_from_dict. rewrite Hd. now destruct (kwargs_known _ d).
  - intros v e [Hr | Hr]; [eapply Req_from_dict_error | eapply Rsp_from_dict_error]; eassumption.
  - intros d ev Hk Hd. unfold Req_from_dict. now rewrite Hk, Hd.
  - intros d st Hk Hd. unfold Rsp_from_dict. now rewrite Hk, Hd.
  - apply handle_response_wrapper_failure.
  - intros RT. apply handle_request_wrapper_bad_request.
  - intros RT req rsp. split.
    + unfold Req_to_dict. destruct (is_serializable (req_data req)); eauto.
    + unfold Rsp_to_dict. destruct (is_serializable (rsp_data rsp)); eauto.
Qed.

(** ** The request wrapper of the server *)

Lemma emitted_after_emit (s : ServerBase) (t : sio_server) (e : emission) :
  s_sio s = Some t -> emitted (after_emit s t e) = emitted s ++ [e].
Proof. intros Hs. unfold emitted, after_emit. simpl. now rewrite Hs. Qed.

(** The wrapper around a handler that returns a [Rsp]. *)
Lemma handle_request_wrapper_rsp {RT : PyRuntime} (func : handler) (sid : string)
    (data : pyval) (s : ServerBase) (t : sio_server) (E : string) (D : pyval) (r : Rsp) :
  s_sio s = Some t ->
  Req_from_dict data = Ok (mkReq (VStr E) D) ->
  func sid (VStr E) D = Ok (RetRsp r) ->
  handle_request_wrapper func sid data s =
    (Ok tt,
     after_emit s t
       (Emission (E +:+ "_rsp")
          (Rsp_to_dict (mkRsp (rsp_status r) (VStr (E +:+ "_rsp")) (rsp_data r)))
          sid)).
Proof.
  intros Hs Hreq Hf.
  unfold handle_request_wrapper, emit_response, bind, lift, try_except, server_emit, gets,
      ret.
  rewrite Hreq. simpl. rewrite Hf. simpl. rewrite Hs. simpl. now rewrite Hs.
Qed.

(** The wrapper around a handler that raises an [Exception]. *)
Lemma handle_request_wrapper_exception {RT : PyRuntime} (func : handler) (sid : string)
    (data : pyval) (s : ServerBase) (t : sio_server) (E : string) (D : pyval) (e : pyexc) :
  s_sio s = Some t ->
  Req_from_dict data = Ok (mkReq (VStr E) D) ->
  func sid (VStr E) D = Raise e ->
  exc_is_Exception (exc_class e) = true ->
  handle_request_wrapper func sid data s =
    (Ok tt,
     after_emit s t
       (Emission (E +:+ "_rsp")
          (VDict [("status", VStr Status.ERROR);
                  ("event", VStr (E +:+ "_rsp"));
                  ("data", VDict [("name", VStr (exc_name (exc_class e)));
                                  ("message", VStr (exc_str e));
                                  ("tb", VStr (format_exc e))])])
          sid)).
Proof.
  intros Hs Hreq Hf Hexc.
  unfold handle_request_wrapper, emit_response, bind, lift, try_except, server_emit, gets,
      ret.
  rewrite Hreq. simpl. rewrite Hf, Hexc. simpl. rewrite Hs. simpl. now rewrite Hs.
Qed.

(** A handler that returns the bare value [7] for a valid request: the
    wrapper fails on the value and no response is emitted. *)
Lemma handle_request_bare_value_emits_nothing :
  handle_request_wrapper (RT := Sample.runtime) Sample.bare "sid1"
    (VDict [("event", VStr "ping"); ("data", VNone)]) Sample.server =
    (Raise AttributeError, Sample.server)
  /\ emitted Sample.server = [].
Proof. split; reflexivity. Qed.

(** The wrapper around a handler that returns a value without attributes. *)
Lemma handle_request_wrapper_bare {RT : PyRuntime} (func : handler) (sid E : string)
    (d v : pyval) (data : pyval) (s : ServerBase) :
  Req_from_dict data = Ok (mkReq (VStr E) d) ->
  func sid (VStr E) d = Ok (RetVal v) ->
  (forall c fields, v <> VObj c fields) ->
  handle_request_wrapper func sid data s = (Raise AttributeError, s).
Proof.
  intros Hreq Hfunc Hv. unfold handle_request_wrapper, emit_response, bind, lift, try_except.
  rewrite Hreq. simpl. rewrite Hfunc. simpl.
  destruct v; try reflexivity. now destruct (Hv c fields).
Qed.

(** C1, as the code has it: for a request payload that decodes to a request
    with the string event [E], received by a started server, the wrapper
    emits exactly one response on [E_rsp] to the originating session when
    the handler returns a response object (the emitted response is the
    handler's, with its event set to [E_rsp]; status and data are the
    handler's own) and when the handler raises an exception deriving from
    [Exception] (the emitted response has status ['error'] and carries the
    name, message and trace of the exception). The wrapper does not check
    what the handler returns. A value without attributes ([None], a number,
    a string, a list, a dictionary) makes it fail with [AttributeError] and
    nothing emitted. A [Req] takes the event and has a [to_dict]: its
    dictionary, which has no status, is emitted on [E_rsp]. An instance of
    another class is emitted as its own [to_dict] gives it, and nothing is
    emitted when setting its [event] or calling [to_dict] raises. An
    exception outside [Exception] leaves the wrapper with nothing
    emitted. *)
Theorem handle_request_emits_one_response {RT : PyRuntime} (func : handler)
    (sid : string) (data : pyval) (s : ServerBase) (t : sio_server) (E : string)
    (D : pyval) :
  s_sio s = Some t ->
  Req_from_dict data = Ok (mkReq (VStr E) D) ->
  (forall r : Rsp,
     func sid (VStr E) D = Ok (RetRsp r) ->
     handle_request_wrapper func sid data s =
       (Ok tt,
        after_emit s t
          (Emission (E +:+ "_rsp")
             (Rsp_to_dict (mkRsp (rsp_status r) (VStr (E +:+ "_rsp")) (rsp_data r)))
             sid))
     /\ emitted (snd (handle_request_wrapper func sid data s)) =
          emitted s ++
            [Emission (E +:+ "_rsp")
               (Rsp_to_dict (mkRsp (rsp_status r) (VStr (E +:+ "_rsp")) (rsp_data r)))
               sid])
  /\ (forall e : pyexc,
        func sid (VStr E) D = Raise e ->
        exc_is_Exception (exc_class e) = true ->
        handle_request_wrapper func sid data s =
          (Ok tt,
           after_emit s t
             (Emission (E +:+ "_rsp")
                (VDict [("status", VStr Status.ERROR);
                        ("event", VStr (E +:+ "_rsp"));
                        ("data", VDict [("name", VStr (exc_name (exc_class e)));
                                        ("message", VStr (exc_str e));
                                        ("tb", VStr (format_exc e))])])
                sid))
        /\ emitted (snd (handle_request_wrapper func sid data s)) =
             emitted s ++
               [Emission (E +:+ "_rsp")
                  (VDict [("status", VStr Status.ERROR);
                          ("event", VStr (E +:+ "_rsp"));
                          ("data", VDict [("name", VStr (exc_name (exc_class e)));
                                          ("message", VStr (exc_str e));
                                          ("tb", VStr (format_exc e))])])
                  sid])
  /\ (forall v : pyval,
        func sid (VStr E) D = Ok (RetVal v) ->
        (forall c fields, v <> VObj c fields) ->
        handle_request_wrapper func sid data s = (Raise AttributeError, s))
  /\ (forall r : Req,
        func sid (VStr E) D = Ok (RetReq r) ->
        handle_request_wrapper func sid data s =
          (Ok tt,
           after_emit s t
             (Emission (E +:+ "_rsp")
                (Req_to_dict (mkReq (VStr (E +:+ "_rsp")) (req_data r))) sid))
        /\ forall items, Req_to_dict (mkReq (VStr (E +:+ "_rsp")) (req_data r)) = VDict items ->
                         dict_get "status" items = None)
  /\ (forall (c : pyclass) (fields : pydict),
        func sid (VStr E) D = Ok (RetVal (VObj c fields)) ->
        handle_request_wrapper func sid data s =
          match setattr_event c with
          | Some e => (Raise e, s)
          | None =>
              match obj_to_dict c fields (E +:+ "_rsp") with
              | Ok payload => (Ok tt, after_emit s t (Emission (E +:+ "_rsp") payload sid))
              | Raise e => (Raise e, s)
              end
          end)
  /\ (forall e : pyexc,
        func sid (VStr E) D = Raise e ->
        exc_is_Exception (exc_class e) = false ->
        handle_request_wrapper func sid data s = (Raise e, s)).
Proof.
  intros Hs Hreq. split; [| split; [| split; [| split; [| split]]]].
  - intros r Hf. rewrite (handle_request_wrapper_rsp func sid data s t E D r) by assumption.
    split; [reflexivity |]. now apply emitted_after_emit.
  - intros e Hf Hexc.
    rewrite (handle_request_wrapper_exception func sid data s t E D e) by assumption.
    split; [reflexivity |]. now apply emitted_after_emit.
  - intros v Hf Hv. now apply (handle_request_wrapper_bare func sid E D v).
  - intros r Hf. split.
    + unfold handle_request_wrapper, emit_response, bind, lift, try_except, server_emit, gets,
      ret.
      rewrite Hreq. simpl. rewrite Hf. simpl. rewrite Hs. simpl. now rewrite Hs.
    + intros items. unfold Req_to_dict. simpl.
      destruct (is_serializable (req_data r)); intros [= <-]; reflexivity.
  - intros c fields Hf.
    unfold handle_request_wrapper, emit_response, bind, lift, try_except, server_emit, gets,
      ret.
    rewrite Hreq. simpl. rewrite Hf. simpl.
    destruct (setattr_event c); simpl; [reflexivity |]. rewrite Hs. simpl.
    destruct (obj_to_dict c fields (E +:+ "_rsp")); simpl; [| reflexivity].
    now rewrite Hs.
  - intros e Hf Hexc. unfold handle_request_wrapper, emit_response, bind, lift, try_except.
    rewrite Hreq. simpl. now rewrite Hf, Hexc.
Qed.

Lemma handle_request_emits_one_response_witness :
  emitted (snd (handle_request_wrapper (RT := Sample.runtime) Sample.ping "sid1"
                  (VDict [("event", VStr "ping"); ("data", VInt 3)]) Sample.server)) =
    [Emission "ping_rsp"
       (VDict [("status", VStr "success"); ("event", VStr "ping_rsp"); ("data", VInt 3)])
       "sid1"]
  /\ emitted (snd (handle_request_wrapper (RT := Sample.runtime) Sample.failing "sid1"
                     (VDict [("event", VStr "ping"); ("data", VInt 3)]) Sample.server)) =
       [Emission "ping_rsp"
          (VDict [("status", VStr "error"); ("event", VStr "ping_rsp");
                  ("data", VDict [("name", VStr "JobError");
                                  ("message", VStr "no such job");
                                  ("tb", VStr "Traceback (most recent call last): JobError")])])
          "sid1"]
  /\ handle_request_wrapper (RT := Sample.runtime) Scenario.forwarding "sid1"
       (VDict [("event", VStr "ping"); ("data", VInt 3)]) Sample.server =
       (Ok tt,
        after_emit Sample.server
          (SioServer {[ "ping_req" := Sample.ping ]} {[ "sid1" ]} [])
          (Emission ("ping" +:+ "_rsp")
             (Req_to_dict (RT := Sample.runtime)
                (mkReq (VStr ("ping" +:+ "_rsp")) (VInt 3))) "sid1")).
Proof.
  split; [| split].
  - refine (proj2 (proj1 (handle_request_emits_one_response (RT := Sample.runtime)
                            Sample.ping "sid1"
                            (VDict [("event", VStr "ping"); ("data", VInt 3)])
                            Sample.server
                            (SioServer {[ "ping_req" := Sample.ping ]} {[ "sid1" ]} [])
                            "ping" (VInt 3) eq_refl eq_refl)
                     (mkRsp (VStr "success") VNone (VInt 3)) eq_refl)).
  - refine (proj2 (proj1 (proj2 (handle_request_emits_one_response (RT := Sample.runtime)
                                   Sample.failing "sid1"
                                   (VDict [("event", VStr "ping"); ("data", VInt 3)])
                                   Sample.server
                                   (SioServer {[ "ping_req" := Sample.ping ]} {[ "sid1" ]} [])
                                   "ping" (VInt 3) eq_refl eq_refl))
                     (PyExc Sample.JobError [VStr "no such job"] None None)
                     eq_refl eq_refl)).
  - refine (proj1 (proj1 (proj2 (proj2 (proj2
              (handle_request_emits_one_response (RT := Sample.runtime)
                 Scenario.forwarding "sid1"
                 (VDict [("event", VStr "ping"); ("data", VInt 3)])
                 Sample.server
                 (SioServer {[ "ping_req" := Sample.ping ]} {[ "sid1" ]} [])
                 "ping" (VInt 3) eq_refl eq_refl))))
              (mkReq (VStr "ping") (VInt 3)) eq_refl)).
Defined.

(** ** Encoding followed by decoding *)

Lemma wire_data_plain {RT : PyRuntime} (v : pyval) : plain v = true -> wire_data v = v.
Proof.
  intros Hp. unfold wire_data.
  now rewrite plain_not_serializable, asdict_inner_plain.
Qed.

Lemma wire_data_serializable {RT : PyRuntime} (c : pyclass) (fields : pydict) :
  cls_serializable c = true -> wire_data (VObj c fields) = VStr (to_json c fields).
Proof. intros Hc. unfold wire_data. simpl. now rewrite Hc. Qed.

Lemma Req_round_trip {RT : PyRuntime} (E : string) (D : pyval) :
  Req_from_dict (Req_to_dict (mkReq (VStr E) D)) = Ok (mkReq (VStr E) (wire_data D)).
Proof.
  unfold Req_to_dict, wire_data. simpl.
  destruct (is_serializable D); [rewrite builtin_str_VStr |]; reflexivity.
Qed.

Lemma Req_round_trip_plain {RT : PyRuntime} (r : Req) :
  plain (req_event r) = true -> plain (req_data r) = true ->
  Req_from_dict (Req_to_dict r) = Ok r.
Proof.
  destruct r as [e d]. simpl. intros He Hd. unfold Req_to_dict. simpl.
  rewrite (plain_not_serializable d), !asdict_inner_plain by assumption.
  reflexivity.
Qed.

Lemma Rsp_round_trip_plain {RT : PyRuntime} (r : Rsp) :
  plain (rsp_status r) = true -> plain (rsp_event r) = true -> plain (rsp_data r) = true ->
  Rsp_from_dict (Rsp_to_dict r) = Ok r.
Proof.
  destruct r as [st e d]. simpl. intros Hst He Hd. unfold Rsp_to_dict. simpl.
  rewrite (plain_not_serializable d), !asdict_inner_plain by assumption.
  reflexivity.
Qed.

Lemma Req_round_trip_serializable {RT : PyRuntime} (e : pyval) (c : pyclass)
    (fields : pydict) :
  cls_serializable c = true ->
  Req_from_dict (Req_to_dict (mkReq e (VObj c fields))) =
    Ok (mkReq (VStr (builtin_str e)) (VStr (to_json c fields))).
Proof. intros Hc. unfold Req_to_dict. simpl. now rewrite Hc. Qed.

Lemma Rsp_round_trip_serializable {RT : PyRuntime} (st e : pyval) (c : pyclass)
    (fields : pydict) :
  cls_serializable c = true ->
  Rsp_from_dict (Rsp_to_dict (mkRsp st e (VObj c fields))) =
    Ok (mkRsp st (VStr (builtin_str e)) (VStr (to_json c fields))).
Proof. intros Hc. unfold Rsp_to_dict. simpl. now rewrite Hc. Qed.

Lemma make_request_connected {RT : PyRuntime} (E : string) (D : pyval) (c : ClientBase)
    (t : sio_client) :
  c_sio c = Some t -> sio_connected t = true ->
  make_request (mkReq (VStr E) D) c =
    (Ok tt,
     set_sio (Some (SioClient true (sio_handlers t)
                      (sio_sent t ++ [(E +:+ "_req", Req_to_dict (mkReq (VStr E) D))]))) c).
Proof.
  intros Hc Hconn. unfold make_request, client_emit, bind, lift. rewrite Hc. simpl.
  now rewrite Hconn.
Qed.

Lemma client_deliver_registered (event : string) (data : pyval) (c : ClientBase)
    (t : sio_client) :
  c_sio c = Some t -> event ∈ sio_handlers t ->
  client_deliver event data c = handle_response_wrapper data c.
Proof.
  intros Hc Hreg. unfold client_deliver.
  now rewrite Hc, bool_decide_eq_true_2.
Qed.

Lemma Rsp_to_dict_items {RT : PyRuntime} (st : pyval) (E : string) (D : pyval) :
  Rsp_to_dict (mkRsp st (VStr E) D) =
    VDict [("status", if is_serializable D then st else asdict_inner st);
           ("event", VStr E);
           ("data", wire_data D)].
Proof.
  unfold Rsp_to_dict, wire_data. simpl.
  destruct (is_serializable D); [rewrite builtin_str_VStr |]; reflexivity.
Qed.

(** A handler that answers [D'] with status ['success'] makes the exchange
    return the response with the event of the request and the data [D'] as
    the wire carries it. *)
Lemma exchange_success {RT : PyRuntime} (sid E : string) (D D' ev0 : pyval)
    (c : ClientBase) (tc : sio_client) (s : ServerBase) (ts : sio_server) (func : handler) :
  c_sio c = Some tc -> sio_connected tc = true ->
  E +:+ "_rsp" ∈ sio_handlers tc ->
  s_sio s = Some ts -> sid ∈ srv_sessions ts ->
  srv_handlers ts !! (E +:+ "_req") = Some func ->
  func sid (VStr E) (wire_data D) = Ok (RetRsp (mkRsp (VStr Status.SUCCESS) ev0 D')) ->
  exchange sid (mkReq (VStr E) D) c s =
    Ok (mkRsp (VStr Status.SUCCESS) (VStr E) (wire_data D')).
Proof.
  intros Hc Hconn Hreg Hs Hsid Hfunc Hanswer.
  unfold exchange.
  rewrite (make_request_connected E D c tc) by assumption.
  simpl. rewrite last_snoc.
  unfold server_deliver. rewrite Hs, bool_decide_eq_true_2, Hfunc by assumption.
  rewrite (handle_request_wrapper_rsp func sid _ s ts E (wire_data D) _ Hs
             (Req_round_trip E D) Hanswer).
  simpl snd. rewrite (emitted_after_emit s ts _ Hs), drop_app_length.
  rewrite filter_cons_True, filter_nil by reflexivity.
  cbn [deliver_all em_event em_data].
  erewrite client_deliver_registered; [| reflexivity | exact Hreg].
  rewrite Rsp_to_dict_items.
  erewrite handle_response_wrapper_str; cycle 1.
  - decide_by_computation.
  - reflexivity.
  - reflexivity.
  - reflexivity.
  - simpl.
    pose proof (slice_after_suffix E "_rsp" eq_refl) as Hslice.
    simpl in Hslice. injection Hslice as Hslice. rewrite Hslice.
    destruct (is_serializable D');
      erewrite get_and_verify_response_success; reflexivity.
Qed.

(** A handler that raises makes the exchange raise on the client: an
    instance of the class mapped to the name of the exception's class, a
    [TypeError] when that class cannot be called with the message alone, or
    the generic [ResponseError]. *)
Lemma exchange_handler_raises {RT : PyRuntime} (sid E : string) (D : pyval) (e : pyexc)
    (c : ClientBase) (tc : sio_client) (s : ServerBase) (ts : sio_server) (func : handler) :
  c_sio c = Some tc -> sio_connected tc = true ->
  E +:+ "_rsp" ∈ sio_handlers tc ->
  s_sio s = Some ts -> sid ∈ srv_sessions ts ->
  srv_handlers ts !! (E +:+ "_req") = Some func ->
  func sid (VStr E) (wire_data D) = Raise e ->
  exc_is_Exception (exc_class e) = true ->
  exchange sid (mkReq (VStr E) D) c s =
    match c_exception_map c !! exc_name (exc_class e) with
    | Some cls =>
        if exc_accepts_message cls
        then Raise (PyExc cls [VStr (exc_str e)] (Some (VStr (format_exc e)))
                      (Some (VStr E)))
        else Raise TypeError
    | None =>
        Raise (ResponseError
                 [VStr ("Error: " +:+ exc_name (exc_class e) +:+ ", message: "
                          +:+ exc_str e +:+ ", event: " +:+ E)]
                 (VStr (format_exc e)))
    end.
Proof.
  intros Hc Hconn Hreg Hs Hsid Hfunc Hraise Hexc.
  unfold exchange.
  rewrite (make_request_connected E D c tc) by assumption.
  simpl. rewrite last_snoc.
  unfold server_deliver. rewrite Hs, bool_decide_eq_true_2, Hfunc by assumption.
  rewrite (handle_request_wrapper_exception func sid _ s ts E (wire_data D) e Hs
             (Req_round_trip E D) Hraise Hexc).
  simpl snd. rewrite (emitted_after_emit s ts _ Hs), drop_app_length.
  rewrite filter_cons_True, filter_nil by reflexivity.
  cbn [deliver_all em_event em_data].
  erewrite client_deliver_registered; [| reflexivity | exact Hreg].
  erewrite handle_response_wrapper_str; cycle 1.
  - decide_by_computation.
  - reflexivity.
  - reflexivity.
  - reflexivity.
  - pose proof (slice_after_suffix E "_rsp" eq_refl) as Hslice.
    simpl in Hslice. injection Hslice as Hslice. simpl. rewrite Hslice.
    unfold _get_and_verify_response, _get_response, bind, gets, ret, modify, lift.
    simpl. unfold verify_response, response_error_message. simpl.
    destruct (c_exception_map c !! exc_name (exc_class e)) as [cls |]; simpl;
      [destruct (exc_accepts_message cls) |]; simpl;
      rewrite ?builtin_str_VStr; reflexivity.
Qed.

(** A handler that raises an exception deriving from [Exception] makes the
    exchange raise on the client. When the client's exception map gives a
    class for the name of the exception's class, that class is called with
    the exception's message alone: if it can be called so, the client raises
    the instance, with the trace and the event of the request attached; if it
    cannot, as the library's own [ResponseError], the client raises
    [TypeError]. When the name is not in the map, the client raises a
    [ResponseError] whose message holds the name, the message and the event,
    with the trace attached. *)
Theorem exchange_reconstructs_exception {RT : PyRuntime} (sid E : string) (D : pyval)
    (e : pyexc) (c : ClientBase) (tc : sio_client) (s : ServerBase) (ts : sio_server)
    (func : handler) :
  c_sio c = Some tc -> sio_connected tc = true ->
  E +:+ "_rsp" ∈ sio_handlers tc ->
  s_sio s = Some ts -> sid ∈ srv_sessions ts ->
  srv_handlers ts !! (E +:+ "_req") = Some func ->
  func sid (VStr E) (wire_data D) = Raise e ->
  exc_is_Exception (exc_class e) = true ->
  (forall cls : excclass,
     c_exception_map c !! exc_name (exc_class e) = Some cls ->
     (exc_accepts_message cls = true ->
      exchange sid (mkReq (VStr E) D) c s =
        Raise (PyExc cls [VStr (exc_str e)] (Some (VStr (format_exc e)))
                 (Some (VStr E))))
     /\ (exc_accepts_message cls = false ->
         exchange sid (mkReq (VStr E) D) c s = Raise TypeError))
  /\ (c_exception_map c !! exc_name (exc_class e) = None ->
      exchange sid (mkReq (VStr E) D) c s =
        Raise (ResponseError
                 [VStr ("Error: " +:+ exc_name (exc_class e) +:+ ", message: "
                          +:+ exc_str e +:+ ", event: " +:+ E)]
                 (VStr (format_exc e)))).
Proof.
  intros Hc Hconn Hreg Hs Hsid Hfunc Hraise Hexc.
  rewrite (exchange_handler_raises sid E D e c tc s ts func) by assumption.
  split.
  - intros cls Hcls. rewrite Hcls. split; intros ->; reflexivity.
  - intros Hnone. now rewrite Hnone.
Qed.

Lemma exchange_reconstructs_exception_witness :
  exchange (RT := Sample.runtime) "sid1" (mkReq (VStr "job") (VInt 3))
    (set_sio (Some (SioClient true {[ "job_rsp" ]} [])) Sample.client)
    (set_server_sio
       (Some (SioServer {[ "job_req" := Sample.failing ]} {[ "sid1" ]} [])) Sample.server) =
    Raise (PyExc Sample.JobError [VStr "no such job"]
             (Some (VStr "Traceback (most recent call last): JobError"))
             (Some (VStr "job")))
  /\ exchange (RT := Sample.runtime) "sid1" (mkReq (VStr "job") (VInt 3))
       Scenario.library_client
       (set_server_sio
          (Some (SioServer {[ "job_req" := Scenario.refusing ]} {[ "sid1" ]} []))
          Sample.server) = Raise TypeError.
Proof.
  split.
  - refine (proj1 (proj1 (exchange_reconstructs_exception (RT := Sample.runtime)
                     "sid1" "job" (VInt 3)
                     (PyExc Sample.JobError [VStr "no such job"] None None)
                     (set_sio (Some (SioClient true {[ "job_rsp" ]} [])) Sample.client)
                     (SioClient true {[ "job_rsp" ]} [])
                     (set_server_sio
                        (Some (SioServer {[ "job_req" := Sample.failing ]} {[ "sid1" ]} []))
                        Sample.server)
                     (SioServer {[ "job_req" := Sample.failing ]} {[ "sid1" ]} [])
                     Sample.failing eq_refl eq_refl _ eq_refl _ eq_refl eq_refl eq_refl)
              Sample.JobError eq_refl) eq_refl);
      decide_by_computation.
  - refine (proj2 (proj1 (exchange_reconstructs_exception (RT := Sample.runtime)
                     "sid1" "job" (VInt 3)
                     (ResponseError [VStr "refused"] (VStr "no trace"))
                     Scenario.library_client
                     (SioClient true {[ "job_rsp" ]} [])
                     (set_server_sio
                        (Some (SioServer {[ "job_req" := Scenario.refusing ]} {[ "sid1" ]} []))
                        Sample.server)
                     (SioServer {[ "job_req" := Scenario.refusing ]} {[ "sid1" ]} [])
                     Scenario.refusing eq_refl eq_refl _ eq_refl _ eq_refl eq_refl eq_refl)
              ResponseError_class eq_refl) eq_refl);
      decide_by_computation.
Defined.

(** A request whose data is a serializable object decodes to a request
    whose data is the JSON text of the object, a [str]. *)
Lemma to_dict_from_dict_serializable_becomes_text :
  Req_from_dict
    (Req_to_dict (RT := Sample.runtime)
       (mkReq (VStr "move") (VObj Sample.Point [("x", VInt 1); ("y", VInt 2)]))) =
    Ok (mkReq (VStr "move")
          (VStr (to_json (PyRuntime := Sample.runtime) Sample.Point
                   [("x", VInt 1); ("y", VInt 2)])))
  /\ VStr (to_json (PyRuntime := Sample.runtime) Sample.Point [("x", VInt 1); ("y", VInt 2)])
       <> VObj Sample.Point [("x", VInt 1); ("y", VInt 2)].
Proof. split; [reflexivity | discriminate]. Qed.

(** C4, as the code has it: for a request or a response whose fields are
    [None], scalars, or sequences and mappings of such values, [to_dict]
    followed by [from_dict] gives back the envelope. When the data is a
    serializable object, [to_dict] carries its JSON text and [from_dict]
    yields that text as a [str], with the event as [str(event)]: the object
    is not rebuilt. A request with the string event [E] and data [D],
    answered by a handler that returns a success response with data [D']
    free of objects, makes the client's [_get_and_verify_response] return
    the response with event [E] and data exactly [D']. *)
Theorem envelope_round_trip {RT : PyRuntime} :
  (forall r : Req,
     plain (req_event r) = true -> plain (req_data r) = true ->
     Req_from_dict (Req_to_dict r) = Ok r)
  /\ (forall r : Rsp,
        plain (rsp_status r) = true -> plain (rsp_event r) = true ->
        plain (rsp_data r) = true ->
        Rsp_from_dict (Rsp_to_dict r) = Ok r)
  /\ (forall (e : pyval) (c : pyclass) (fields : pydict),
        cls_serializable c = true ->
        Req_from_dict (Req_to_dict (mkReq e (VObj c fields))) =
          Ok (mkReq (VStr (builtin_str e)) (VStr (to_json c fields))))
  /\ (forall (st e : pyval) (c : pyclass) (fields : pydict),
        cls_serializable c = true ->
        Rsp_from_dict (Rsp_to_dict (mkRsp st e (VObj c fields))) =
          Ok (mkRsp st (VStr (builtin_str e)) (VStr (to_json c fields))))
  /\ (forall (sid E : string) (D D' ev0 : pyval) (c : ClientBase) (tc : sio_client)
             (s : ServerBase) (ts : sio_server) (func : handler),
        c_sio c = Some tc -> sio_connected tc = true ->
        E +:+ "_rsp" ∈ sio_handlers tc ->
        s_sio s = Some ts -> sid ∈ srv_sessions ts ->
        srv_handlers ts !! (E +:+ "_req") = Some func ->
        func sid (VStr E) (wire_data D) =
          Ok (RetRsp (mkRsp (VStr Status.SUCCESS) ev0 D')) ->
        plain D' = true ->
        exchange sid (mkReq (VStr E) D) c s = Ok (mkRsp (VStr Status.SUCCESS) (VStr E) D')).
Proof.
  repeat apply conj.
  - apply Req_round_trip_plain.
  - apply Rsp_round_trip_plain.
  - apply Req_round_trip_serializable.
  - apply Rsp_round_trip_serializable.
  - intros sid E D D' ev0 c tc s ts func Hc Hconn Hreg Hs Hsid Hfunc Hanswer Hplain.
    rewrite (exchange_success sid E D D' ev0 c tc s ts func) by assumption.
    now rewrite wire_data_plain.
Qed.

Lemma envelope_round_trip_witness :
  exchange (RT := Sample.runtime) "sid1" (mkReq (VStr "ping") (VList [VInt 1; VStr "a"]))
    Sample.client Sample.server =
    Ok (mkRsp (VStr "success") (VStr "ping") (VList [VInt 1; VStr "a"])).
Proof.
  refine (proj2 (proj2 (proj2 (proj2 (envelope_round_trip (RT := Sample.runtime)))))
            "sid1" "ping" (VList [VInt 1; VStr "a"]) (VList [VInt 1; VStr "a"]) VNone
            Sample.client (SioClient true {[ "ping_rsp" ]} [])
            Sample.server (SioServer {[ "ping_req" := Sample.ping ]} {[ "sid1" ]} [])
            Sample.ping eq_refl eq_refl _ eq_refl _ eq_refl eq_refl eq_refl);
    decide_by_computation.
Defined.

(** ** The admission gate *)

Lemma py_ne_optstr_false (v : pyval) (k : option string) :
  py_ne_optstr v k = false <-> v = auth_key_value k.
Proof.
  destruct k as [k |], v; simpl; try (split; discriminate); try (split; reflexivity).
  destruct (String.eqb_spec s k) as [-> | Hne]; simpl.
  - split; reflexivity.
  - split; [discriminate | intros [= Heq]; contradiction].
Qed.

Lemma py_ne_optstr_true (v : pyval) (k : option string) :
  py_ne_optstr v k = true <-> v <> auth_key_value k.
Proof.
  rewrite <- py_ne_optstr_false. now destruct (py_ne_optstr v k).
Qed.

(** C8: the [connect] handler refuses a connection, raising
    [ConnectionRefusedError], exactly when the supplied auth value differs
    from the configured key. A refused connection leaves the server as it
    was: the session is not admitted, so the channel delivers none of its
    events to a request handler and nothing is emitted for it. An accepted
    connection on a started server admits the session. *)
Theorem connection_refused_iff_wrong_token {RT : PyRuntime} (s : ServerBase)
    (sid : string) (environ auth : pyval) :
  (fst (connect_handler sid environ auth s) = Raise ConnectionRefusedError
     <-> auth <> auth_key_value (s_auth_key s))
  /\ (fst (connect_handler sid environ auth s) = Ok tt
        <-> auth = auth_key_value (s_auth_key s))
  /\ (auth <> auth_key_value (s_auth_key s) ->
        server_accept sid environ auth s = (Raise ConnectionRefusedError, s)
        /\ (sid ∉ sessions s ->
            forall (event : string) (data : pyval),
              server_deliver sid event data (snd (server_accept sid environ auth s)) =
                (Ok tt, s)))
  /\ (auth = auth_key_value (s_auth_key s) ->
        fst (server_accept sid environ auth s) = Ok tt
        /\ (forall t : sio_server,
              s_sio s = Some t -> sid ∈ sessions (snd (server_accept sid environ auth s)))).
Proof.
  pose proof (py_ne_optstr_true auth (s_auth_key s)) as Hne.
  pose proof (py_ne_optstr_false auth (s_auth_key s)) as Heq.
  unfold server_accept, connect_handler.
  destruct (py_ne_optstr auth (s_auth_key s)) eqn:Hgate; simpl.
  - assert (Hdiff : auth <> auth_key_value (s_auth_key s)) by now apply Hne.
    split; [| split; [| split]].
    + split; [intros _; exact Hdiff | reflexivity].
    + split; [discriminate | intros Hsame; contradiction].
    + intros _. split; [reflexivity |].
      intros Hsid event data. unfold server_deliver, sessions in *.
      destruct (s_sio s) as [t |]; [| reflexivity].
      now rewrite bool_decide_eq_false_2.
    + intros Hsame. contradiction.
  - assert (Hsame : auth = auth_key_value (s_auth_key s)) by now apply Heq.
    split; [| split; [| split]].
    + split; [| intros Hdiff; contradiction].
      destruct (s_sio s); discriminate.
    + split; [intros _; exact Hsame | intros _; now destruct (s_sio s)].
    + intros Hdiff. contradiction.
    + intros _. split; [now destruct (s_sio s) |].
      intros t Ht. rewrite Ht. unfold sessions. simpl.
      apply elem_of_union_l. now apply elem_of_singleton.
Qed.

Lemma connection_refused_iff_wrong_token_witness :
  server_accept "sid2" VNone (VStr "guess") Sample.server =
    (Raise ConnectionRefusedError, Sample.server)
  /\ server_deliver (RT := Sample.runtime) "sid2" "ping_req"
       (VDict [("event", VStr "ping"); ("data", VNone)])
       (snd (server_accept "sid2" VNone (VStr "guess") Sample.server)) =
       (Ok tt, Sample.server)
  /\ fst (server_accept "sid2" VNone (VStr "secret") Sample.server) = Ok tt
  /\ "sid2" ∈ sessions (snd (server_accept "sid2" VNone (VStr "secret") Sample.server)).
Proof.
  pose proof (connection_refused_iff_wrong_token (RT := Sample.runtime) Sample.server
                "sid2" VNone (VStr "guess")) as (_ & _ & Hrefused & _).
  pose proof (connection_refused_iff_wrong_token (RT := Sample.runtime) Sample.server
                "sid2" VNone (VStr "secret")) as (_ & _ & _ & Haccepted).
  assert (Hwrong : VStr "guess" <> auth_key_value (s_auth_key Sample.server))
    by discriminate.
  assert (Hfresh : "sid2" ∉ sessions Sample.server) by decide_by_computation.
  destruct (Hrefused Hwrong) as [Hraise Hdrop].
  destruct (Haccepted eq_refl) as [Hok Hadmit].
  split; [exact Hraise |].
  split; [exact (Hdrop Hfresh "ping_req" (VDict [("event", VStr "ping"); ("data", VNone)])) |].
  split; [exact Hok |].
  exact (Hadmit _ eq_refl).
Defined.

(** ** Server construction: the endpoint *)

Lemma truthy_str_Some (s : option string) :
  truthy_str s = true -> exists h, s = Some h /\ h <> EmptyString.
Proof.
  destruct s as [h |]; simpl; [| discriminate].
  destruct (String.eqb_spec h EmptyString) as [-> | Hne]; [discriminate |].
  intros _. now exists h.
Qed.

Lemma truthy_int_Some (n : option Z) :
  truthy_int n = true -> exists p, n = Some p /\ p <> 0%Z.
Proof.
  destruct n as [p |]; simpl; [| discriminate].
  destruct (Z.eqb_spec p 0) as [-> | Hne]; [discriminate |].
  intros _. now exists p.
Qed.

(** The check that closes the resolution of the endpoint. *)
Lemma init_endpoint_direct {RT : PyRuntime} (hostname : option string) (port : option Z)
    (url : option string) :
  truthy_str url = false ->
  init_endpoint hostname port url =
    if negb (truthy_str hostname) || negb (truthy_int port) then Raise ValueError
    else match hostname, port with
         | Some h, Some p => Ok (h, p)
         | _, _ => Raise ValueError
         end.
Proof.
  intros Hurl. unfold init_endpoint. rewrite Hurl.
  destruct url; simpl; destruct hostname, port; reflexivity.
Qed.

Lemma init_endpoint_url {RT : PyRuntime} (hostname : option string) (port : option Z)
    (u : string) :
  truthy_str (Some u) = true ->
  init_endpoint hostname port (Some u) =
    if truthy_str hostname || truthy_int port then Raise ValueError
    else
      obind (urlparse_hostname u) (fun h =>
      obind (urlparse_port u) (fun p =>
        if negb (truthy_str h) || negb (truthy_int p) then Raise ValueError
        else match h, p with
             | Some h', Some p' => Ok (h', p')
             | _, _ => Raise ValueError
             end)).
Proof.
  intros Hurl. unfold init_endpoint. rewrite Hurl.
  destruct (truthy_str hostname || truthy_int port); [reflexivity |].
  destruct (urlparse_hostname u) as [h |]; simpl; [| reflexivity].
  destruct (urlparse_port u) as [p |]; simpl; [| reflexivity].
  destruct h, p; reflexivity.
Qed.

Lemma truthy_str_nonempty (h : string) : h <> EmptyString -> truthy_str (Some h) = true.
Proof. intros Hne. simpl. now destruct (String.eqb_spec h EmptyString). Qed.

Lemma truthy_int_nonzero (p : Z) : p <> 0%Z -> truthy_int (Some p) = true.
Proof. intros Hne. simpl. now destruct (Z.eqb_spec p 0). Qed.

(** C9: the constructor accepts a hostname and port pair without a url, and
    a url alone that parses to a hostname and a port: it goes on, with that
    hostname and port, exactly when a non-empty hostname and a non-zero port
    come from the hostname and port arguments with no url given, or from
    the url with neither a hostname nor a port given. It raises
    [ValueError] when a url is given together with a hostname or a port,
    and it raises whenever the arguments, taken directly or parsed from the
    url, do not give both a hostname and a port. An argument counts as given
    when it is true in Python's sense (not [None], not empty, not zero). A
    failure of this part fails the constructor with the file system
    untouched; with an accepted endpoint and no certificate generation the
    constructor returns the server for that endpoint. *)
Theorem init_endpoint_url_or_hostname_port {RT : PyRuntime}
    (hostname : option string) (port : option Z) (url : option string) :
  (truthy_str url = true -> truthy_str hostname || truthy_int port = true ->
     init_endpoint hostname port url = Raise ValueError)
  /\ (truthy_str url = false ->
        truthy_str hostname = false \/ truthy_int port = false ->
        init_endpoint hostname port url = Raise ValueError)
  /\ (forall (u : string) (h : option string) (p : option Z),
        url = Some u -> truthy_str url = true ->
        urlparse_hostname u = Ok h -> urlparse_port u = Ok p ->
        truthy_str h = false \/ truthy_int p = false ->
        init_endpoint hostname port url = Raise ValueError)
  /\ (forall (u : string) (e : pyexc),
        url = Some u -> truthy_str url = true ->
        urlparse_hostname u = Raise e
        \/ (exists h, urlparse_hostname u = Ok h /\ urlparse_port u = Raise e) ->
        raised (init_endpoint hostname port url) = true)
  /\ (forall (h : string) (p : Z),
        init_endpoint hostname port url = Ok (h, p)
        <-> h <> EmptyString /\ p <> 0%Z
            /\ ((truthy_str url = false /\ hostname = Some h /\ port = Some p)
                \/ (truthy_str url = true /\ truthy_str hostname = false
                    /\ truthy_int port = false
                    /\ exists u, url = Some u /\ urlparse_hostname u = Ok (Some h)
                                 /\ urlparse_port u = Ok (Some p))))
  /\ (forall (e : pyexc) (env : cert_env) (certfile_path keyfile_path : option path)
             (generate_cert : bool) (auth_key : option string) (fs : filesystem),
        init_endpoint hostname port url = Raise e ->
        ServerBase_init env hostname port url certfile_path keyfile_path generate_cert
          auth_key fs = (Raise e, fs))
  /\ (forall (h : string) (p : Z) (env : cert_env)
             (certfile_path keyfile_path : option path) (auth_key : option string)
             (fs : filesystem),
        init_endpoint hostname port url = Ok (h, p) ->
        ServerBase_init env hostname port url certfile_path keyfile_path false
          auth_key fs = (Ok (mkServer h p certfile_path keyfile_path auth_key None), fs)).
Proof.
  split; [| split; [| split; [| split; [| split; [| split]]]]].
  - intros Hurl Hboth. destruct (truthy_str_Some _ Hurl) as (u & -> & _).
    now rewrite init_endpoint_url, Hboth.
  - intros Hurl Hmiss. rewrite init_endpoint_direct by assumption.
    destruct Hmiss as [-> | ->]; simpl; [reflexivity |].
    now rewrite orb_true_r.
  - intros u h p -> Hurl Hh Hp Hmiss. rewrite init_endpoint_url by assumption.
    destruct (truthy_str hostname || truthy_int port); [reflexivity |].
    rewrite Hh, Hp. simpl.
    destruct Hmiss as [-> | ->]; simpl; [reflexivity |].
    now rewrite orb_true_r.
  - intros u e -> Hurl Hparse. rewrite init_endpoint_url by assumption.
    destruct (truthy_str hostname || truthy_int port); [reflexivity |].
    destruct Hparse as [-> | (h & -> & ->)]; reflexivity.
  - intros h p. split.
    + intros Hok. destruct (truthy_str url) eqn:Hurl.
      * destruct (truthy_str_Some _ Hurl) as (u & -> & _).
        rewrite init_endpoint_url in Hok by assumption.
        destruct (truthy_str hostname || truthy_int port) eqn:Hgiven; [discriminate |].
        apply orb_false_elim in Hgiven as [Hhost Hport].
        destruct (urlparse_hostname u) as [h' |] eqn:Hh; simpl in Hok; [| discriminate].
        destruct (urlparse_port u) as [p' |] eqn:Hp; simpl in Hok; [| discriminate].
        destruct (truthy_str h') eqn:Hth; simpl in Hok; [| discriminate].
        destruct (truthy_int p') eqn:Htp; simpl in Hok; [| discriminate].
        destruct (truthy_str_Some _ Hth) as (h0 & -> & Hh0).
        destruct (truthy_int_Some _ Htp) as (p0 & -> & Hp0).
        injection Hok as <- <-.
        split; [assumption |]. split; [assumption |]. right.
        repeat (split; [assumption || reflexivity |]). exists u. auto.
      * rewrite init_endpoint_direct in Hok by assumption.
        destruct (truthy_str hostname) eqn:Hth; simpl in Hok; [| discriminate].
        destruct (truthy_int port) eqn:Htp; simpl in Hok; [| discriminate].
        destruct (truthy_str_Some _ Hth) as (h0 & -> & Hh0).
        destruct (truthy_int_Some _ Htp) as (p0 & -> & Hp0).
        injection Hok as <- <-.
        split; [assumption |]. split; [assumption |]. left. auto.
    + intros (Hh & Hp & [(Hurl & -> & ->) | (Hurl & Hhost & Hport & u & -> & Hph & Hpp)]).
      * rewrite init_endpoint_direct by assumption.
        now rewrite (truthy_str_nonempty h Hh), (truthy_int_nonzero p Hp).
      * rewrite init_endpoint_url by assumption.
        rewrite Hhost, Hport, Hph, Hpp. simpl.
        pose proof (truthy_str_nonempty h Hh) as Hth.
        pose proof (truthy_int_nonzero p Hp) as Htp.
        simpl in Hth, Htp. now rewrite Hth, Htp.
  - intros e env certfile_path keyfile_path generate_cert auth_key fs Hraise.
    unfold ServerBase_init, bind, lift. now rewrite Hraise.
  - intros h p env certfile_path keyfile_path auth_key fs Hok.
    unfold ServerBase_init, bind, lift, ret. now rewrite Hok.
Qed.

Lemma init_endpoint_url_or_hostname_port_witness :
  init_endpoint (RT := Sample.runtime) (Some "example.org") None
    (Some "wss://example.org:8443") = Raise ValueError
  /\ init_endpoint (RT := Sample.runtime) (Some "example.org") None None = Raise ValueError
  /\ init_endpoint (RT := Sample.runtime) None None (Some "wss://example.org") =
       Raise ValueError
  /\ init_endpoint (RT := Sample.runtime) (Some "example.org") (Some 8443%Z) None =
       Ok ("example.org", 8443%Z)
  /\ init_endpoint (RT := Sample.runtime) None None (Some "wss://example.org:8443") =
       Ok ("example.org", 8443%Z)
  /\ ServerBase_init (RT := Sample.runtime) Sample.env None None
       (Some "wss://example.org:8443") None None false (Some "secret") Sample.empty_fs =
       (Ok (mkServer "example.org" 8443 None None (Some "secret") None), Sample.empty_fs).
Proof.
  split; [| split; [| split; [| split; [| split]]]].
  - exact (proj1 (init_endpoint_url_or_hostname_port (RT := Sample.runtime)
                    (Some "example.org") None (Some "wss://example.org:8443"))
             eq_refl eq_refl).
  - exact (proj1 (proj2 (init_endpoint_url_or_hostname_port (RT := Sample.runtime)
                           (Some "example.org") None None))
             eq_refl (or_intror eq_refl)).
  - exact (proj1 (proj2 (proj2 (init_endpoint_url_or_hostname_port (RT := Sample.runtime)
                                  None None (Some "wss://example.org"))))
             "wss://example.org" (Some "example.org") None
             eq_refl eq_refl eq_refl eq_refl (or_intror eq_refl)).
  - apply (proj1 (proj2 (proj2 (proj2 (proj2
             (init_endpoint_url_or_hostname_port (RT := Sample.runtime)
                (Some "example.org") (Some 8443%Z) None)))))).
    split; [discriminate |]. split; [discriminate |]. left. auto.
  - apply (proj1 (proj2 (proj2 (proj2 (proj2
             (init_endpoint_url_or_hostname_port (RT := Sample.runtime)
                None None (Some "wss://example.org:8443"))))))).
    split; [discriminate |]. split; [discriminate |]. right.
    repeat (split; [reflexivity |]). exists "wss://example.org:8443". auto.
  - exact (proj2 (proj2 (proj2 (proj2 (proj2 (proj2
             (init_endpoint_url_or_hostname_port (RT := Sample.runtime)
                None None (Some "wss://example.org:8443")))))))
             "example.org" 8443%Z Sample.env None None (Some "secret") Sample.empty_fs
             eq_refl).
Defined.

(** ** Paths and the file system *)

Lemma prefixes_snoc (p : path) (x : string) :
  prefixes (p ++ [x]) = prefixes p ++ [p ++ [x]].
Proof.
  induction p as [| a p IH]; simpl; [reflexivity |].
  rewrite IH, map_app. reflexivity.
Qed.

Lemma prefixes_length (p q : path) :
  q ∈ prefixes p -> 0 < length q <= length p.
Proof.
  revert q. induction p as [| a p IH]; simpl; intros q Hq.
  - now apply elem_of_nil in Hq.
  - apply elem_of_cons in Hq as [-> | Hq]; [simpl; lia |].
    apply list_elem_of_In, in_map_iff in Hq as (q' & <- & Hq').
    apply list_elem_of_In, IH in Hq'. simpl. lia.
Qed.

Lemma prefixes_self (p : path) : p <> [] -> p ∈ prefixes p.
Proof.
  induction p as [| a p IH]; [congruence |]. intros _. simpl.
  destruct p as [| b p]; [apply list_elem_of_here |].
  apply list_elem_of_further, list_elem_of_In, in_map, list_elem_of_In, IH.
  discriminate.
Qed.

Lemma parent_length (p : path) : p <> [] -> length (parent p) < length p.
Proof.
  unfold parent. induction p as [| a p IH]; [congruence |]. intros _.
  destruct p as [| b p]; [simpl; lia |].
  change (removelast (a :: b :: p)) with (a :: removelast (b :: p)).
  simpl length. assert (b :: p <> []) as Hne by discriminate.
  specialize (IH Hne). simpl in IH. lia.
Qed.

(** A path is not among the prefixes of a directory that holds a path of
    the same depth. *)
Lemma not_prefix_of_sibling_parent (p q : path) :
  p <> [] -> parent p = parent q -> p ∉ prefixes (parent q).
Proof.
  intros Hp Hpar Hin. rewrite <- Hpar in Hin.
  apply prefixes_length in Hin. pose proof (parent_length p Hp). lia.
Qed.

Lemma is_dir_cons (fs : filesystem) (a : string) (p : path) :
  is_dir fs (a :: p) = bool_decide (a :: p ∈ fs_dirs fs).
Proof. reflexivity. Qed.

Lemma is_dir_false_nonempty (fs : filesystem) (p : path) :
  is_dir fs p = false -> p <> [] /\ p ∉ fs_dirs fs.
Proof.
  destruct p as [| a p]; simpl; [discriminate |].
  intros Hd. split; [discriminate |]. now apply bool_decide_eq_false in Hd.
Qed.

Lemma existsb_false {A} (f : A -> bool) (l : list A) :
  existsb f l = false <-> forall x, x ∈ l -> f x = false.
Proof.
  induction l as [| a l IH]; simpl.
  - split; [intros _ x Hx; now apply elem_of_nil in Hx | reflexivity].
  - rewrite orb_false_iff, IH. split.
    + intros [Ha Hl] x Hx. apply elem_of_cons in Hx as [-> | Hx]; auto.
    + intros Hall. split; [apply Hall, list_elem_of_here |].
      intros x Hx. apply Hall. now apply list_elem_of_further.
Qed.

Lemma is_file_insert (fs : filesystem) (p q : path) (data : file_data) :
  is_file (FileSystem (fs_dirs fs) (<[p := data]> (fs_files fs))) q =
  bool_decide (p = q) || is_file fs q.
Proof.
  unfold is_file. simpl. destruct (decide (p = q)) as [-> | Hne].
  - rewrite lookup_insert_eq, (bool_decide_eq_true_2 (q = q)) by reflexivity.
    apply bool_decide_eq_true_2. eauto.
  - rewrite lookup_insert_ne by assumption.
    now rewrite (bool_decide_eq_false_2 (p = q)) by assumption.
Qed.

(** [mkdir] succeeds when no prefix of the directory is a regular file;
    it keeps the files, makes the directory exist, and adds only prefixes
    of it. *)
Lemma mkdir_parents_ok (fs : filesystem) (d : path) :
  existsb (is_file fs) (prefixes d) = false ->
  exists fs1,
    mkdir_parents d fs = (Ok tt, fs1)
    /\ fs_files fs1 = fs_files fs
    /\ is_dir fs1 d = true
    /\ (forall q, is_dir fs1 q = true -> is_dir fs q = true \/ q ∈ prefixes d).
Proof.
  intros Hfiles. unfold mkdir_parents.
  destruct (is_dir fs d) eqn:Hd.
  - exists fs. repeat split; auto.
  - destruct (is_dir_false_nonempty _ _ Hd) as [Hne Hnot].
    pose proof (proj1 (existsb_false _ _) Hfiles) as Hall.
    rewrite (Hall d (prefixes_self d Hne)).
    assert (existsb (is_file fs) (prefixes (parent d)) = false) as ->.
    { apply existsb_false. intros x Hx. apply Hall.
      destruct (exists_last Hne) as (d' & x' & ->).
      unfold parent in Hx. rewrite removelast_last in Hx.
      rewrite prefixes_snoc. apply elem_of_app. now left. }
    eexists. split; [reflexivity |]. split; [reflexivity |]. split.
    + destruct d as [| a d]; [reflexivity |]. rewrite is_dir_cons. cbn [fs_dirs].
      apply bool_decide_eq_true_2, elem_of_union_l. apply elem_of_list_to_set.
      now apply prefixes_self.
    + intros q. destruct q as [| b q]; [now left |]. rewrite !is_dir_cons. cbn [fs_dirs].
      intros Hq. apply bool_decide_eq_true in Hq.
      apply elem_of_union in Hq as [Hq | Hq].
      * right. now apply elem_of_list_to_set in Hq.
      * left. now apply bool_decide_eq_true_2.
Qed.

Lemma write_bytes_ok (fs : filesystem) (p : path) (data : file_data) :
  is_dir fs p = false ->
  existsb (is_file fs) (prefixes (parent p)) = false ->
  is_dir fs (parent p) = true ->
  write_bytes p data fs = (Ok tt, FileSystem (fs_dirs fs) (<[p := data]> (fs_files fs))).
Proof. intros Hd Hf Hp. unfold write_bytes. now rewrite Hd, Hf, Hp. Qed.

(** ** Generating and ensuring the certificate *)

Lemma new_cert_dns_names (env : cert_env) (hostname : string) :
  get_dns_names_from_cert (new_cert_pem env hostname) = Ok [hostname].
Proof. reflexivity. Qed.

(** The generator on a hostname that the library accepts, and on one that
    it does not. *)
Lemma generate_selfsigned_cert_accepted (env : cert_env) (hostname : string) :
  accepted_hostname hostname = true ->
  generate_selfsigned_cert env hostname None None =
    Ok (new_cert_pem env hostname, new_key_pem env hostname).
Proof.
  unfold accepted_hostname, generate_selfsigned_cert, NameAttribute_COMMON_NAME,
    x509_DNSName.
  intros Hok. apply andb_prop in Hok as [Hlen Hascii]. now rewrite Hlen, Hascii.
Qed.

Lemma generate_selfsigned_cert_refused (env : cert_env) (hostname : string)
    (ip_addresses : option (list string)) (key : option rsa_private_key) :
  accepted_hostname hostname = false ->
  generate_selfsigned_cert env hostname ip_addresses key = Raise ValueError.
Proof.
  unfold accepted_hostname, generate_selfsigned_cert, NameAttribute_COMMON_NAME,
    x509_DNSName.
  intros Hbad. apply andb_false_iff in Hbad as [-> | Hascii]; [reflexivity |].
  destruct (_ && _); simpl; [| reflexivity]. now rewrite Hascii.
Qed.

Lemma generate_new_cert_refused (env : cert_env) (certfile_path keyfile_path : option path)
    (hostname : string) (fs : filesystem) :
  accepted_hostname hostname = false ->
  generate_new_cert env certfile_path keyfile_path hostname fs = (Raise ValueError, fs).
Proof.
  intros Hbad. unfold generate_new_cert, bind, lift.
  now rewrite generate_selfsigned_cert_refused.
Qed.

Lemma is_dir_same_dirs (fs : filesystem) (files : gmap path file_data) (p : path) :
  is_dir (FileSystem (fs_dirs fs) files) p = is_dir fs p.
Proof. destruct p; reflexivity. Qed.

Lemma is_file_same_files (fs fs' : filesystem) (p : path) :
  fs_files fs' = fs_files fs -> is_file fs' p = is_file fs p.
Proof. intros Hf. unfold is_file. now rewrite Hf. Qed.

Lemma elem_of_prefixes (p q : path) :
  q ∈ prefixes p <-> q <> [] /\ exists t, p = q ++ t.
Proof.
  revert q. induction p as [| x p IH]; intros q; simpl.
  - split; [intros Hq; now apply elem_of_nil in Hq |].
    intros [Hne (t & Ht)]. symmetry in Ht. apply app_eq_nil in Ht as [-> _].
    contradiction.
  - rewrite elem_of_cons. split.
    + intros [-> | Hq].
      * split; [discriminate |]. now exists p.
      * apply list_elem_of_In, in_map_iff in Hq as (q' & <- & Hq').
        apply list_elem_of_In, IH in Hq' as [Hne (t & ->)].
        split; [discriminate |]. now exists t.
    + intros [Hne (t & Ht)]. destruct q as [| y q]; [contradiction |].
      injection Ht as <- ->. destruct q as [| z q]; [now left |]. right.
      apply list_elem_of_In, in_map, list_elem_of_In, IH.
      split; [discriminate |]. now exists t.
Qed.

Lemma prefixes_trans (p q r : path) :
  q ∈ prefixes p -> r ∈ prefixes q -> r ∈ prefixes p.
Proof.
  rewrite !elem_of_prefixes. intros [_ (t & ->)] [Hne (u & ->)].
  split; [assumption |]. exists (u ++ t). now rewrite app_assoc.
Qed.

Lemma parent_snoc (p : path) (x : string) : parent (p ++ [x]) = p.
Proof. apply removelast_last. Qed.

(** In a well-formed file system the ancestors of a directory are
    directories, and none of them is a regular file. *)
Lemma wf_prefix_dirs (fs : filesystem) (d q : path) :
  fs_wf fs -> is_dir fs d = true -> q ∈ prefixes d -> is_dir fs q = true.
Proof.
  intros [Hdirs _]. revert q.
  induction d as [| x d IH] using rev_ind; intros q Hd Hq.
  - now apply elem_of_nil in Hq.
  - rewrite prefixes_snoc in Hq. apply elem_of_app in Hq as [Hq | Hq].
    + apply IH; [| assumption]. rewrite <- (parent_snoc d x). now apply Hdirs.
    + apply list_elem_of_singleton in Hq as ->. assumption.
Qed.

Lemma wf_no_file_prefix (fs : filesystem) (d : path) :
  fs_wf fs -> is_dir fs d = true -> existsb (is_file fs) (prefixes d) = false.
Proof.
  intros Hwf Hd. apply existsb_false. intros q Hq.
  pose proof (wf_prefix_dirs fs d q Hwf Hd Hq) as Hdir.
  destruct (is_file fs q) eqn:Hfile; [| reflexivity].
  destruct Hwf as [_ Hfiles]. destruct (Hfiles q Hfile) as [_ Hnot]. congruence.
Qed.

(** [mkdir] in a well-formed file system: besides [mkdir_parents_ok], the
    directories that were there stay, and every prefix of the directory is
    a directory afterwards. *)
Lemma mkdir_parents_ok_wf (fs : filesystem) (d : path) :
  fs_wf fs ->
  existsb (is_file fs) (prefixes d) = false ->
  exists fs1,
    mkdir_parents d fs = (Ok tt, fs1)
    /\ fs_files fs1 = fs_files fs
    /\ is_dir fs1 d = true
    /\ (forall q, is_dir fs1 q = true -> is_dir fs q = true \/ q ∈ prefixes d)
    /\ (forall q, is_dir fs q = true -> is_dir fs1 q = true)
    /\ (forall q, q ∈ prefixes d -> is_dir fs1 q = true).
Proof.
  intros Hwf Hfiles.
  destruct (mkdir_parents_ok fs d Hfiles) as (fs1 & Hmk & Hf1 & Hd1 & Hback).
  exists fs1. repeat (split; [assumption |]).
  unfold mkdir_parents in Hmk. destruct (is_dir fs d) eqn:Hd.
  - injection Hmk as <-. split; [auto |].
    intros q Hq. now apply (wf_prefix_dirs fs d).
  - destruct (is_file fs d); [discriminate |].
    destruct (existsb (is_file fs) (prefixes (parent d))); [discriminate |].
    injection Hmk as <-. split.
    + intros q. destruct q as [| b q]; [reflexivity |]. rewrite !is_dir_cons. cbn [fs_dirs].
      intros Hq. apply bool_decide_eq_true in Hq.
      now apply bool_decide_eq_true_2, elem_of_union_r.
    + intros q Hq. destruct q as [| b q]; [reflexivity |]. rewrite is_dir_cons. cbn [fs_dirs].
      apply bool_decide_eq_true_2, elem_of_union_l. now apply elem_of_list_to_set.
Qed.

(** In a writable layout [generate_new_cert] returns normally and the two
    paths hold the generated data; the other files are as before, and the
    directory of the certificate exists. *)
Lemma generate_new_cert_writable (env : cert_env) (fs : filesystem) (cert key : path)
    (hostname : string) :
  accepted_hostname hostname = true ->
  fs_wf fs -> pair_writable fs cert key ->
  exists fs',
    generate_new_cert env (Some cert) (Some key) hostname fs = (Ok tt, fs')
    /\ fs_files fs' =
         <[key := new_key_pem env hostname]>
           (<[cert := new_cert_pem env hostname]> (fs_files fs))
    /\ is_dir fs' (parent cert) = true.
Proof.
  intros Hhost Hwf [Hne Hcert Hkey Hanc Hck Hkc Hkdir].
  destruct (is_dir_false_nonempty _ _ Hcert) as [Hcert_ne _].
  destruct (mkdir_parents_ok_wf fs (parent cert) Hwf Hanc)
    as (fs1 & Hmk & Hfiles1 & Hdir1 & Hback & Hmono & Hpre).
  assert (Hcert_self : cert ∉ prefixes (parent cert)).
  { intros Hin. apply prefixes_length in Hin. pose proof (parent_length cert Hcert_ne). lia. }
  assert (Hcert1 : is_dir fs1 cert = false).
  { destruct (is_dir fs1 cert) eqn:Hd; [| reflexivity].
    destruct (Hback _ Hd) as [Hd' | Hd']; [congruence | contradiction]. }
  assert (Hkey1 : is_dir fs1 key = false).
  { destruct (is_dir fs1 key) eqn:Hd; [| reflexivity].
    destruct (Hback _ Hd) as [Hd' | Hd']; [congruence | contradiction]. }
  assert (Hanc1 : existsb (is_file fs1) (prefixes (parent cert)) = false).
  { apply existsb_false. intros q Hq.
    rewrite (is_file_same_files fs fs1) by assumption.
    now apply (proj1 (existsb_false _ _) Hanc). }
  assert (Hkanc : forall q, q ∈ prefixes (parent key) -> is_file fs q = false).
  { intros q Hq. destruct Hkdir as [Hkd | Hkd].
    - now apply (proj1 (existsb_false _ _) (wf_no_file_prefix fs _ Hwf Hkd)).
    - apply (proj1 (existsb_false _ _) Hanc). now apply (prefixes_trans _ (parent key)). }
  assert (Hkdir1 : is_dir fs1 (parent key) = true).
  { destruct Hkdir as [Hkd | Hkd]; [now apply Hmono | now apply Hpre]. }
  unfold generate_new_cert, bind, path_of, ret, lift.
  rewrite (generate_selfsigned_cert_accepted _ _ Hhost). simpl.
  rewrite Hmk, (write_bytes_ok fs1 cert) by assumption.
  rewrite write_bytes_ok.
  - eexists. split; [reflexivity |]. simpl. rewrite Hfiles1. split; [reflexivity |].
    now rewrite (is_dir_same_dirs fs1).
  - now rewrite is_dir_same_dirs.
  - apply existsb_false. intros q Hq. rewrite is_file_insert.
    rewrite (is_file_same_files fs fs1), (Hkanc q Hq), orb_false_r by assumption.
    apply bool_decide_eq_false_2. now intros <-.
  - now rewrite is_dir_same_dirs.
Qed.

(** Both files in one directory, neither path a directory, no ancestor a
    regular file: a writable layout. *)
Lemma same_directory_writable (fs : filesystem) (cert key : path) :
  existsb (is_file fs) (prefixes (parent cert)) = false ->
  is_dir fs cert = false -> is_dir fs key = false ->
  cert <> key -> parent key = parent cert ->
  pair_writable fs cert key.
Proof.
  intros Hanc Hcert Hkey Hne Hpar.
  destruct (is_dir_false_nonempty _ _ Hcert) as [Hcert_ne _].
  destruct (is_dir_false_nonempty _ _ Hkey) as [Hkey_ne _].
  split; try assumption.
  - now apply not_prefix_of_sibling_parent.
  - now apply not_prefix_of_sibling_parent.
  - rewrite Hpar. destruct (parent cert) as [| x d] eqn:Hd; [now left |].
    right. apply prefixes_self. discriminate.
Qed.

(** Two different regular files of a well-formed file system: a writable
    layout. *)
Lemma regular_files_writable (fs : filesystem) (cert key : path) :
  fs_wf fs -> is_file fs cert = true -> is_file fs key = true -> cert <> key ->
  pair_writable fs cert key.
Proof.
  intros Hwf Hcert Hkey Hne.
  destruct (proj2 Hwf cert Hcert) as [Hcdir Hcnot].
  destruct (proj2 Hwf key Hkey) as [Hkdir Hknot].
  split; try assumption.
  - now apply wf_no_file_prefix.
  - intros Hin. pose proof (wf_prefix_dirs fs _ _ Hwf Hkdir Hin). congruence.
  - intros Hin. pose proof (wf_prefix_dirs fs _ _ Hwf Hcdir Hin). congruence.
  - now left.
Qed.

Lemma path_exists_file (fs : filesystem) (p : path) (data : file_data) :
  fs_files fs !! p = Some data -> path_exists fs p = true.
Proof.
  intros Hf. unfold path_exists, is_file. rewrite Hf.
  rewrite (bool_decide_eq_true_2 (is_Some (Some data))) by eauto.
  apply orb_true_r.
Qed.

(** With a certificate that names the hostname and a key file in place, the
    block does nothing. *)
Lemma init_certificate_valid (env : cert_env) (fs : filesystem) (cert key : path)
    (hostname : string) (c : certificate) (names : list general_name) :
  fs_files fs !! cert = Some (CertificatePEM c) ->
  path_exists fs key = true ->
  get_san_extension (cert_extensions c) = Ok names ->
  hostname ∈ get_values_for_DNSName names ->
  init_certificate env (Some cert) (Some key) hostname fs = (Ok tt, fs).
Proof.
  intros Hfile Hkey Hsan Hin.
  unfold init_certificate, bind, path_of, ret, gets, lift, read_bytes. simpl.
  rewrite (path_exists_file _ _ _ Hfile). simpl. rewrite Hkey. simpl.
  rewrite Hfile. unfold get_dns_names_from_cert. simpl. rewrite Hsan. simpl.
  now rewrite bool_decide_eq_true_2.
Qed.

(** With a file missing, or a certificate that does not name the hostname,
    the block is [generate_new_cert]. *)
Lemma init_certificate_regenerates (env : cert_env) (fs : filesystem) (cert key : path)
    (hostname : string) :
  path_exists fs cert = false
  \/ path_exists fs key = false
  \/ (exists c names,
        fs_files fs !! cert = Some (CertificatePEM c)
        /\ get_san_extension (cert_extensions c) = Ok names
        /\ hostname ∉ get_values_for_DNSName names) ->
  init_certificate env (Some cert) (Some key) hostname fs =
    generate_new_cert env (Some cert) (Some key) hostname fs.
Proof.
  intros Hcase.
  unfold init_certificate, bind, path_of, ret, gets, lift, read_bytes. simpl.
  destruct (path_exists fs cert) eqn:Hc; simpl; [| reflexivity].
  destruct (path_exists fs key) eqn:Hk; simpl; [| reflexivity].
  destruct Hcase as [Hcase | [Hcase | (c & names & Hfile & Hsan & Hnot)]];
    [discriminate | discriminate |].
  rewrite Hfile. unfold get_dns_names_from_cert. simpl. rewrite Hsan. simpl.
  now rewrite bool_decide_eq_false_2.
Qed.

Lemma init_certificate_regenerated (env : cert_env) (fs : filesystem) (cert key : path)
    (hostname : string) :
  accepted_hostname hostname = true ->
  fs_wf fs -> pair_writable fs cert key ->
  path_exists fs cert = false
  \/ path_exists fs key = false
  \/ (exists c names,
        fs_files fs !! cert = Some (CertificatePEM c)
        /\ get_san_extension (cert_extensions c) = Ok names
        /\ hostname ∉ get_values_for_DNSName names) ->
  exists fs',
    init_certificate env (Some cert) (Some key) hostname fs = (Ok tt, fs')
    /\ regenerated env fs fs' cert key hostname.
Proof.
  intros Hhost Hwf Hlayout Hcase.
  rewrite init_certificate_regenerates by assumption.
  destruct (generate_new_cert_writable env fs cert key hostname Hhost Hwf Hlayout)
    as (fs' & Hgen & Hfiles & _).
  pose proof (pw_distinct _ _ _ Hlayout) as Hne.
  assert (Hc' : fs_files fs' !! cert = Some (new_cert_pem env hostname)).
  { rewrite Hfiles, lookup_insert_ne by congruence. apply lookup_insert_eq. }
  assert (Hk' : fs_files fs' !! key = Some (new_key_pem env hostname)).
  { rewrite Hfiles. apply lookup_insert_eq. }
  exists fs'. split; [assumption |]. split; [assumption |]. split; [assumption |].
  split; [| split].
  - intros p Hpc Hpk. rewrite Hfiles, !lookup_insert_ne by congruence. reflexivity.
  - exists [hostname]. split; [apply new_cert_dns_names | apply list_elem_of_here].
  - intros env'.
    eapply (init_certificate_valid env' fs' cert key hostname _ [DNSName hostname]).
    + exact Hc'.
    + now apply (path_exists_file fs' key (new_key_pem env hostname)).
    + reflexivity.
    + apply list_elem_of_here.
Qed.

Lemma empty_fs_wf : fs_wf Sample.empty_fs.
Proof.
  split.
  - intros [| x p]; [reflexivity |]. rewrite is_dir_cons. intros Hd.
    apply bool_decide_eq_true in Hd. now apply elem_of_empty in Hd.
  - intros p Hf. apply bool_decide_eq_true in Hf. simpl in Hf.
    rewrite lookup_empty in Hf. now destruct Hf.
Qed.

(** The certificate block of the constructor is idempotent and corrective.
    When both files are there and the certificate's DNS names include the
    hostname, it changes nothing, however often it is called. When a file is
    missing, or the hostname is not among the DNS names of the existing
    certificate, the block generates a new pair. For a hostname that the
    certificate library accepts (1 to 64 characters, ASCII), in a
    well-formed file system and a writable layout ([pair_writable]: in
    particular the directory of the key exists or is made for the
    certificate), it writes a freshly generated certificate and key to the
    same two paths, the new certificate names the hostname, and a further
    call changes nothing. For any other hostname the generator raises
    [ValueError] before a file is touched. *)
Theorem init_certificate_idempotent_and_corrective (env : cert_env) (fs : filesystem)
    (cert key : path) (hostname : string) :
  (forall (c : certificate) (names : list general_name),
     fs_files fs !! cert = Some (CertificatePEM c) ->
     path_exists fs key = true ->
     get_san_extension (cert_extensions c) = Ok names ->
     hostname ∈ get_values_for_DNSName names ->
     init_certificate env (Some cert) (Some key) hostname fs = (Ok tt, fs)
     /\ forall env' : cert_env,
          init_certificate env' (Some cert) (Some key) hostname
            (snd (init_certificate env (Some cert) (Some key) hostname fs)) = (Ok tt, fs))
  /\ (path_exists fs cert = false
      \/ path_exists fs key = false
      \/ (exists c names,
            fs_files fs !! cert = Some (CertificatePEM c)
            /\ get_san_extension (cert_extensions c) = Ok names
            /\ hostname ∉ get_values_for_DNSName names) ->
      (accepted_hostname hostname = true ->
       fs_wf fs -> pair_writable fs cert key ->
       exists fs',
         init_certificate env (Some cert) (Some key) hostname fs = (Ok tt, fs')
         /\ regenerated env fs fs' cert key hostname)
      /\ (accepted_hostname hostname = false ->
          init_certificate env (Some cert) (Some key) hostname fs =
            (Raise ValueError, fs))).
Proof.
  split.
  - intros c names Hfile Hkey Hsan Hin.
    rewrite (init_certificate_valid env fs cert key hostname c names) by assumption.
    split; [reflexivity |]. intros env'. simpl.
    now apply (init_certificate_valid env' fs cert key hostname c names).
  - intros Hcase. split.
    + intros Hhost Hwf Hlayout. now apply init_certificate_regenerated.
    + intros Hhost. rewrite init_certificate_regenerates by assumption.
      now apply generate_new_cert_refused.
Qed.

Lemma init_certificate_idempotent_and_corrective_witness :
  (exists fs',
     init_certificate Sample.env (Some ["certs"; "server.pem"])
       (Some ["certs"; "server.key"]) "example.org" Sample.empty_fs = (Ok tt, fs')
     /\ regenerated Sample.env Sample.empty_fs fs' ["certs"; "server.pem"]
          ["certs"; "server.key"] "example.org")
  /\ init_certificate Sample.env (Some ["certs"; "server.pem"])
       (Some ["certs"; "server.key"]) Scenario.long_hostname Sample.empty_fs =
       (Raise ValueError, Sample.empty_fs).
Proof.
  split.
  - apply (proj1 (proj2 (init_certificate_idempotent_and_corrective Sample.env
                           Sample.empty_fs ["certs"; "server.pem"]
                           ["certs"; "server.key"] "example.org")
                    (or_introl eq_refl))).
    + reflexivity.
    + exact empty_fs_wf.
    + apply same_directory_writable;
        [reflexivity | reflexivity | reflexivity | discriminate | reflexivity].
  - exact (proj2 (proj2 (init_certificate_idempotent_and_corrective Sample.env
                           Sample.empty_fs ["certs"; "server.pem"]
                           ["certs"; "server.key"] Scenario.long_hostname)
                    (or_introl eq_refl)) eq_refl).
Defined.

(** In a well-formed file system where the certificate and the key are two
    different regular files, a certificate whose DNS names do not include
    the hostname is replaced when the certificate library accepts the
    hostname (1 to 64 characters, ASCII): the block writes a freshly
    generated certificate and key to the two paths, the new certificate
    names the hostname, and a further call changes nothing. For any other
    hostname the block raises [ValueError] and the stale pair stays as it
    is. *)
Theorem init_certificate_replaces_stale_certificate (env : cert_env) (fs : filesystem)
    (cert key : path) (hostname : string) (c : certificate) (names : list general_name) :
  fs_wf fs -> cert <> key ->
  fs_files fs !! cert = Some (CertificatePEM c) ->
  is_file fs key = true ->
  get_san_extension (cert_extensions c) = Ok names ->
  hostname ∉ get_values_for_DNSName names ->
  (accepted_hostname hostname = true ->
   exists fs',
     init_certificate env (Some cert) (Some key) hostname fs = (Ok tt, fs')
     /\ regenerated env fs fs' cert key hostname)
  /\ (accepted_hostname hostname = false ->
      init_certificate env (Some cert) (Some key) hostname fs = (Raise ValueError, fs)).
Proof.
  intros Hwf Hne Hfile Hkey Hsan Hnot.
  assert (Hcase : path_exists fs cert = false
                  \/ path_exists fs key = false
                  \/ (exists c names,
                        fs_files fs !! cert = Some (CertificatePEM c)
                        /\ get_san_extension (cert_extensions c) = Ok names
                        /\ hostname ∉ get_values_for_DNSName names)).
  { right. right. eauto. }
  split.
  - intros Hhost. apply init_certificate_regenerated; try assumption.
    apply regular_files_writable; try assumption.
    unfold is_file. rewrite Hfile. apply bool_decide_eq_true_2. eauto.
  - intros Hhost. rewrite init_certificate_regenerates by assumption.
    now apply generate_new_cert_refused.
Qed.

Lemma stale_fs_wf : fs_wf Sample.stale_fs.
Proof.
  split.
  - intros [| x p]; [reflexivity |]. rewrite is_dir_cons. intros Hd.
    apply bool_decide_eq_true in Hd. unfold Sample.stale_fs in Hd. cbn [fs_dirs] in Hd.
    apply elem_of_singleton in Hd. now rewrite Hd.
  - intros p Hf. apply bool_decide_eq_true in Hf. unfold Sample.stale_fs in Hf.
    simpl in Hf.
    destruct (decide (["certs"; "server.pem"] = p)) as [<- | Hc]; [split; reflexivity |].
    rewrite lookup_insert_ne in Hf by assumption.
    destruct (decide (["certs"; "server.key"] = p)) as [<- | Hk]; [split; reflexivity |].
    rewrite lookup_insert_ne, lookup_empty in Hf by assumption. now destruct Hf.
Qed.

Lemma init_certificate_replaces_stale_certificate_witness :
  (exists fs',
     init_certificate Sample.env (Some ["certs"; "server.pem"])
       (Some ["certs"; "server.key"]) "example.org" Sample.stale_fs = (Ok tt, fs')
     /\ regenerated Sample.env Sample.stale_fs fs' ["certs"; "server.pem"]
          ["certs"; "server.key"] "example.org")
  /\ init_certificate Sample.env (Some ["certs"; "server.pem"])
       (Some ["certs"; "server.key"]) Scenario.long_hostname Sample.stale_fs =
       (Raise ValueError, Sample.stale_fs).
Proof.
  split.
  - eapply (init_certificate_replaces_stale_certificate Sample.env Sample.stale_fs
              ["certs"; "server.pem"] ["certs"; "server.key"] "example.org" _
              [DNSName "old.example.org"]).
    + exact stale_fs_wf.
    + discriminate.
    + reflexivity.
    + reflexivity.
    + reflexivity.
    + decide_by_computation.
    + reflexivity.
  - eapply (init_certificate_replaces_stale_certificate Sample.env Sample.stale_fs
              ["certs"; "server.pem"] ["certs"; "server.key"] Scenario.long_hostname _
              [DNSName "old.example.org"]).
    + exact stale_fs_wf.
    + discriminate.
    + reflexivity.
    + reflexivity.
    + reflexivity.
    + decide_by_computation.
    + reflexivity.
Defined.

(** C6 at the input [certs/server.pem], [keys/server.key], hostname
    [example.org], on a file system where neither file and neither directory
    exists: both files are missing, and the block, and so the constructor,
    fails with [FileNotFoundError] once the certificate is written; no key
    is written to its path, and a second call fails in the same way. *)
Theorem init_certificate_missing_pair_not_written :
  path_exists Sample.empty_fs ["certs"; "server.pem"] = false
  /\ path_exists Sample.empty_fs ["keys"; "server.key"] = false
  /\ fst (init_certificate Sample.env (Some ["certs"; "server.pem"])
            (Some ["keys"; "server.key"]) "example.org" Sample.empty_fs) =
       Raise (builtin_exc "FileNotFoundError")
  /\ fs_files (snd (init_certificate Sample.env (Some ["certs"; "server.pem"])
                      (Some ["keys"; "server.key"]) "example.org" Sample.empty_fs))
       !! ["keys"; "server.key"] = None
  /\ fst (init_certificate Sample.env (Some ["certs"; "server.pem"])
            (Some ["keys"; "server.key"]) "example.org"
            (snd (init_certificate Sample.env (Some ["certs"; "server.pem"])
                    (Some ["keys"; "server.key"]) "example.org" Sample.empty_fs))) =
       Raise (builtin_exc "FileNotFoundError")
  /\ fst (ServerBase_init (RT := Sample.runtime) Sample.env (Some "example.org")
            (Some 8443%Z) None (Some ["certs"; "server.pem"])
            (Some ["keys"; "server.key"]) true (Some "secret") Sample.empty_fs) =
       Raise (builtin_exc "FileNotFoundError").
Proof. repeat split; vm_compute; reflexivity. Qed.

(** C7 at the input [certs/server.pem], [keys/server.key] on a file system
    where neither directory exists: [generate_new_cert] creates [certs] and
    writes the certificate, then fails with [FileNotFoundError] on the key
    file, whose directory [keys] it did not create; the key is not
    persisted. *)
Theorem generate_new_cert_key_directory_not_created :
  fst (generate_new_cert Sample.env (Some ["certs"; "server.pem"])
         (Some ["keys"; "server.key"]) "example.org" Sample.empty_fs) =
    Raise (builtin_exc "FileNotFoundError")
  /\ fs_files (snd (generate_new_cert Sample.env (Some ["certs"; "server.pem"])
                      (Some ["keys"; "server.key"]) "example.org" Sample.empty_fs))
       !! ["certs"; "server.pem"] = Some (new_cert_pem Sample.env "example.org")
  /\ fs_files (snd (generate_new_cert Sample.env (Some ["certs"; "server.pem"])
                      (Some ["keys"; "server.key"]) "example.org" Sample.empty_fs))
       !! ["keys"; "server.key"] = None
  /\ is_dir (snd (generate_new_cert Sample.env (Some ["certs"; "server.pem"])
                    (Some ["keys"; "server.key"]) "example.org" Sample.empty_fs))
       ["certs"] = true
  /\ is_dir (snd (generate_new_cert Sample.env (Some ["certs"; "server.pem"])
                    (Some ["keys"; "server.key"]) "example.org" Sample.empty_fs))
       ["keys"] = false.
Proof. repeat split; vm_compute; reflexivity. Qed.






(** For a hostname that the certificate library accepts, in a well-formed
    file system and a writable layout ([pair_writable]),
    [generate_new_cert] returns normally, the directory of the certificate
    exists afterwards, both files hold the generated PEM data, and no other
    file changes. For any other hostname it raises [ValueError] and changes
    nothing. *)
Theorem generate_new_cert_persists_pair (env : cert_env) (fs : filesystem)
    (cert key : path) (hostname : string) :
  fs_wf fs -> pair_writable fs cert key ->
  (accepted_hostname hostname = true ->
   exists fs',
     generate_new_cert env (Some cert) (Some key) hostname fs = (Ok tt, fs')
     /\ is_dir fs' (parent cert) = true
     /\ fs_files fs' !! cert = Some (new_cert_pem env hostname)
     /\ fs_files fs' !! key = Some (new_key_pem env hostname)
     /\ forall p, p <> cert -> p <> key -> fs_files fs' !! p = fs_files fs !! p)
  /\ (accepted_hostname hostname = false ->
      generate_new_cert env (Some cert) (Some key) hostname fs = (Raise ValueError, fs)).
Proof.
  intros Hwf Hlayout. split; [| apply generate_new_cert_refused].
  intros Hhost.
  destruct (generate_new_cert_writable env fs cert key hostname Hhost Hwf Hlayout)
    as (fs' & Hgen & Hfiles & Hdir).
  pose proof (pw_distinct _ _ _ Hlayout) as Hne.
  exists fs'. split; [assumption |]. split; [assumption |]. rewrite Hfiles.
  split; [| split].
  - rewrite lookup_insert_ne by congruence. apply lookup_insert_eq.
  - apply lookup_insert_eq.
  - intros p Hpc Hpk. now rewrite !lookup_insert_ne by congruence.
Qed.

Lemma generate_new_cert_persists_pair_witness :
  (exists fs',
     generate_new_cert Sample.env (Some ["certs"; "server.pem"])
       (Some ["certs"; "server.key"]) "example.org" Sample.empty_fs = (Ok tt, fs')
     /\ is_dir fs' (parent ["certs"; "server.pem"]) = true
     /\ fs_files fs' !! ["certs"; "server.pem"] = Some (new_cert_pem Sample.env "example.org")
     /\ fs_files fs' !! ["certs"; "server.key"] = Some (new_key_pem Sample.env "example.org")
     /\ forall p, p <> ["certs"; "server.pem"] -> p <> ["certs"; "server.key"] ->
                  fs_files fs' !! p = fs_files Sample.empty_fs !! p)
  /\ generate_new_cert Sample.env (Some ["certs"; "server.pem"])
       (Some ["certs"; "server.key"]) Scenario.long_hostname Sample.empty_fs =
       (Raise ValueError, Sample.empty_fs).
Proof.
  assert (Hlayout : pair_writable Sample.empty_fs ["certs"; "server.pem"]
                      ["certs"; "server.key"]).
  { apply same_directory_writable;
      [reflexivity | reflexivity | reflexivity | discriminate | reflexivity]. }
  split.
  - exact (proj1 (generate_new_cert_persists_pair Sample.env Sample.empty_fs
                    ["certs"; "server.pem"] ["certs"; "server.key"] "example.org"
                    empty_fs_wf Hlayout) eq_refl).
  - exact (proj2 (generate_new_cert_persists_pair Sample.env Sample.empty_fs
                    ["certs"; "server.pem"] ["certs"; "server.key"]
                    Scenario.long_hostname empty_fs_wf Hlayout) eq_refl).
Defined.

(** ** Channel names *)

Lemma string_app_inj_l (s s' t : string) : s +:+ t = s' +:+ t -> s = s'.
Proof.
  intros Heq.
  assert (Hlen : String.length s = String.length s').
  { apply (f_equal String.length) in Heq. rewrite !string_length_app in Heq. lia. }
  rewrite <- (substring_prefix s t), <- (substring_prefix s' t), Heq, Hlen.
  reflexivity.
Qed.

Lemma string_app_inj_r (s t t' : string) : s +:+ t = s +:+ t' -> t = t'.
Proof.
  induction s as [| a s IH]; simpl; [auto |]. intros [= Heq]. auto.
Qed.

Lemma string_app_same_length (s s' t t' : string) :
  String.length t = String.length t' -> s +:+ t = s' +:+ t' -> s = s' /\ t = t'.
Proof.
  intros Hlen Heq.
  assert (Hs : String.length s = String.length s').
  { apply (f_equal String.length) in Heq. rewrite !string_length_app in Heq. lia. }
  assert (s = s') as <-.
  { rewrite <- (substring_prefix s t), <- (substring_prefix s' t'), Heq, Hs. reflexivity. }
  split; [reflexivity |]. now apply string_app_inj_r in Heq.
Qed.

(** The names of the request and response channels: different events have
    different request channels and different response channels, no request
    channel is a response channel, and an event that is not a [str] has no
    channel name ([TypeError]). *)
Theorem event_channels_are_separate :
  (forall e e' : string, get_req_event (VStr e) = get_req_event (VStr e') -> e = e')
  /\ (forall e e' : string, get_rsp_event (VStr e) = get_rsp_event (VStr e') -> e = e')
  /\ (forall e e' : string, get_req_event (VStr e) <> get_rsp_event (VStr e'))
  /\ (forall v : pyval,
        (forall s, v <> VStr s) ->
        get_req_event v = Raise TypeError /\ get_rsp_event v = Raise TypeError).
Proof.
  split; [| split; [| split]].
  - intros e e' [= Heq]. now apply string_app_inj_l in Heq.
  - intros e e' [= Heq]. now apply string_app_inj_l in Heq.
  - intros e e' [= Heq].
    apply string_app_same_length in Heq as [_ Heq]; [discriminate | reflexivity].
  - intros v Hv. destruct v; try (split; reflexivity). now destruct (Hv s).
Qed.

(** ** What [verify_response] lets through *)

Lemma verify_response_Ok {RT : PyRuntime} (exception_map : gmap string excclass)
    (rsp : Rsp) (v : pyval) :
  verify_response exception_map rsp = Ok v ->
  rsp_status rsp = VStr Status.SUCCESS /\ v = VNone.
Proof.
  unfold verify_response.
  destruct (py_ne_str (rsp_status rsp) Status.SUCCESS) eqn:Hne.
  - destruct (SerializableException_from_dict (rsp_data rsp)) as [e |]; simpl;
      [| discriminate].
    destruct (exception_map_get exception_map (se_name e)) as [[cls |] |]; simpl;
      [destruct (exc_accepts_message cls) | |]; discriminate.
  - intros [= <-]. split; [| reflexivity].
    destruct (rsp_status rsp) eqn:Hst; simpl in Hne; try discriminate.
    apply negb_false_iff, String.eqb_eq in Hne. now subst.
Qed.

(** [verify_response] returns only for a response whose status is the
    string ['success'], and then returns [None]; for every other status it
    raises, with [TypeError] when the data is not an error record. So
    [_get_and_verify_response] returns only a response with status
    ['success'], which is the stored one, with the wake flag cleared and
    nothing else changed. *)
Theorem verify_response_returns_only_on_success {RT : PyRuntime} :
  (forall (exception_map : gmap string excclass) (rsp : Rsp) (v : pyval),
     verify_response exception_map rsp = Ok v ->
     rsp_status rsp = VStr Status.SUCCESS /\ v = VNone)
  /\ (forall (exception_map : gmap string excclass) (rsp : Rsp) (e : pyexc),
        rsp_status rsp <> VStr Status.SUCCESS ->
        SerializableException_from_dict (rsp_data rsp) = Raise e ->
        verify_response exception_map rsp = Raise TypeError)
  /\ (forall (c c' : ClientBase) (r : Rsp),
        _get_and_verify_response c = (Ok r, c') ->
        rsp_status r = VStr Status.SUCCESS
        /\ c_rsp c = Some r /\ c_rsp_event c = true
        /\ c' = set_rsp_event false c).
Proof.
  split; [| split].
  - intros exception_map rsp v. apply verify_response_Ok.
  - intros exception_map rsp e Hst Hdec. apply py_ne_str_true in Hst.
    unfold verify_response. rewrite Hst.
    destruct (rsp_data rsp) as [| | | | | | kvs |]; try reflexivity.
    unfold SerializableException_from_dict in *.
    destruct (kwargs_known _ kvs); [| reflexivity].
    destruct (dict_get "name" kvs), (dict_get "message" kvs), (dict_get "tb" kvs);
      solve [reflexivity | discriminate].
  - intros c c' r.
    unfold _get_and_verify_response, _get_response, bind, gets, ret, modify, lift,
      try_finally, disconnect, raise.
    destruct (c_rsp_event c) eqn:Hflag; simpl.
    + destruct (c_rsp c) as [rsp |] eqn:Hrsp; simpl; [| discriminate].
      destruct (verify_response (c_exception_map c) rsp) as [v |] eqn:Hv; simpl;
        [| discriminate].
      intros [= <- <-]. apply verify_response_Ok in Hv as [Hst _]. auto.
    + destruct (connected c); simpl; discriminate.
Qed.

Lemma verify_response_returns_only_on_success_witness :
  verify_response (RT := Sample.runtime) Sample.exception_map
    (mkRsp (VStr "error") VNone (VInt 3)) = Raise TypeError
  /\ rsp_status (mkRsp (VStr "success") (VStr "ping") (VInt 1)) = VStr Status.SUCCESS.
Proof.
  destruct (verify_response_returns_only_on_success (RT := Sample.runtime))
    as (_ & Hmalformed & Hfetched).
  split.
  - apply (Hmalformed Sample.exception_map (mkRsp (VStr "error") VNone (VInt 3)) TypeError);
      [discriminate | reflexivity].
  - apply (Hfetched
             (set_rsp_event true
                (set_rsp (Some (mkRsp (VStr "success") (VStr "ping") (VInt 1)))
                   Sample.client))
             (set_rsp_event false
                (set_rsp_event true
                   (set_rsp (Some (mkRsp (VStr "success") (VStr "ping") (VInt 1)))
                      Sample.client)))
             (mkRsp (VStr "success") (VStr "ping") (VInt 1))).
    reflexivity.
Defined.

(** ** What the request wrapper changes *)

(** The two ways the last two lines of the wrapper end: with one emission on
    the response channel of the request's event, or with an exception and
    the server as it was. *)
Lemma emit_response_outcome {RT : PyRuntime} (rsp : handler_result) (ev : pyval)
    (sid : string) (s : ServerBase) :
  (exists (t : sio_server) (E : string) (payload : pyval),
     s_sio s = Some t /\ ev = VStr E
     /\ result_to_dict rsp (E +:+ "_rsp") = Ok payload
     /\ emit_response rsp ev sid s =
          (Ok tt, after_emit s t (Emission (E +:+ "_rsp") payload sid)))
  \/ (exists e : pyexc, emit_response rsp ev sid s = (Raise e, s)).
Proof.
  unfold emit_response, bind, lift, server_emit, gets, ret, raise.
  destruct ev as [| | | | E | | |]; simpl; try (right; eauto; fail).
  destruct (set_event rsp) as [[] | e]; simpl; [| right; eauto].
  destruct (s_sio s) as [t |] eqn:Hs; simpl; [| right; eauto].
  destruct (result_to_dict rsp (E +:+ "_rsp")) as [payload | e] eqn:Hpayload; simpl;
    [| right; eauto].
  rewrite Hs. left. exists t, E, payload. auto.
Qed.

(** What a [Rsp] travels as. *)
Lemma result_to_dict_rsp {RT : PyRuntime} (r : Rsp) (event : string) :
  exists items : pydict,
    result_to_dict (RetRsp r) event = Ok (VDict items)
    /\ items.*1 = ["status"; "event"; "data"]
    /\ dict_get "event" items = Some (VStr event).
Proof.
  unfold result_to_dict, Rsp_to_dict. simpl.
  destruct (is_serializable (rsp_data r)); eexists; (split; [reflexivity |]);
    rewrite ?builtin_str_VStr; split; reflexivity.
Qed.

(** Whatever the handler (a function that returns or raises and does not
    itself use the channel), the session and the payload, the request
    wrapper either returns, having appended exactly one emission, addressed
    to the session the request came from, on the response channel of the
    request's event, and changed nothing else; or it raises and leaves the
    server exactly as it was. It never emits to another session, and never
    touches the registered handlers or the admitted sessions. When the
    handler has returned a [Rsp] or has raised, what is emitted is a
    dictionary with the keys [status], [event] and [data] whose event is the
    channel it is emitted on. *)
Theorem handle_request_wrapper_frame {RT : PyRuntime} (func : handler) (sid : string)
    (data : pyval) (s : ServerBase) :
  (fst (handle_request_wrapper func sid data s) = Ok tt ->
     exists (t : sio_server) (E : string) (D : pyval) (payload : pyval),
       s_sio s = Some t
       /\ Req_from_dict data = Ok (mkReq (VStr E) D)
       /\ snd (handle_request_wrapper func sid data s) =
            after_emit s t (Emission (E +:+ "_rsp") payload sid)
       /\ ((exists r, func sid (VStr E) D = Ok (RetRsp r))
             \/ raised (func sid (VStr E) D) = true ->
           exists items : pydict,
             payload = VDict items
             /\ items.*1 = ["status"; "event"; "data"]
             /\ dict_get "event" items = Some (VStr (E +:+ "_rsp"))))
  /\ (raised (fst (handle_request_wrapper func sid data s)) = true ->
        snd (handle_request_wrapper func sid data s) = s).
Proof.
  unfold handle_request_wrapper, bind, lift, try_except, ret.
  destruct (Req_from_dict data) as [[ev D] |] eqn:Hreq; simpl;
    [| split; [discriminate | reflexivity]].
  assert (Hrest : forall rsp : handler_result,
            (fst (emit_response rsp ev sid s) = Ok tt ->
               exists (t : sio_server) (E : string) (payload : pyval),
                 s_sio s = Some t /\ ev = VStr E
                 /\ result_to_dict rsp (E +:+ "_rsp") = Ok payload
                 /\ snd (emit_response rsp ev sid s) =
                      after_emit s t (Emission (E +:+ "_rsp") payload sid))
            /\ (raised (fst (emit_response rsp ev sid s)) = true ->
                snd (emit_response rsp ev sid s) = s)).
  { intros rsp.
    destruct (emit_response_outcome rsp ev sid s)
      as [(t & E & payload & Hs & -> & Hpayload & ->) | (e & ->)]; simpl.
    - split; [| discriminate]. intros _. exists t, E, payload. auto.
    - split; [discriminate | reflexivity]. }
  destruct (func sid ev D) as [rsp | e] eqn:Hf; simpl.
  - destruct (Hrest rsp) as [Hok Hfail]. split; [| exact Hfail].
    intros Hfst. destruct (Hok Hfst) as (t & E & payload & Hs & -> & Hpayload & Hsnd).
    exists t, E, D, payload. rewrite Hf. repeat (split; [assumption || reflexivity |]).
    intros [[r [= ->]] | [=]].
    destruct (result_to_dict_rsp r (E +:+ "_rsp")) as (items & Hitems & Hkeys & Hev).
    exists items. rewrite Hitems in Hpayload. injection Hpayload as <-. auto.
  - destruct (exc_is_Exception (exc_class e)); simpl;
      [| split; [discriminate | reflexivity]].
    destruct (Hrest (RetRsp (error_response e))) as [Hok Hfail].
    split; [| exact Hfail].
    intros Hfst. destruct (Hok Hfst) as (t & E & payload & Hs & -> & Hpayload & Hsnd).
    exists t, E, D, payload. rewrite Hf. repeat (split; [assumption || reflexivity |]).
    intros _.
    destruct (result_to_dict_rsp (error_response e) (E +:+ "_rsp"))
      as (items & Hitems & Hkeys & Hev).
    exists items. rewrite Hitems in Hpayload. injection Hpayload as <-. auto.
Qed.

Lemma handle_request_wrapper_frame_witness :
  (exists (t : sio_server) (E : string) (D : pyval) (payload : pyval),
     s_sio Sample.server = Some t
     /\ Req_from_dict (VDict [("event", VStr "ping"); ("data", VInt 1)]) =
          Ok (mkReq (VStr E) D)
     /\ snd (handle_request_wrapper (RT := Sample.runtime) Sample.ping "sid1"
               (VDict [("event", VStr "ping"); ("data", VInt 1)]) Sample.server) =
          after_emit Sample.server t (Emission (E +:+ "_rsp") payload "sid1")
     /\ ((exists r, Sample.ping "sid1" (VStr E) D = Ok (RetRsp r))
           \/ raised (Sample.ping "sid1" (VStr E) D) = true ->
         exists items : pydict,
           payload = VDict items
           /\ items.*1 = ["status"; "event"; "data"]
           /\ dict_get "event" items = Some (VStr (E +:+ "_rsp"))))
  /\ snd (handle_request_wrapper (RT := Sample.runtime) Sample.bare "sid1"
            (VDict [("event", VStr "ping"); ("data", VInt 1)]) Sample.server) =
       Sample.server.
Proof.
  split.
  - exact (proj1 (handle_request_wrapper_frame (RT := Sample.runtime) Sample.ping "sid1"
                    (VDict [("event", VStr "ping"); ("data", VInt 1)]) Sample.server)
             eq_refl).
  - exact (proj2 (handle_request_wrapper_frame (RT := Sample.runtime) Sample.bare "sid1"
                    (VDict [("event", VStr "ping"); ("data", VInt 1)]) Sample.server)
             eq_refl).
Defined.

(** ** The slot for the pending response *)




(** ** Keyword calls of the dataclass constructors *)

Lemma kwargs_known_spec (fields : list string) (kvs : pydict) :
  kwargs_known fields kvs = true <-> forall k, k ∈ kvs.*1 -> k ∈ fields.
Proof.
  unfold kwargs_known. induction kvs as [| [k v] rest IH]; simpl.
  - split; [intros _ k Hk; inversion Hk | reflexivity].
  - rewrite andb_true_iff, bool_decide_eq_true, IH. split.
    + intros [Hk Hrest] k' Hk'. apply elem_of_cons in Hk' as [-> | Hk']; auto.
    + intros Hall. split; [apply Hall; left |].
      intros k' Hk'. apply Hall. now right.
Qed.

Lemma dict_get_is_Some (k : string) (kvs : pydict) :
  is_Some (dict_get k kvs) <-> k ∈ kvs.*1.
Proof.
  induction kvs as [| [k' v] rest IH]; simpl.
  - split; [intros [x [=]] | intros Hk; inversion Hk].
  - destruct (String.eqb_spec k k') as [-> | Hne].
    + split; [intros _; left | intros _; eauto].
    + rewrite IH. split; [intros Hk; now right |].
      intros Hk. apply elem_of_cons in Hk as [-> | Hk]; [contradiction | assumption].
Qed.

(** The error record travels as a dictionary and is read back by the keyword
    call of the constructor. Encoding and decoding give the record back with
    each field in its [asdict] form, so the record that the request wrapper
    builds from an exception is read back as it was built. Decoding accepts
    a dictionary whose keys are exactly [name], [message] and [tb]; anything
    else, a missing or an additional key included, is a [TypeError]. *)
Theorem SerializableException_decoding_is_strict {RT : PyRuntime} :
  (forall e : SerializableException,
     SerializableException_from_dict (SerializableException_to_dict e) =
       Ok (mkSerializableException (asdict_inner (se_name e))
             (asdict_inner (se_message e)) (asdict_inner (se_tb e))))
  /\ (forall x : pyexc,
        SerializableException_from_dict (rsp_data (error_response x)) =
          Ok (mkSerializableException (VStr (exc_name (exc_class x)))
                (VStr (exc_str x)) (VStr (format_exc x))))
  /\ (forall d : pyval,
        raised (SerializableException_from_dict d) = false
        <-> exists kvs : pydict,
              d = VDict kvs /\ forall k, k ∈ kvs.*1 <-> k ∈ ["name"; "message"; "tb"])
  /\ (forall (d : pyval) (e : pyexc),
        SerializableException_from_dict d = Raise e -> e = TypeError).
Proof.
  split; [| split; [| split]].
  - intros e. reflexivity.
  - intros x. reflexivity.
  - intros d. split.
    + destruct d as [| | | | | | kvs |]; simpl; try discriminate.
      destruct (kwargs_known _ kvs) eqn:Hknown; [| discriminate].
      destruct (dict_get "name" kvs) as [n |] eqn:Hn; [| discriminate].
      destruct (dict_get "message" kvs) as [m |] eqn:Hm; [| discriminate].
      destruct (dict_get "tb" kvs) as [t |] eqn:Ht; [| discriminate].
      intros _. exists kvs. split; [reflexivity |]. intros k. split.
      * now apply kwargs_known_spec.
      * intros Hk. apply dict_get_is_Some.
        apply elem_of_cons in Hk as [-> | Hk]; [eauto |].
        apply elem_of_cons in Hk as [-> | Hk]; [eauto |].
        apply elem_of_cons in Hk as [-> | Hk]; [eauto | inversion Hk].
    + intros (kvs & -> & Hkeys). simpl.
      assert (Hknown : kwargs_known ["name"; "message"; "tb"] kvs = true).
      { apply kwargs_known_spec. intros k. apply Hkeys. }
      rewrite Hknown.
      assert (Hget : forall k, k ∈ ["name"; "message"; "tb"] -> is_Some (dict_get k kvs)).
      { intros k Hk. apply dict_get_is_Some, Hkeys, Hk. }
      destruct (Hget "name") as [n ->]; [decide_by_computation |].
      destruct (Hget "message") as [m ->]; [decide_by_computation |].
      destruct (Hget "tb") as [t ->]; [decide_by_computation |].
      reflexivity.
  - intros d e. unfold SerializableException_from_dict.
    intros Hd. repeat case_match; congruence.
Qed.

(** ** What [make_request] changes *)

(** [make_request] returns exactly when the client has a connected handle
    and the event of the request is a [str]; the handle then has one more
    outgoing message, the request's dictionary on the event's request
    channel, and nothing else has changed. In every other case it raises and
    leaves the client as it was: [AttributeError] without a handle,
    [TypeError] for an event that is not a [str], [ConnectionError] on a
    handle that is not connected. It never touches the response slot, the
    flag or the registered handlers. *)
Theorem make_request_sends_one_message_or_nothing {RT : PyRuntime} (req : Req)
    (c : ClientBase) :
  (fst (make_request req c) = Ok tt
     <-> exists (t : sio_client) (E : string),
           c_sio c = Some t /\ sio_connected t = true /\ req_event req = VStr E)
  /\ (forall (t : sio_client) (E : string),
        c_sio c = Some t -> sio_connected t = true -> req_event req = VStr E ->
        make_request req c =
          (Ok tt,
           set_sio (Some (SioClient true (sio_handlers t)
                            (sio_sent t ++ [(E +:+ "_req", Req_to_dict req)]))) c))
  /\ (raised (fst (make_request req c)) = true -> snd (make_request req c) = c)
  /\ (c_sio c = None -> fst (make_request req c) = Raise AttributeError)
  /\ (forall t : sio_client,
        c_sio c = Some t -> (forall E, req_event req <> VStr E) ->
        fst (make_request req c) = Raise TypeError)
  /\ (forall (t : sio_client) (E : string),
        c_sio c = Some t -> sio_connected t = false -> req_event req = VStr E ->
        fst (make_request req c) = Raise (builtin_exc "ConnectionError")).
Proof.
  unfold make_request, bind, lift, client_emit, get_req_event, str_concat.
  destruct (c_sio c) as [t |] eqn:Hc.
  - destruct (req_event req) as [| | | | E | | |] eqn:Hev; simpl;
      try (split; [split; [discriminate | intros (t' & E' & _ & _ & [=])] |];
           split; [intros t' E' _ _ [=] |];
           split; [reflexivity |];
           split; [discriminate |];
           split; [reflexivity | intros t' E' _ _ [=]]).
    destruct (sio_connected t) eqn:Hconn; simpl.
    + split; [split; [intros _; exists t, E; auto | reflexivity] |].
      split; [intros t' E' [= <-] _ [= <-]; reflexivity |].
      split; [discriminate |].
      split; [discriminate |].
      split; [intros t' _ Hne; now destruct (Hne E) |].
      intros t' E' [= <-] Hf. congruence.
    + split; [split; [discriminate | intros (t' & E' & [= <-] & Hf & _); congruence] |].
      split; [intros t' E' [= <-] Hf; congruence |].
      split; [reflexivity |].
      split; [discriminate |].
      split; [intros t' _ Hne; now destruct (Hne E) |].
      reflexivity.
  - simpl.
    split; [split; [discriminate | intros (t' & E' & [=] & _)] |].
    split; [intros t' E' [=] |].
    split; [reflexivity |].
    split; [reflexivity |].
    split; [intros t' [=] | intros t' E' [=]].
Qed.

Lemma make_request_sends_one_message_or_nothing_witness :
  make_request (RT := Sample.runtime) (mkReq (VStr "ping") (VInt 1)) Sample.client =
    (Ok tt,
     set_sio (Some (SioClient true {[ "ping_rsp" ]}
                      ([] ++ [("ping" +:+ "_req",
                               Req_to_dict (RT := Sample.runtime)
                                 (mkReq (VStr "ping") (VInt 1)))]))) Sample.client)
  /\ fst (make_request (RT := Sample.runtime) (mkReq (VInt 7) VNone) Sample.client) =
       Raise TypeError
  /\ fst (make_request (RT := Sample.runtime) (mkReq (VStr "ping") VNone)
            Scenario.fresh_client) = Raise AttributeError.
Proof.
  split; [| split].
  - exact (proj1 (proj2 (make_request_sends_one_message_or_nothing (RT := Sample.runtime)
                           (mkReq (VStr "ping") (VInt 1)) Sample.client))
             (SioClient true {[ "ping_rsp" ]} []) "ping" eq_refl eq_refl eq_refl).
  - refine (proj1 (proj2 (proj2 (proj2 (proj2
              (make_request_sends_one_message_or_nothing (RT := Sample.runtime)
                 (mkReq (VInt 7) VNone) Sample.client)))))
              (SioClient true {[ "ping_rsp" ]} []) eq_refl _).
    intros E. discriminate.
  - exact (proj1 (proj2 (proj2 (proj2
              (make_request_sends_one_message_or_nothing (RT := Sample.runtime)
                 (mkReq (VStr "ping") VNone) Scenario.fresh_client)))) eq_refl).
Defined.

(** ** What the response wrapper stores *)



(** The comprehension fails on the first ['event'] value that cannot be
    sliced. *)
Lemma strip_event_items_bad_event (items : pydict) (v : pyval) :
  dict_get "event" items = Some v -> raised (slice_to_minus4 v) = true ->
  strip_event_items items = Raise TypeError.
Proof.
  induction items as [| [k x] rest IH]; simpl; [discriminate |].
  rewrite (String.eqb_sym k "event").
  destruct (String.eqb "event" k).
  - intros [= ->] Hv. destruct v; simpl in Hv; try discriminate; reflexivity.
  - intros Hget Hv. simpl. now rewrite IH.
Qed.



(** ** Objects in the wire form *)

Lemma plain_asdict_inner (v : pyval) : plain (asdict_inner v) = only_dataclasses v.
Proof.
  induction v as [| | | | | l IH | kvs IH | c fields IH] using pyval_nested_ind;
    simpl; try reflexivity.
  - induction IH as [| x l Hx Hl IHl]; simpl; [reflexivity | now rewrite Hx, IHl].
  - induction IH as [| [k x] l Hx Hl IHl]; simpl in *; [reflexivity | now rewrite Hx, IHl].
  - destruct (cls_dataclass c); simpl; [| reflexivity].
    induction IH as [| [k x] l Hx Hl IHl]; simpl in *; [reflexivity | now rewrite Hx, IHl].
Qed.

Lemma asdict_inner_idempotent (v : pyval) : asdict_inner (asdict_inner v) = asdict_inner v.
Proof.
  induction v as [| | | | | l IH | kvs IH | c fields IH] using pyval_nested_ind;
    simpl; try reflexivity.
  - f_equal. induction IH as [| x l Hx Hl IHl]; simpl; [reflexivity | now rewrite Hx, IHl].
  - f_equal. induction IH as [| [k x] l Hx Hl IHl]; simpl in *;
      [reflexivity | now rewrite Hx, IHl].
  - destruct (cls_dataclass c) eqn:Hdc; simpl; [| now rewrite Hdc].
    f_equal. induction IH as [| [k x] l Hx Hl IHl]; simpl in *;
      [reflexivity | now rewrite Hx, IHl].
Qed.

(** Which envelopes travel without objects. [asdict] turns a value into one
    without objects exactly when every object in it is a dataclass instance,
    and applying it again changes nothing. So the dictionary of a request
    is free of objects when its data is a serializable object (the data
    travels as JSON text and the event as a [str]), and otherwise exactly
    when event and data contain only dataclass instances; an object of any
    other class stays in the dictionary as it is. The same holds for a
    response, whose status is not converted in the serializable branch. *)
Theorem to_dict_is_object_free_for_dataclasses {RT : PyRuntime} :
  (forall v : pyval, plain (asdict_inner v) = only_dataclasses v)
  /\ (forall v : pyval, asdict_inner (asdict_inner v) = asdict_inner v)
  /\ (forall r : Req,
        plain (Req_to_dict r) =
          if is_serializable (req_data r) then true
          else only_dataclasses (req_event r) && only_dataclasses (req_data r))
  /\ (forall r : Rsp,
        plain (Rsp_to_dict r) =
          if is_serializable (rsp_data r) then plain (rsp_status r)
          else only_dataclasses (rsp_status r) && only_dataclasses (rsp_event r)
               && only_dataclasses (rsp_data r))
  /\ (forall (c : pyclass) (fields : pydict) (e : pyval),
        cls_dataclass c = false -> cls_serializable c = false ->
        Req_to_dict (mkReq e (VObj c fields)) =
          VDict [("event", asdict_inner e); ("data", VObj c fields)]).
Proof.
  split; [exact plain_asdict_inner |]. split; [exact asdict_inner_idempotent |].
  split; [| split].
  - intros [e d]. unfold Req_to_dict. simpl.
    destruct (is_serializable d) eqn:Hs; simpl.
    + destruct d; simpl in *; try discriminate. reflexivity.
    + now rewrite !plain_asdict_inner, andb_true_r.
  - intros [st e d]. unfold Rsp_to_dict. simpl.
    destruct (is_serializable d) eqn:Hs; simpl.
    + destruct d; simpl in *; try discriminate. now rewrite andb_true_r.
    + now rewrite !plain_asdict_inner, andb_true_r, andb_assoc.
  - intros c fields e Hdc Hs. unfold Req_to_dict. simpl. now rewrite Hs, Hdc.
Qed.

Lemma to_dict_is_object_free_for_dataclasses_witness :
  Req_to_dict (RT := Sample.runtime)
    (mkReq (VStr "open") (VObj (PyClass "Socket" false false) [("fd", VInt 3)])) =
    VDict [("event", asdict_inner (VStr "open"));
           ("data", VObj (PyClass "Socket" false false) [("fd", VInt 3)])]
  /\ plain (Req_to_dict (RT := Sample.runtime)
              (mkReq (VStr "move")
                 (VObj Scenario.Pair [("x", VInt 1); ("y", VInt 2)]))) = true.
Proof.
  destruct (to_dict_is_object_free_for_dataclasses (RT := Sample.runtime))
    as (_ & _ & Hreq & _ & Hkept).
  split.
  - exact (Hkept (PyClass "Socket" false false) [("fd", VInt 3)] (VStr "open")
             eq_refl eq_refl).
  - rewrite Hreq. reflexivity.
Defined.

(** ** A certificate that cannot be used *)

Lemma get_san_extension_missing (exts : list extension) :
  Forall (fun ext => forall names, ext_value ext <> SubjectAlternativeName names) exts ->
  get_san_extension exts = Raise (builtin_exc "ExtensionNotFound").
Proof.
  induction 1 as [| [value critical] rest Hext Hrest IH]; simpl; [reflexivity |].
  destruct value; simpl in *; try assumption. now destruct (Hext names).
Qed.

(** When both paths exist, the constructor block reads the certificate and
    regenerates the pair only if the certificate can be read and does not
    name the hostname. A certificate that cannot be read is not replaced:
    the block raises and writes nothing, with [IsADirectoryError] when the
    certificate path is a directory, [ValueError] when the file does not
    hold a PEM certificate, and [ExtensionNotFound] when the certificate has
    no subject alternative names. *)
Theorem init_certificate_unusable_certificate_not_replaced (env : cert_env)
    (fs : filesystem) (cert key : path) (hostname : string) :
  path_exists fs cert = true -> path_exists fs key = true ->
  (fs_files fs !! cert = None ->
     init_certificate env (Some cert) (Some key) hostname fs =
       (Raise (builtin_exc "IsADirectoryError"), fs))
  /\ (forall data : file_data,
        fs_files fs !! cert = Some data -> (forall c, data <> CertificatePEM c) ->
        init_certificate env (Some cert) (Some key) hostname fs = (Raise ValueError, fs))
  /\ (forall c : certificate,
        fs_files fs !! cert = Some (CertificatePEM c) ->
        Forall (fun ext => forall names, ext_value ext <> SubjectAlternativeName names)
          (cert_extensions c) ->
        init_certificate env (Some cert) (Some key) hostname fs =
          (Raise (builtin_exc "ExtensionNotFound"), fs)).
Proof.
  intros Hcert Hkey.
  unfold init_certificate, bind, path_of, ret, gets, lift, read_bytes. simpl.
  rewrite Hcert. simpl. rewrite Hkey. simpl.
  split; [| split].
  - intros Hnone. rewrite Hnone.
    unfold path_exists, is_file in Hcert. rewrite Hnone in Hcert.
    rewrite bool_decide_eq_false_2, orb_false_r in Hcert by (intros [x [=]]).
    now rewrite Hcert.
  - intros data Hdata Hnot. rewrite Hdata.
    destruct data as [c | k | bytes]; [now destruct (Hnot c) | reflexivity | reflexivity].
  - intros c Hdata Hexts. rewrite Hdata.
    unfold get_dns_names_from_cert. simpl.
    now rewrite (get_san_extension_missing _ Hexts).
Qed.

Lemma init_certificate_unusable_certificate_not_replaced_witness :
  init_certificate Sample.env (Some ["certs"; "server.pem"]) (Some ["certs"; "server.key"])
    "example.org" Scenario.garbage_fs = (Raise ValueError, Scenario.garbage_fs).
Proof.
  refine (proj1 (proj2 (init_certificate_unusable_certificate_not_replaced Sample.env
                          Scenario.garbage_fs ["certs"; "server.pem"]
                          ["certs"; "server.key"] "example.org" _ _))
            (OtherBytes "not a certificate") _ _).
  - vm_compute. reflexivity.
  - vm_compute. reflexivity.
  - vm_compute. reflexivity.
  - intros c. discriminate.
Defined.

(** ** A certificate without its key *)

(** [generate_new_cert] generates the pair first, which raises
    [ValueError] for a hostname that the certificate library does not
    accept, with nothing written. For an accepted hostname it then writes
    the certificate before it touches the key path: where the certificate
    can be written, a call that raises has failed on the key, and the
    certificate file then holds the new certificate, its directory exists,
    and every other file, the old key included, is as it was. Without a key
    path the failure is an [AttributeError]. *)
Theorem generate_new_cert_failure_leaves_new_certificate (env : cert_env)
    (fs : filesystem) (cert : path) (keyfile_path : option path) (hostname : string)
    (e : pyexc) :
  is_dir fs cert = false ->
  existsb (is_file fs) (prefixes (parent cert)) = false ->
  (accepted_hostname hostname = true ->
   fst (generate_new_cert env (Some cert) keyfile_path hostname fs) = Raise e ->
   fs_files (snd (generate_new_cert env (Some cert) keyfile_path hostname fs)) =
     <[cert := new_cert_pem env hostname]> (fs_files fs)
   /\ is_dir (snd (generate_new_cert env (Some cert) keyfile_path hostname fs))
        (parent cert) = true
   /\ (keyfile_path = None -> e = AttributeError))
  /\ (accepted_hostname hostname = false ->
      generate_new_cert env (Some cert) keyfile_path hostname fs = (Raise ValueError, fs)).
Proof.
  intros Hcert Hanc. split; [| apply generate_new_cert_refused].
  intros Hhost.
  destruct (is_dir_false_nonempty _ _ Hcert) as [Hcert_ne _].
  destruct (mkdir_parents_ok fs (parent cert) Hanc) as (fs1 & Hmk & Hfiles1 & Hdir1 & Hback).
  assert (Hcert_self : cert ∉ prefixes (parent cert)).
  { intros Hin. apply prefixes_length in Hin. pose proof (parent_length cert Hcert_ne). lia. }
  assert (Hcert1 : is_dir fs1 cert = false).
  { destruct (is_dir fs1 cert) eqn:Hd; [| reflexivity].
    destruct (Hback _ Hd) as [Hd' | Hd']; [congruence | contradiction]. }
  assert (Hanc1 : existsb (is_file fs1) (prefixes (parent cert)) = false).
  { apply existsb_false. intros q Hq.
    rewrite (is_file_same_files fs fs1) by assumption.
    now apply (proj1 (existsb_false _ _) Hanc). }
  unfold generate_new_cert, bind, path_of, ret, raise, lift.
  rewrite (generate_selfsigned_cert_accepted _ _ Hhost). simpl.
  rewrite Hmk, (write_bytes_ok fs1 cert) by assumption.
  destruct keyfile_path as [key |]; simpl.
  - unfold write_bytes.
    repeat match goal with
           | |- context [if ?b then _ else _] => destruct b
           end; simpl; try discriminate;
      intros _; rewrite Hfiles1;
      (split; [reflexivity |]); (split; [| discriminate]);
      now rewrite is_dir_same_dirs.
  - intros [= <-]. rewrite Hfiles1. split; [reflexivity |].
    split; [now rewrite is_dir_same_dirs | reflexivity].
Qed.

Lemma generate_new_cert_failure_leaves_new_certificate_witness :
  (fs_files (snd (generate_new_cert Sample.env (Some ["certs"; "server.pem"]) None
                    "example.org" Sample.empty_fs)) =
     <[ ["certs"; "server.pem"] := new_cert_pem Sample.env "example.org" ]>
       (fs_files Sample.empty_fs)
   /\ is_dir (snd (generate_new_cert Sample.env (Some ["certs"; "server.pem"]) None
                     "example.org" Sample.empty_fs))
        (parent ["certs"; "server.pem"]) = true
   /\ (None = None :> option path -> AttributeError = AttributeError))
  /\ generate_new_cert Sample.env (Some ["certs"; "server.pem"]) None
       Scenario.long_hostname Sample.empty_fs = (Raise ValueError, Sample.empty_fs).
Proof.
  split.
  - apply (proj1 (generate_new_cert_failure_leaves_new_certificate Sample.env
                    Sample.empty_fs ["certs"; "server.pem"] None "example.org"
                    AttributeError eq_refl eq_refl)).
    + reflexivity.
    + vm_compute. reflexivity.
  - exact (proj2 (generate_new_cert_failure_leaves_new_certificate Sample.env
                    Sample.empty_fs ["certs"; "server.pem"] None Scenario.long_hostname
                    AttributeError eq_refl eq_refl) eq_refl).
Defined.

(** ** The constructor of the server *)

Lemma init_endpoint_Ok {RT : PyRuntime} (hostname : option string) (port : option Z)
    (url : option string) (h : string) (p : Z) :
  init_endpoint hostname port url = Ok (h, p) -> h <> EmptyString /\ p <> 0%Z.
Proof.
  unfold init_endpoint.
  match goal with
  | |- obind ?m _ = _ -> _ => destruct m as [[oh op] | e]; simpl; [| discriminate]
  end.
  destruct (truthy_str oh) eqn:Hh; simpl; [| discriminate].
  destruct (truthy_int op) eqn:Hp; simpl; [| discriminate].
  apply truthy_str_Some in Hh as (h' & -> & Hh).
  apply truthy_int_Some in Hp as (p' & -> & Hp).
  intros [= <- <-]. auto.
Qed.

(** The certificate block returns only when both paths are given. *)
Lemma init_certificate_Ok_paths (env : cert_env) (certfile_path keyfile_path : option path)
    (hostname : string) (fs fs' : filesystem) :
  init_certificate env certfile_path keyfile_path hostname fs = (Ok tt, fs') ->
  exists cert key, certfile_path = Some cert /\ keyfile_path = Some key.
Proof.
  destruct certfile_path as [cert |], keyfile_path as [key |]; eauto.
  - unfold init_certificate, bind, path_of, ret, gets, raise. simpl.
    destruct (path_exists fs cert); simpl; [discriminate |].
    unfold generate_new_cert, bind, path_of, ret, raise, lift.
    destruct (generate_selfsigned_cert env hostname None None) as [pems | e];
      [| discriminate].
    destruct (mkdir_parents (parent cert) fs) as [[[] | e] fs1]; [| discriminate].
    destruct (write_bytes cert _ fs1) as [[[] | e] fs2]; discriminate.
  - discriminate.
  - discriminate.
Qed.

(** The constructor of the server. When it returns, hostname and port are
    the resolved endpoint, the hostname is not empty and the port is not
    zero, the three remaining arguments are stored as given and there is no
    channel object yet; without [generate_cert] the file system is
    untouched; with [generate_cert] both paths were given and the URL of the
    server starts with [wss]. When the endpoint cannot be resolved it raises
    that error and touches no file. With [generate_cert] set and no
    certificate path, which is what the default arguments give, it raises
    [AttributeError] and touches no file. *)
Theorem ServerBase_init_outcomes {RT : PyRuntime} (env : cert_env)
    (hostname : option string) (port : option Z) (url : option string)
    (certfile_path keyfile_path : option path) (generate_cert : bool)
    (auth_key : option string) (fs : filesystem) :
  (forall (s : ServerBase) (fs' : filesystem),
     ServerBase_init env hostname port url certfile_path keyfile_path generate_cert
       auth_key fs = (Ok s, fs') ->
     init_endpoint hostname port url = Ok (s_hostname s, s_port s)
     /\ s_hostname s <> EmptyString /\ s_port s <> 0%Z
     /\ s_certfile_path s = certfile_path /\ s_keyfile_path s = keyfile_path
     /\ s_auth_key s = auth_key /\ s_sio s = None
     /\ (generate_cert = false -> fs' = fs)
     /\ (generate_cert = true ->
         exists cert key,
           certfile_path = Some cert /\ keyfile_path = Some key
           /\ ServerBase_url s = "wss://" +:+ s_hostname s +:+ ":" +:+ pretty (s_port s)))
  /\ (forall e : pyexc,
        init_endpoint hostname port url = Raise e ->
        ServerBase_init env hostname port url certfile_path keyfile_path generate_cert
          auth_key fs = (Raise e, fs))
  /\ (raised (init_endpoint hostname port url) = false ->
      generate_cert = true -> certfile_path = None ->
      ServerBase_init env hostname port url certfile_path keyfile_path generate_cert
        auth_key fs = (Raise AttributeError, fs)).
Proof.
  unfold ServerBase_init, bind, lift, ret.
  destruct (init_endpoint hostname port url) as [[h p] | e] eqn:Hep; simpl.
  - split; [| split; [discriminate |]].
    + intros s fs'. destruct generate_cert.
      * destruct (init_certificate env certfile_path keyfile_path h fs)
          as [[[] | e] fs1] eqn:Hcert; [| discriminate].
        intros [= <- <-]. simpl.
        destruct (init_endpoint_Ok _ _ _ _ _ Hep) as [Hh Hp].
        destruct (init_certificate_Ok_paths _ _ _ _ _ _ Hcert) as (cert & key & -> & ->).
        repeat (split; [solve [auto | discriminate] |]).
        intros _. exists cert, key. auto.
      * intros [= <- <-]. simpl.
        destruct (init_endpoint_Ok _ _ _ _ _ Hep) as [Hh Hp].
        repeat (split; [solve [auto | discriminate] |]).
        discriminate.
    + intros _ -> ->. reflexivity.
  - split; [discriminate |]. split; [now intros e' [= <-] | discriminate].
Qed.

Lemma ServerBase_init_outcomes_witness :
  ServerBase_init (RT := Sample.runtime) Sample.env (Some "example.org") (Some 8443%Z) None
    None None true None Sample.empty_fs = (Raise AttributeError, Sample.empty_fs)
  /\ ServerBase_init (RT := Sample.runtime) Sample.env None None
       (Some "wss://example.org:99999") None None false None Sample.empty_fs =
       (Raise ValueError, Sample.empty_fs).
Proof.
  split.
  - exact (proj2 (proj2 (ServerBase_init_outcomes (RT := Sample.runtime) Sample.env
                           (Some "example.org") (Some 8443%Z) None None None true None
                           Sample.empty_fs)) eq_refl eq_refl eq_refl).
  - exact (proj1 (proj2 (ServerBase_init_outcomes (RT := Sample.runtime) Sample.env
                           None None (Some "wss://example.org:99999") None None false None
                           Sample.empty_fs)) ValueError eq_refl).
Defined.

(** ** Connecting the client *)

Lemma set_sio_same (c : ClientBase) : set_sio (c_sio c) c = c.
Proof. now destruct c. Qed.

(** Registering response handlers on a handle adds their channel names and
    changes nothing else. *)
Lemma register_response_handlers_handle (names : list string) (c : ClientBase)
    (t : sio_client) :
  c_sio c = Some t ->
  register_response_handlers names c =
    (Ok tt,
     set_sio (Some (SioClient (sio_connected t)
                      (list_to_set ((fun n => n +:+ "_rsp") <$> names) ∪ sio_handlers t)
                      (sio_sent t))) c).
Proof.
  revert c t. induction names as [| name rest IH]; intros c t Hc; simpl.
  - unfold ret. rewrite (left_id_L ∅ (∪)). f_equal.
    rewrite <- (set_sio_same c) at 1. rewrite Hc. now destruct t.
  - unfold bind, handle_response. rewrite Hc.
    rewrite (IH _ (SioClient (sio_connected t) ({[ name +:+ "_rsp" ]} ∪ sio_handlers t)
                     (sio_sent t))) by reflexivity.
    unfold set_sio. simpl. do 4 f_equal.
    rewrite (assoc_L (∪)). f_equal. apply (comm_L (∪)).
Qed.

(** [connect] is a no-op on a connected client, whatever URL it is given.
    On a client that has a handle that is not connected it does not run the
    callbacks again: it takes the new URL, if any, and attempts to connect
    the handle it has, keeping its registrations; a failed attempt raises
    [ConnectionError] and keeps the handle. On a client without a handle it
    makes a new handle, runs the callbacks on it, takes the new URL and then
    attempts to connect; when the callbacks raise, no attempt is made and
    the URL is not taken. *)
Theorem connect_runs_callbacks_for_new_handle_only (callbacks : M ClientBase unit)
    (reachable : bool) (url : option string) (c : ClientBase) :
  (connected c = true -> _connect callbacks reachable url c = (Ok tt, c))
  /\ (forall t : sio_client,
        c_sio c = Some t -> sio_connected t = false ->
        _connect callbacks reachable url c =
          if reachable
          then (Ok tt,
                set_sio (Some (SioClient true (sio_handlers t) (sio_sent t)))
                  (match url with Some u => set_server_url u c | None => c end))
          else (Raise (builtin_exc "ConnectionError"),
                match url with Some u => set_server_url u c | None => c end))
  /\ (forall names : list string,
        c_sio c = None ->
        _connect (register_response_handlers names) reachable url c =
          (if reachable then Ok tt else Raise (builtin_exc "ConnectionError"),
           set_sio (Some (SioClient reachable
                            (list_to_set ((fun n => n +:+ "_rsp") <$> names)) []))
             (match url with Some u => set_server_url u c | None => c end)))
  /\ (forall (e : pyexc) (c1 : ClientBase),
        c_sio c = None ->
        callbacks (set_sio (Some (SioClient false ∅ [])) c) = (Raise e, c1) ->
        _connect callbacks reachable url c = (Raise e, c1)).
Proof.
  split; [| split; [| split]].
  - intros Hconn. unfold _connect. now rewrite Hconn.
  - intros t Hc Hconn. unfold _connect, connected. rewrite Hc, Hconn. simpl.
    unfold _connect_prepare, bind, ret, modify, sio_connect. rewrite Hc.
    destruct url as [u |], reachable; simpl; rewrite ?Hc; reflexivity.
  - intros names Hc. unfold _connect, connected. rewrite Hc. simpl.
    unfold _connect_prepare, bind, ret, modify, client_connection_callbacks, sio_connect.
    rewrite Hc. simpl.
    rewrite (register_response_handlers_handle names _ (SioClient false ∅ [])) by reflexivity.
    simpl. rewrite (right_id_L ∅ (∪)).
    destruct url as [u |], reachable; reflexivity.
  - intros e c1 Hc Hcb. unfold _connect, connected. rewrite Hc. simpl.
    unfold _connect_prepare, bind, ret, modify, client_connection_callbacks.
    rewrite Hc. simpl. now rewrite Hcb.
Qed.

Lemma connect_runs_callbacks_for_new_handle_only_witness :
  _connect (register_response_handlers ["ping"]) true None Sample.client =
    (Ok tt, Sample.client)
  /\ _connect (register_response_handlers ["ping"]) true (Some "wss://example.org")
       Scenario.fresh_client =
       (Ok tt,
        set_sio (Some (SioClient true
                         (list_to_set ((fun n => n +:+ "_rsp") <$> ["ping"])) []))
          (set_server_url "wss://example.org" Scenario.fresh_client)).
Proof.
  split.
  - exact (proj1 (connect_runs_callbacks_for_new_handle_only
                    (register_response_handlers ["ping"]) true None Sample.client)
             eq_refl).
  - exact (proj1 (proj2 (proj2 (connect_runs_callbacks_for_new_handle_only
                                  (register_response_handlers ["ping"]) true
                                  (Some "wss://example.org") Scenario.fresh_client)))
             ["ping"] eq_refl).
Defined.

(** ** After a response timeout *)



(** ** The handshake, end to end *)

(** A client without a handle connecting to a server. Against a started
    server the attempt succeeds exactly when the client's auth data is the
    server's key: the client is then connected on a new handle with the
    handlers of its callbacks, and the server has admitted the session and
    changed nothing else. With any other auth data the client gets
    [ConnectionError], keeps a handle that is not connected, on which
    [make_request] raises [ConnectionError] and sends nothing, and the
    server is left as it was. A server that is not started cannot be
    reached. *)
Theorem connect_to_succeeds_iff_token_matches {RT : PyRuntime} (sid : string)
    (names : list string) (c : ClientBase) (s : ServerBase) :
  c_sio c = None ->
  (forall ts : sio_server,
     s_sio s = Some ts -> c_auth_data c = auth_key_value (s_auth_key s) ->
     connect_to sid (register_response_handlers names) c s =
       (Ok tt,
        set_sio (Some (SioClient true
                         (list_to_set ((fun n => n +:+ "_rsp") <$> names)) [])) c,
        set_server_sio
          (Some (SioServer (srv_handlers ts) ({[ sid ]} ∪ srv_sessions ts)
                   (srv_emitted ts))) s))
  /\ (s_sio s = None \/ c_auth_data c <> auth_key_value (s_auth_key s) ->
      connect_to sid (register_response_handlers names) c s =
        (Raise (builtin_exc "ConnectionError"),
         set_sio (Some (SioClient false
                          (list_to_set ((fun n => n +:+ "_rsp") <$> names)) [])) c,
         s)
      /\ forall (E : string) (D : pyval),
           make_request (mkReq (VStr E) D)
             (set_sio (Some (SioClient false
                               (list_to_set ((fun n => n +:+ "_rsp") <$> names)) [])) c) =
             (Raise (builtin_exc "ConnectionError"),
              set_sio (Some (SioClient false
                               (list_to_set ((fun n => n +:+ "_rsp") <$> names)) [])) c)).
Proof.
  intros Hc.
  assert (Hprep : _connect_prepare (register_response_handlers names) None c =
                    (Ok tt,
                     set_sio (Some (SioClient false
                                      (list_to_set ((fun n => n +:+ "_rsp") <$> names)) []))
                       c)).
  { unfold _connect_prepare, bind, ret, modify, client_connection_callbacks.
    rewrite Hc. simpl.
    rewrite (register_response_handlers_handle names _ (SioClient false ∅ [])) by reflexivity.
    simpl. now rewrite (right_id_L ∅ (∪)). }
  split.
  - intros ts Hs Hauth. unfold connect_to, connected. rewrite Hc, Hprep. simpl.
    unfold server_reach, server_accept, connect_handler. rewrite Hs.
    rewrite (proj2 (py_ne_optstr_false _ _) Hauth), Hs. reflexivity.
  - intros Hbad. split; [| reflexivity].
    unfold connect_to, connected. rewrite Hc, Hprep. simpl.
    unfold server_reach, server_accept, connect_handler.
    destruct Hbad as [Hs | Hauth].
    + rewrite Hs. reflexivity.
    + destruct (s_sio s); [| reflexivity].
      rewrite (proj2 (py_ne_optstr_true _ _) Hauth). reflexivity.
Qed.

Lemma connect_to_succeeds_iff_token_matches_witness :
  connect_to "sid2" (register_response_handlers ["ping"])
    Scenario.fresh_client Scenario.open_server =
    (Ok tt,
     set_sio (Some (SioClient true
                      (list_to_set ((fun n => n +:+ "_rsp") <$> ["ping"])) []))
       Scenario.fresh_client,
     set_server_sio
       (Some (SioServer {[ "ping_req" := Sample.ping ]} ({[ "sid2" ]} ∪ ∅) []))
       Scenario.open_server)
  /\ connect_to "sid3" (register_response_handlers ["ping"])
       Scenario.intruder Scenario.open_server =
       (Raise (builtin_exc "ConnectionError"),
        set_sio (Some (SioClient false
                         (list_to_set ((fun n => n +:+ "_rsp") <$> ["ping"])) []))
          Scenario.intruder,
        Scenario.open_server).
Proof.
  split.
  - exact (proj1 (connect_to_succeeds_iff_token_matches (RT := Sample.runtime) "sid2"
                    ["ping"] Scenario.fresh_client Scenario.open_server eq_refl)
             (SioServer {[ "ping_req" := Sample.ping ]} ∅ []) eq_refl eq_refl).
  - refine (proj1 (proj2 (connect_to_succeeds_iff_token_matches (RT := Sample.runtime)
                            "sid3" ["ping"] Scenario.intruder Scenario.open_server eq_refl)
                     (or_intror _))).
    discriminate.
Defined.

(** ** The exception map of a module *)

Lemma elem_of_keys (name : string) (m : module_member)
    (members : list (string * module_member)) :
  (name, m) ∈ members -> name ∈ members.*1.
Proof. intros Hin. apply list_elem_of_fmap. now exists (name, m). Qed.

Lemma build_exception_map_from_lookup (acc : gmap string excclass)
    (members : list (string * module_member)) (name : string) (cls : excclass) :
  NoDup members.*1 ->
  build_exception_map_from acc members !! name = Some cls
  <-> (name, ExceptionClass cls) ∈ members
      \/ ((forall c, (name, ExceptionClass c) ∉ members) /\ acc !! name = Some cls).
Proof.
  revert acc. induction members as [| [n m] rest IH]; intros acc Hnodup.
  - simpl. split; [intros Hacc; right; split; [intros c; apply not_elem_of_nil | exact Hacc] |].
    intros [Hin | [_ Hacc]]; [inversion Hin | exact Hacc].
  - rewrite fmap_cons in Hnodup. apply NoDup_cons in Hnodup as [Hn Hrest].
    assert (Hfresh : forall c, (n, ExceptionClass c) ∉ rest).
    { intros c Hin. apply Hn. now apply (elem_of_keys _ (ExceptionClass c)). }
    destruct m as [c | |]; simpl; rewrite (IH _ Hrest).
    + split.
      * intros [Hin | [Hnot Hins]]; [left; now right |].
        destruct (decide (name = n)) as [-> | Hne].
        -- rewrite lookup_insert_eq in Hins. injection Hins as ->. left. left.
        -- rewrite lookup_insert_ne in Hins by congruence. right. split; [| exact Hins].
           intros c' Hin. apply elem_of_cons in Hin as [[= -> _] | Hin];
             [contradiction | now apply (Hnot c')].
      * intros [Hin | [Hnot Hacc]].
        -- apply elem_of_cons in Hin as [[= -> ->] | Hin]; [| now left].
           right. split; [exact Hfresh | apply lookup_insert_eq].
        -- assert (Hne : name <> n).
           { intros ->. apply (Hnot c). left. }
           right. split.
           ++ intros c' Hin. apply (Hnot c'). now right.
           ++ now rewrite lookup_insert_ne by congruence.
    + split.
      * intros [Hin | [Hnot Hacc]]; [left; now right |].
        right. split; [| exact Hacc].
        intros c' Hin. apply elem_of_cons in Hin as [[=] | Hin]. now apply (Hnot c').
      * intros [Hin | [Hnot Hacc]].
        -- apply elem_of_cons in Hin as [[=] | Hin]. now left.
        -- right. split; [| exact Hacc]. intros c' Hin. apply (Hnot c'). now right.
    + split.
      * intros [Hin | [Hnot Hacc]]; [left; now right |].
        right. split; [| exact Hacc].
        intros c' Hin. apply elem_of_cons in Hin as [[=] | Hin]. now apply (Hnot c').
      * intros [Hin | [Hnot Hacc]].
        -- apply elem_of_cons in Hin as [[=] | Hin]. now left.
        -- right. split; [| exact Hacc]. intros c' Hin. apply (Hnot c'). now right.
Qed.

(** The exception map built from the members of a module, whose names are
    distinct: a name maps to a class exactly when the module has an
    exception class under that name, so no other class and no other value
    gets into the map. With this map, an error response that names an
    exception class of the module makes [verify_response] call that class
    with the message alone: a class that can be called so is raised as an
    instance carrying the message, the traceback and the event; a class that
    cannot, as [ResponseError] in the map of the library's own module, makes
    [verify_response] raise [TypeError]. An error response that names
    anything else is raised as [ResponseError]. *)
Theorem build_exception_map_holds_exception_classes {RT : PyRuntime}
    (members : list (string * module_member)) :
  NoDup members.*1 ->
  (forall (name : string) (cls : excclass),
     build_exception_map members !! name = Some cls
     <-> (name, ExceptionClass cls) ∈ members)
  /\ (forall (name : string) (cls : excclass) (rsp : Rsp) (message tb : pyval),
        (name, ExceptionClass cls) ∈ members ->
        rsp_status rsp <> VStr Status.SUCCESS ->
        rsp_data rsp = VDict [("name", VStr name); ("message", message); ("tb", tb)] ->
        verify_response (build_exception_map members) rsp =
          if exc_accepts_message cls
          then Raise (PyExc cls [message] (Some tb) (Some (rsp_event rsp)))
          else Raise TypeError)
  /\ (forall (name : string) (rsp : Rsp) (message tb : pyval),
        (forall cls, (name, ExceptionClass cls) ∉ members) ->
        rsp_status rsp <> VStr Status.SUCCESS ->
        rsp_data rsp = VDict [("name", VStr name); ("message", message); ("tb", tb)] ->
        verify_response (build_exception_map members) rsp =
          Raise (ResponseError
                   [VStr (response_error_message
                            (mkSerializableException (VStr name) message tb)
                            (rsp_event rsp))]
                   tb)).
Proof.
  intros Hnodup.
  assert (Hlookup : forall name cls,
            build_exception_map members !! name = Some cls
            <-> (name, ExceptionClass cls) ∈ members).
  { intros name cls. unfold build_exception_map.
    rewrite (build_exception_map_from_lookup _ _ _ _ Hnodup). split.
    - intros [Hin | [_ Hempty]]; [exact Hin | now rewrite lookup_empty in Hempty].
    - now left. }
  split; [exact Hlookup |]. split.
  - intros name cls rsp message tb Hin Hst Hdata.
    apply py_ne_str_true in Hst. unfold verify_response. rewrite Hst, Hdata.
    change (SerializableException_from_dict
              (VDict [("name", VStr name); ("message", message); ("tb", tb)]))
      with (Ok (mkSerializableException (VStr name) message tb)).
    simpl. now rewrite (proj2 (Hlookup name cls) Hin).
  - intros name rsp message tb Hnot Hst Hdata.
    apply py_ne_str_true in Hst. unfold verify_response. rewrite Hst, Hdata.
    change (SerializableException_from_dict
              (VDict [("name", VStr name); ("message", message); ("tb", tb)]))
      with (Ok (mkSerializableException (VStr name) message tb)).
    simpl.
    destruct (build_exception_map members !! name) as [cls |] eqn:Hget; [| reflexivity].
    apply Hlookup in Hget. now destruct (Hnot cls).
Qed.

Lemma build_exception_map_holds_exception_classes_witness :
  build_exception_map Scenario.errors_module !! "JobError" = Some Sample.JobError
  /\ build_exception_map Scenario.errors_module !! "Helper" = None
  /\ verify_response (RT := Sample.runtime) (build_exception_map Scenario.errors_module)
       (mkRsp (VStr "error") (VStr "job")
          (VDict [("name", VStr "JobError"); ("message", VStr "no such job");
                  ("tb", VStr "trace")])) =
       Raise (PyExc Sample.JobError [VStr "no such job"] (Some (VStr "trace"))
                (Some (VStr "job")))
  /\ verify_response (RT := Sample.runtime) (build_exception_map Scenario.errors_module)
       (mkRsp (VStr "error") (VStr "job")
          (VDict [("name", VStr "ResponseError"); ("message", VStr "no such job");
                  ("tb", VStr "trace")])) = Raise TypeError.
Proof.
  assert (Hnodup : NoDup Scenario.errors_module.*1) by decide_by_computation.
  destruct (build_exception_map_holds_exception_classes (RT := Sample.runtime)
              Scenario.errors_module Hnodup) as (Hlookup & Hknown & _).
  split; [| split; [| split]].
  - apply Hlookup. apply list_elem_of_here.
  - vm_compute. reflexivity.
  - apply (Hknown "JobError" Sample.JobError
             (mkRsp (VStr "error") (VStr "job")
                (VDict [("name", VStr "JobError"); ("message", VStr "no such job");
                        ("tb", VStr "trace")]))
             (VStr "no such job") (VStr "trace")).
    + apply list_elem_of_here.
    + discriminate.
    + reflexivity.
  - apply (Hknown "ResponseError" ResponseError_class
             (mkRsp (VStr "error") (VStr "job")
                (VDict [("name", VStr "ResponseError"); ("message", VStr "no such job");
                        ("tb", VStr "trace")]))
             (VStr "no such job") (VStr "trace")).
    + apply list_elem_of_further, list_elem_of_here.
    + discriminate.
    + reflexivity.
Defined.

(** ** Registering request handlers *)

(** [handle_request] needs the channel object: on a server that is not
    started it raises [AttributeError]. On a started server it registers the
    function under its name followed by [_req] and changes nothing else:
    emissions and sessions are as before, the handlers of functions with
    other names are as before, and a request of an admitted session on that
    channel runs the wrapper of the function. Registering a second function
    with the same name replaces the first. *)
Theorem handle_request_registers_on_request_channel {RT : PyRuntime} (name : string)
    (func : handler) (s : ServerBase) :
  (s_sio s = None -> handle_request name func s = (Raise AttributeError, s))
  /\ (forall t : sio_server,
        s_sio s = Some t ->
        exists (s' : ServerBase) (t' : sio_server),
          handle_request name func s = (Ok tt, s')
          /\ s_sio s' = Some t'
          /\ emitted s' = emitted s /\ sessions s' = sessions s
          /\ (forall other : string,
                other <> name ->
                srv_handlers t' !! (other +:+ "_req") = srv_handlers t !! (other +:+ "_req"))
          /\ (forall (sid : string) (data : pyval),
                sid ∈ sessions s ->
                server_deliver sid (name +:+ "_req") data s' =
                  handle_request_wrapper func sid data s')
          /\ (forall (g : handler) (sid : string) (data : pyval),
                sid ∈ sessions s ->
                server_deliver sid (name +:+ "_req") data
                  (snd (handle_request name g s')) =
                  handle_request_wrapper g sid data (snd (handle_request name g s')))).
Proof.
  unfold handle_request. split.
  - intros Hs. now rewrite Hs.
  - intros t Hs. rewrite Hs. eexists. eexists.
    split; [reflexivity |]. split; [reflexivity |].
    unfold emitted, sessions. rewrite Hs. simpl.
    split; [reflexivity |]. split; [reflexivity |]. split; [| split].
    + intros other Hne. apply lookup_insert_ne.
      intros Heq. apply string_app_inj_l in Heq. congruence.
    + intros sid data Hsid. unfold server_deliver. simpl.
      now rewrite bool_decide_eq_true_2, lookup_insert_eq.
    + intros g sid data Hsid. unfold server_deliver. simpl.
      now rewrite bool_decide_eq_true_2, lookup_insert_eq.
Qed.

Lemma handle_request_registers_on_request_channel_witness :
  handle_request "job" Sample.failing
    (mkServer "example.org" 8443 None None None None) =
    (Raise AttributeError, mkServer "example.org" 8443 None None None None)
  /\ exists (s' : ServerBase) (t' : sio_server),
       handle_request "job" Sample.failing Sample.server = (Ok tt, s')
       /\ s_sio s' = Some t'
       /\ emitted s' = emitted Sample.server /\ sessions s' = sessions Sample.server
       /\ (forall other : string,
             other <> "job" ->
             srv_handlers t' !! (other +:+ "_req") =
               srv_handlers (SioServer {[ "ping_req" := Sample.ping ]} {[ "sid1" ]} [])
                 !! (other +:+ "_req"))
       /\ (forall (sid : string) (data : pyval),
             sid ∈ sessions Sample.server ->
             server_deliver (RT := Sample.runtime) sid ("job" +:+ "_req") data s' =
               handle_request_wrapper (RT := Sample.runtime) Sample.failing sid data s')
       /\ (forall (g : handler) (sid : string) (data : pyval),
             sid ∈ sessions Sample.server ->
             server_deliver (RT := Sample.runtime) sid ("job" +:+ "_req") data
               (snd (handle_request "job" g s')) =
               handle_request_wrapper (RT := Sample.runtime) g sid data
                 (snd (handle_request "job" g s'))).
Proof.
  split.
  - exact (proj1 (handle_request_registers_on_request_channel (RT := Sample.runtime)
                    "job" Sample.failing
                    (mkServer "example.org" 8443 None None None None)) eq_refl).
  - exact (proj2 (handle_request_registers_on_request_channel (RT := Sample.runtime)
                    "job" Sample.failing Sample.server)
             (SioServer {[ "ping_req" := Sample.ping ]} {[ "sid1" ]} []) eq_refl).
Defined.

(** ** A request that nobody answers *)



(** ** From construction to the first response *)

(** A client without a handle is admitted by a started server that has its
    auth data as key. *)
Lemma connect_to_admitted (sid : string) (names : list string) (c : ClientBase)
    (s : ServerBase) (ts : sio_server) :
  c_sio c = None -> s_sio s = Some ts ->
  c_auth_data c = auth_key_value (s_auth_key s) ->
  connect_to sid (register_response_handlers names) c s =
    (Ok tt,
     set_sio (Some (SioClient true
                      (list_to_set ((fun n => n +:+ "_rsp") <$> names)) [])) c,
     set_server_sio
       (Some (SioServer (srv_handlers ts) ({[ sid ]} ∪ srv_sessions ts)
                (srv_emitted ts))) s).
Proof.
  intros Hc Hs Hauth. unfold connect_to, connected. rewrite Hc.
  unfold _connect_prepare, bind, ret, modify, client_connection_callbacks.
  rewrite Hc. simpl.
  rewrite (register_response_handlers_handle names _ (SioClient false ∅ [])) by reflexivity.
  simpl. rewrite (right_id_L ∅ (∪)).
  unfold server_reach, server_accept, connect_handler. rewrite Hs.
  rewrite (proj2 (py_ne_optstr_false _ _) Hauth), Hs. reflexivity.
Qed.

(** From the constructor to the first response. A newly constructed client
    whose callbacks register a response handler for [E], connecting with the
    server's key to a started server that has a request handler for [E]:
    the connection is made, and a request for [E] then returns the success
    response that the handler gives for the session of the client, the event
    and the data of the request as the wire carries it, with the event [E]
    and the handler's data as the wire carries it. *)
Theorem new_client_gets_first_response {RT : PyRuntime} (sid E : string)
    (D D' ev0 : pyval) (names : list string) (server_url : string)
    (exception_map : gmap string excclass) (auth_data : pyval) (ssl_verify : bool)
    (s : ServerBase) (ts : sio_server) (func : handler) :
  s_sio s = Some ts ->
  auth_data = auth_key_value (s_auth_key s) ->
  E ∈ names ->
  srv_handlers ts !! (E +:+ "_req") = Some func ->
  func sid (VStr E) (wire_data D) = Ok (RetRsp (mkRsp (VStr Status.SUCCESS) ev0 D')) ->
  exists (c' : ClientBase) (s' : ServerBase),
    connect_to sid (register_response_handlers names)
      (ClientBase_init server_url exception_map auth_data ssl_verify) s = (Ok tt, c', s')
    /\ connected c' = true
    /\ sid ∈ sessions s'
    /\ exchange sid (mkReq (VStr E) D) c' s' =
         Ok (mkRsp (VStr Status.SUCCESS) (VStr E) (wire_data D')).
Proof.
  intros Hs Hauth Hname Hfunc Hanswer.
  eexists. eexists.
  split; [apply (connect_to_admitted sid names _ s ts); [reflexivity | exact Hs | exact Hauth] |].
  split; [reflexivity |]. split.
  - unfold sessions. simpl. apply elem_of_union_l. now apply elem_of_singleton.
  - eapply exchange_success.
    + reflexivity.
    + reflexivity.
    + simpl. apply elem_of_list_to_set, list_elem_of_fmap. now exists E.
    + reflexivity.
    + simpl. apply elem_of_union_l. now apply elem_of_singleton.
    + exact Hfunc.
    + exact Hanswer.
Qed.

Lemma new_client_gets_first_response_witness :
  exists (c' : ClientBase) (s' : ServerBase),
    connect_to "sid2" (register_response_handlers ["ping"])
      (ClientBase_init "wss://example.org:8443" Sample.exception_map (VStr "secret") true)
      Scenario.open_server = (Ok tt, c', s')
    /\ connected c' = true
    /\ "sid2" ∈ sessions s'
    /\ exchange (RT := Sample.runtime) "sid2" (mkReq (VStr "ping") (VInt 1)) c' s' =
         Ok (mkRsp (VStr Status.SUCCESS) (VStr "ping")
               (wire_data (RT := Sample.runtime) (VInt 1))).
Proof.
  apply (new_client_gets_first_response (RT := Sample.runtime) "sid2" "ping"
           (VInt 1) (VInt 1) VNone ["ping"] "wss://example.org:8443" Sample.exception_map
           (VStr "secret") true Scenario.open_server
           (SioServer {[ "ping_req" := Sample.ping ]} ∅ []) Sample.ping).
  - reflexivity.
  - reflexivity.
  - apply list_elem_of_here.
  - vm_compute. reflexivity.
  - reflexivity.
Defined.
